(** * alx_travel_app / listings: booking validation, pricing, state machine
      and query views, embedded from the Python sources

    - [models.py]       -> [Listing], [Booking], the tables of [DB]
    - [permissions.py]  -> [IsOwnerOrReadOnly], [IsBookingOwnerOrHost]
    - [serializers.py]  -> [BookingSerializer], [ListingSerializer]
    - [views.py]        -> [ListingViewSet], [BookingViewSet]

    Python exceptions are the constructors of [exn]; a function that may
    raise returns a [result].  The database is passed explicitly and
    every statement is committed as it runs: a view that writes takes
    the tables and either raises before it has written, or returns the
    tables as it leaves them together with what happens next, the
    response or the exception raised while the response is built. *)

From Stdlib Require Import ZArith List String Ascii Bool Lia.
From Stdlib Require Import DecimalString.
From Stdlib Require Import Sorting.Sorted Sorting.Permutation.
Import ListNotations.
Open Scope string_scope.
Open Scope list_scope.
Open Scope Z_scope.

(* ------------------------------------------------------------------ *)
(** ** Exceptions and results *)

(** The argument of [serializers.ValidationError]: a plain message (what
    [validate] raises) or the per-field dictionary the serializer fields
    collect. *)
Inductive detail : Type :=
| Message (msg : string)
| FieldErrors (errors : list (string * string)).

Inductive exn : Type :=
| ValidationError (d : detail)      (* rest_framework: answered 400 *)
| Http404                           (* get_object_or_404: answered 404 *)
| PermissionDenied                  (* check_object_permissions: answered 403 *)
| KeyError (key : string)           (* data[key] on an absent key *)
| NameError (name : string)         (* an unbound global name *)
| DoesNotExist                      (* a dangling foreign key *)
| IntegrityError                    (* a NOT NULL column left unset *)
| AttributeError (name : string).   (* an attribute the object lacks *)

Inductive result (A : Type) : Type :=
| Ok (a : A)
| Raise (e : exn).
Arguments Ok {A} a.
Arguments Raise {A} e.

Definition bind {A B : Type} (r : result A) (k : A -> result B) : result B :=
  match r with
  | Ok a => k a
  | Raise e => Raise e
  end.

Notation "x <- r ;; k" := (bind r (fun x => k))
  (at level 61, r at next level, right associativity).
Notation "' p <- r ;; k" := (bind r (fun p => k))
  (at level 61, p pattern, r at next level, right associativity).

(** [d[key]] on a dictionary whose entry is [v]. *)
Definition getitem {A : Type} (key : string) (v : option A) : result A :=
  match v with
  | Some a => Ok a
  | None => Raise (KeyError key)
  end.

(** Resolution of a global name: the names bound in the module, then
    nothing else (none of the names looked up below is a builtin). *)
Definition lookup_global (globals : list string) (name : string) : result unit :=
  if existsb (String.eqb name) globals then Ok tt else Raise (NameError name).

(** The status code the framework answers with when the exception leaves
    the view (anything it does not handle is a server error). *)
Definition exception_status (e : exn) : Z :=
  match e with
  | ValidationError _ => 400
  | Http404 => 404
  | PermissionDenied => 403
  | KeyError _ | NameError _ | DoesNotExist | IntegrityError
  | AttributeError _ => 500
  end.

(* ------------------------------------------------------------------ *)
(** ** [datetime.date] *)

Module PyDate.

(** A date is its proleptic Gregorian ordinal ([date.toordinal()],
    0001-01-01 is day 1): comparison, [(d2 - d1).days] and
    [d + timedelta(days=n)] are then those of [Z]. *)
Definition date : Type := Z.

Definition is_leap (year : Z) : bool :=
  (year mod 4 =? 0) && (negb (year mod 100 =? 0) || (year mod 400 =? 0)).

Definition days_before_year (year : Z) : Z :=
  let y := year - 1 in
  y * 365 + y / 4 - y / 100 + y / 400.

Definition DAYS_IN_MONTH : list Z :=
  [-1; 31; 28; 31; 30; 31; 30; 31; 31; 30; 31; 30; 31].

Definition DAYS_BEFORE_MONTH : list Z :=
  [-1; 0; 31; 59; 90; 120; 151; 181; 212; 243; 273; 304; 334].

Definition index (l : list Z) (i : Z) : Z := nth (Z.to_nat i) l 0.

Definition b2z (b : bool) : Z := if b then 1 else 0.

Definition days_before_month (year month : Z) : Z :=
  index DAYS_BEFORE_MONTH month + b2z ((2 <? month) && is_leap year).

Definition ymd2ord (year month day : Z) : Z :=
  days_before_year year + days_before_month year month + day.

Definition DI400Y : Z := days_before_year 401.
Definition DI100Y : Z := days_before_year 101.
Definition DI4Y : Z := days_before_year 5.

Definition ord2ymd (n0 : Z) : Z * Z * Z :=
  let n := n0 - 1 in
  let n400 := n / DI400Y in
  let n := n mod DI400Y in
  let year := n400 * 400 + 1 in
  let n100 := n / DI100Y in
  let n := n mod DI100Y in
  let n4 := n / DI4Y in
  let n := n mod DI4Y in
  let n1 := n / 365 in
  let n := n mod 365 in
  let year := year + n100 * 100 + n4 * 4 + n1 in
  if (n1 =? 4) || (n100 =? 4) then (year - 1, 12, 31)
  else
    let leapyear := (n1 =? 3) && (negb (n4 =? 24) || (n100 =? 3)) in
    let month := Z.shiftr (n + 50) 5 in
    let preceding := index DAYS_BEFORE_MONTH month + b2z ((2 <? month) && leapyear) in
    if n <? preceding then
      let month := month - 1 in
      let preceding :=
        preceding - (index DAYS_IN_MONTH month + b2z ((month =? 2) && leapyear)) in
      (year, month, n - preceding + 1)
    else (year, month, n - preceding + 1).

(** [str(n)] for an integer. *)
Definition str (n : Z) : string := NilZero.string_of_int (Z.to_int n).

Fixpoint zeros (k : nat) : string :=
  match k with
  | O => EmptyString
  | S k' => String "0" (zeros k')
  end.

(** ["%0<width>d" % n] for [n >= 0]. *)
Definition zfill (width : nat) (n : Z) : string :=
  let s := str n in
  (zeros (width - String.length s) ++ s)%string.

(** [date.isoformat()]: ["%04d-%02d-%02d" % (year, month, day)]. *)
Definition isoformat (d : date) : string :=
  let '(y, m, dd) := ord2ymd d in
  (zfill 4 y ++ "-" ++ zfill 2 m ++ "-" ++ zfill 2 dd)%string.

(** [datetime.date(year, month, day)]. *)
Definition mk (year month day : Z) : date := ymd2ord year month day.

(** [(d2 - d1).days]. *)
Definition days_between (d2 d1 : date) : Z := d2 - d1.

(** [d + datetime.timedelta(days=n)].  (Python raises [OverflowError]
    past 9999-12-31; the one sum below stays at or under a stored
    check_out.) *)
Definition add_days (d : date) (n : Z) : date := d + n.

End PyDate.

(* ------------------------------------------------------------------ *)
(** ** models.py *)

(** [django.contrib.auth.models.User], as far as the views read it.
    Model instances compare by primary key. *)
Record User : Type := { user_id : Z; is_staff : bool }.

Module Listing.

Inductive PROPERTY_TYPES : Type := house | apartment | condo | villa | cabin.

(** [price_per_night] is a [DecimalField] with two decimal places: it
    is held in hundredths, so that [days * price_per_night] is exact.
    The timestamps [created_at] and [updated_at] are not held: no view,
    serializer or permission reads them ([created_at] orders the
    table, whose rows are kept newest first), and every [save()]
    rewrites [updated_at]. *)
Record t : Type := {
  id : Z;
  host : Z;                       (* ForeignKey(User) *)
  title : string;
  description : string;
  property_type : PROPERTY_TYPES;
  price_per_night : Z;
  bedrooms : Z;
  bathrooms : Z;
  max_guests : Z;
  address : string;
  city : string;
  country : string;
  amenities : list string;
  is_available : bool
}.

(** [obj.reviews] on a listing.  A related manager of that name exists
    only if some model declares a relation to [Listing] with
    [related_name='reviews']; [models.py] declares one relation to it,
    [Booking.listing] with [related_name='bookings'], and no model of
    reviews, so the attribute lookup raises.  (The rows would be the
    ratings of the listing's reviews.) *)
Definition reviews (obj : t) : result (list Z) :=
  Raise (AttributeError "reviews").

End Listing.

Module Booking.

Inductive STATUS_CHOICES : Type := pending | confirmed | cancelled | completed.

(** The stored value of each choice. *)
Definition value (s : STATUS_CHOICES) : string :=
  match s with
  | pending => "pending"
  | confirmed => "confirmed"
  | cancelled => "cancelled"
  | completed => "completed"
  end.

Definition status_eqb (a b : STATUS_CHOICES) : bool :=
  match a, b with
  | pending, pending | confirmed, confirmed
  | cancelled, cancelled | completed, completed => true
  | _, _ => false
  end.

(** [total_price] is in hundredths, as [Listing.price_per_night].
    The timestamps [created_at] and [updated_at] are not held, as for
    [Listing]: what is said below of the columns a request writes is
    said of the columns of this record, and [updated_at] is rewritten
    by every [save()] besides. *)
Record t : Type := {
  id : Z;
  listing : Z;                    (* ForeignKey(Listing) *)
  guest : Z;                      (* ForeignKey(User) *)
  check_in : PyDate.date;
  check_out : PyDate.date;
  number_of_guests : Z;
  total_price : Z;
  status : STATUS_CHOICES;
  special_requests : string
}.

Definition set_status (b : t) (s : STATUS_CHOICES) : t :=
  {| id := id b; listing := listing b; guest := guest b;
     check_in := check_in b; check_out := check_out b;
     number_of_guests := number_of_guests b; total_price := total_price b;
     status := s; special_requests := special_requests b |}.

End Booking.

(** The tables.  Both models declare [ordering = ['-created_at']] and
    [created_at] is set once, at insertion: rows are kept newest first,
    which is the order every unordered queryset yields them in.  The
    sequences give the next primary key of each table. *)
Record DB : Type := {
  users : list User;
  listings : list Listing.t;
  bookings : list Booking.t;
  listing_seq : Z;
  booking_seq : Z
}.

Definition with_bookings (db : DB) (rows : list Booking.t) : DB :=
  {| users := users db; listings := listings db; bookings := rows;
     listing_seq := listing_seq db; booking_seq := booking_seq db |}.

(** [booking.listing]: the row the foreign key points to. *)
Definition related_listing (db : DB) (b : Booking.t) : result Listing.t :=
  match find (fun l => Listing.id l =? Booking.listing b) (listings db) with
  | Some l => Ok l
  | None => Raise DoesNotExist
  end.

(** [listing__host=user] in a filter on bookings: the join keeps the
    rows whose listing row has that host. *)
Definition listing__host (db : DB) (b : Booking.t) (uid : Z) : bool :=
  match find (fun l => Listing.id l =? Booking.listing b) (listings db) with
  | Some l => Listing.host l =? uid
  | None => false
  end.

(** [booking.save()] of an instance read from the table: UPDATE of the
    row with its primary key. *)
Definition save_booking (db : DB) (b : Booking.t) : DB :=
  with_bookings db
    (map (fun r => if Booking.id r =? Booking.id b then b else r) (bookings db)).

(* ------------------------------------------------------------------ *)
(** ** permissions.py *)

Inductive method : Type := GET | HEAD | OPTIONS | POST | PUT | PATCH | DELETE.

Definition SAFE_METHODS (m : method) : bool :=
  match m with
  | GET | HEAD | OPTIONS => true
  | _ => false
  end.

Module IsOwnerOrReadOnly.

Definition has_object_permission (m : method) (user : User) (obj : Listing.t) : bool :=
  if SAFE_METHODS m then true
  else Listing.host obj =? user_id user.

End IsOwnerOrReadOnly.

Module IsBookingOwnerOrHost.

(** [obj.guest == request.user or obj.listing.host == request.user]:
    the listing is read only when the first test fails. *)
Definition guest_or_host (db : DB) (user : User) (obj : Booking.t) : result bool :=
  if Booking.guest obj =? user_id user then Ok true
  else
    l <- related_listing db obj ;;
    Ok (Listing.host l =? user_id user).

Definition has_object_permission (db : DB) (m : method) (user : User) (obj : Booking.t)
  : result bool :=
  if SAFE_METHODS m then guest_or_host db user obj
  else guest_or_host db user obj.

End IsBookingOwnerOrHost.

(* ------------------------------------------------------------------ *)
(** ** Responses *)

(** The mean of the ratings as [get_average_rating] computes it: the
    quotient [total / count], a float, kept as its two operands. *)
Record mean : Type := { sum_of_ratings : Z; number_of_ratings : Z }.

(** What a response carries.  [ListingBody] and [BookingBody] are the
    [data] of the two serializers: the fields of the row, for a listing
    its [average_rating], for a booking its nested listing (the nested
    summaries of host and guest, which read the user's name and e-mail,
    are not carried). *)
#[warnings="-register-all"]
Inductive body : Type :=
| Error (error : string)                       (* {'error': ...} *)
| ListingBody (l : Listing.t) (average_rating : option mean)
| BookingBody (b : Booking.t) (listing : body)
| BookingList (rows : list body)               (* many=True *)
| Page (results : list body)                   (* a paginated list *)
| BookedDates (listing_id : Z) (booked_dates : list string) (message : string)
| NoContent.

Record Response : Type := { data : body; status : Z }.

Definition HTTP_200_OK : Z := 200.
Definition HTTP_201_CREATED : Z := 201.
Definition HTTP_204_NO_CONTENT : Z := 204.
Definition HTTP_400_BAD_REQUEST : Z := 400.
Definition HTTP_403_FORBIDDEN : Z := 403.

(** [Response(data)] with the default status, where building [data]
    may raise. *)
Definition respond (code : Z) (serialized : result body) : result Response :=
  b <- serialized ;;
  Ok {| data := b; status := code |}.

(** A serializer with [many=True]: the items in order, stopping at the
    first that raises. *)
Fixpoint many {A : Type} (to_representation : A -> result body) (l : list A)
  : result (list body) :=
  match l with
  | [] => Ok []
  | x :: rest =>
      b <- to_representation x ;;
      bs <- many to_representation rest ;;
      Ok (b :: bs)
  end.

(* ------------------------------------------------------------------ *)
(** ** serializers.py *)

(** One serializer field reading its entry of the request: an absent
    entry is an error when the field is required and the update is not
    partial, and is skipped otherwise; a present one is converted. *)
Definition run_field {A B : Type} (partial required : bool) (name : string)
    (raw : option A) (to_internal_value : A -> B + string)
  : option B * list (string * string) :=
  match raw with
  | None =>
      if required && negb partial
      then (None, [(name, "This field is required.")])
      else (None, [])
  | Some a =>
      match to_internal_value a with
      | inl b => (Some b, [])
      | inr msg => (None, [(name, msg)])
      end
  end.

Definition dquote : string := String (ascii_of_nat 34) EmptyString.

(** [PrimaryKeyRelatedField(queryset=...)]. *)
Definition related_field {A : Type} (queryset : list A) (pk_of : A -> Z) (pk : Z)
  : A + string :=
  match find (fun o => pk_of o =? pk) queryset with
  | Some o => inl o
  | None =>
      inr ("Invalid pk " ++ dquote ++ PyDate.str pk ++ dquote
             ++ " - object does not exist.")%string
  end.

(** The value of a column: the entry of the validated data, or the
    model field's default. *)
Definition default {A : Type} (v : option A) (d : A) : A :=
  match v with
  | Some a => a
  | None => d
  end.

(** A column without a default left unset. *)
Definition not_null {A : Type} (v : option A) : result A :=
  match v with
  | Some a => Ok a
  | None => Raise IntegrityError
  end.

Module ListingSerializer.

Module Initial.
Record t : Type := {
  host_id : option Z;
  title : option string;
  description : option string;
  property_type : option Listing.PROPERTY_TYPES;
  price_per_night : option Z;
  bedrooms : option Z;
  bathrooms : option Z;
  max_guests : option Z;
  address : option string;
  city : option string;
  country : option string;
  amenities : option (list string);
  is_available : option bool
}.
End Initial.

Module Data.
Record t : Type := {
  host : option User;
  title : option string;
  description : option string;
  property_type : option Listing.PROPERTY_TYPES;
  price_per_night : option Z;
  bedrooms : option Z;
  bathrooms : option Z;
  max_guests : option Z;
  address : option string;
  city : option string;
  country : option string;
  amenities : option (list string);
  is_available : option bool
}.

(** [data] with its entry ['host'] replaced by [u]. *)
Definition set_host (d : t) (u : User) : t :=
  {| host := Some u; title := title d; description := description d;
     property_type := property_type d; price_per_night := price_per_night d;
     bedrooms := bedrooms d; bathrooms := bathrooms d;
     max_guests := max_guests d; address := address d; city := city d;
     country := country d; amenities := amenities d;
     is_available := is_available d |}.
End Data.

Definition to_internal_value (db : DB) (partial : bool) (req : Initial.t)
  : result Data.t :=
  let '(host, e1) :=
    run_field partial true "host_id" (Initial.host_id req)
      (related_field (users db) user_id) in
  let '(title, e2) :=
    run_field partial true "title" (Initial.title req) (@inl _ string) in
  let '(description, e3) :=
    run_field partial true "description" (Initial.description req) (@inl _ string) in
  let '(property_type, e4) :=
    run_field partial true "property_type" (Initial.property_type req) (@inl _ string) in
  let '(price_per_night, e5) :=
    run_field partial true "price_per_night" (Initial.price_per_night req)
      (@inl _ string) in
  let '(bedrooms, e6) :=
    run_field partial true "bedrooms" (Initial.bedrooms req) (@inl _ string) in
  let '(bathrooms, e7) :=
    run_field partial true "bathrooms" (Initial.bathrooms req) (@inl _ string) in
  let '(max_guests, e8) :=
    run_field partial true "max_guests" (Initial.max_guests req) (@inl _ string) in
  let '(address, e9) :=
    run_field partial true "address" (Initial.address req) (@inl _ string) in
  let '(city, e10) :=
    run_field partial true "city" (Initial.city req) (@inl _ string) in
  let '(country, e11) :=
    run_field partial true "country" (Initial.country req) (@inl _ string) in
  let '(amenities, e12) :=
    run_field partial false "amenities" (Initial.amenities req) (@inl _ string) in
  let '(is_available, e13) :=
    run_field partial false "is_available" (Initial.is_available req) (@inl _ string) in
  match e1 ++ e2 ++ e3 ++ e4 ++ e5 ++ e6 ++ e7 ++ e8 ++ e9 ++ e10 ++ e11 ++ e12 ++ e13 with
  | [] =>
      Ok {| Data.host := host; Data.title := title;
            Data.description := description;
            Data.property_type := property_type;
            Data.price_per_night := price_per_night;
            Data.bedrooms := bedrooms; Data.bathrooms := bathrooms;
            Data.max_guests := max_guests; Data.address := address;
            Data.city := city; Data.country := country;
            Data.amenities := amenities;
            Data.is_available := is_available |}
  | errors => Raise (ValidationError (FieldErrors errors))
  end.

(** [Listing.objects.create] on the entries of [validated_data]. *)
Definition create (db : DB) (validated_data : Data.t) : result (DB * Listing.t) :=
  host <- not_null (Data.host validated_data) ;;
  title <- not_null (Data.title validated_data) ;;
  description <- not_null (Data.description validated_data) ;;
  property_type <- not_null (Data.property_type validated_data) ;;
  price_per_night <- not_null (Data.price_per_night validated_data) ;;
  bedrooms <- not_null (Data.bedrooms validated_data) ;;
  bathrooms <- not_null (Data.bathrooms validated_data) ;;
  max_guests <- not_null (Data.max_guests validated_data) ;;
  address <- not_null (Data.address validated_data) ;;
  city <- not_null (Data.city validated_data) ;;
  country <- not_null (Data.country validated_data) ;;
  let row :=
    {| Listing.id := listing_seq db;
       Listing.host := user_id host;
       Listing.title := title;
       Listing.description := description;
       Listing.property_type := property_type;
       Listing.price_per_night := price_per_night;
       Listing.bedrooms := bedrooms;
       Listing.bathrooms := bathrooms;
       Listing.max_guests := max_guests;
       Listing.address := address;
       Listing.city := city;
       Listing.country := country;
       Listing.amenities :=
         default (Data.amenities validated_data) [];
       Listing.is_available :=
         default (Data.is_available validated_data) true |} in
  Ok ({| users := users db; listings := row :: listings db;
         bookings := bookings db;
         listing_seq := listing_seq db + 1;
         booking_seq := booking_seq db |}, row).

(** [get_average_rating], the method behind the field
    [average_rating]. *)
Definition get_average_rating (obj : Listing.t) : result (option mean) :=
  reviews <- Listing.reviews obj ;;
  match reviews with
  | [] => Ok None
  | _ :: _ =>
      Ok (Some {| sum_of_ratings := fold_right Z.add 0 reviews;
                  number_of_ratings := Z.of_nat (List.length reviews) |})
  end.

(** [serializer.data] for an instance: the fields in the order of
    [Meta.fields], [average_rating] among them. *)
Definition to_representation (obj : Listing.t) : result body :=
  average_rating <- get_average_rating obj ;;
  Ok (ListingBody obj average_rating).

End ListingSerializer.

Module BookingSerializer.

(** The request body, field by field as [Meta.fields] names them (the
    nested [listing] and [guest], [id] and the timestamps are
    read-only and carry nothing in). *)
Module Initial.
Record t : Type := {
  listing_id : option Z;
  guest_id : option Z;
  check_in : option PyDate.date;
  check_out : option PyDate.date;
  number_of_guests : option Z;
  total_price : option Z;
  status : option Booking.STATUS_CHOICES;
  special_requests : option string
}.
End Initial.

(** The dictionary [data] that [validate] receives and returns. *)
Module Data.
Record t : Type := {
  listing : option Listing.t;
  guest : option User;
  check_in : option PyDate.date;
  check_out : option PyDate.date;
  number_of_guests : option Z;
  total_price : option Z;
  status : option Booking.STATUS_CHOICES;
  special_requests : option string
}.

(** [data['total_price'] = v]. *)
Definition set_total_price (d : t) (v : Z) : t :=
  {| listing := listing d; guest := guest d; check_in := check_in d;
     check_out := check_out d; number_of_guests := number_of_guests d;
     total_price := Some v; status := status d;
     special_requests := special_requests d |}.

(** [data] with its entry ['guest'] replaced by [u]. *)
Definition set_guest (d : t) (u : User) : t :=
  {| listing := listing d; guest := Some u; check_in := check_in d;
     check_out := check_out d; number_of_guests := number_of_guests d;
     total_price := total_price d; status := status d;
     special_requests := special_requests d |}.
End Data.

(** The fields in declaration order; [total_price] is in
    [read_only_fields], so its entry of the request is never read. *)
Definition to_internal_value (db : DB) (partial : bool) (req : Initial.t)
  : result Data.t :=
  let '(listing, e1) :=
    run_field partial true "listing_id" (Initial.listing_id req)
      (related_field (filter Listing.is_available (listings db)) Listing.id) in
  let '(guest, e2) :=
    run_field partial true "guest_id" (Initial.guest_id req)
      (related_field (users db) user_id) in
  let '(check_in, e3) :=
    run_field partial true "check_in" (Initial.check_in req) (@inl _ string) in
  let '(check_out, e4) :=
    run_field partial true "check_out" (Initial.check_out req) (@inl _ string) in
  let '(number_of_guests, e5) :=
    run_field partial true "number_of_guests" (Initial.number_of_guests req)
      (@inl _ string) in
  let '(status, e6) :=
    run_field partial false "status" (Initial.status req) (@inl _ string) in
  let '(special_requests, e7) :=
    run_field partial false "special_requests" (Initial.special_requests req)
      (@inl _ string) in
  match e1 ++ e2 ++ e3 ++ e4 ++ e5 ++ e6 ++ e7 with
  | [] =>
      Ok {| Data.listing := listing; Data.guest := guest;
            Data.check_in := check_in; Data.check_out := check_out;
            Data.number_of_guests := number_of_guests;
            Data.total_price := None; Data.status := status;
            Data.special_requests := special_requests |}
  | errors => Raise (ValidationError (FieldErrors errors))
  end.

(** The queryset of the conflict check:
    [filter(listing=.., check_out__gt=.., check_in__lt=.., status__in=..)]
    then [.exclude(id=self.instance.id if self.instance else None)]
    (no row has a null [id], so excluding [None] removes nothing). *)
Definition conflicting_bookings (db : DB) (instance : option Booking.t)
    (listing : Listing.t) (check_in check_out : PyDate.date) : list Booking.t :=
  filter
    (fun b =>
       match instance with
       | Some i => negb (Booking.id b =? Booking.id i)
       | None => true
       end)
    (filter
       (fun b =>
          (Booking.listing b =? Listing.id listing)
          && (Booking.check_out b >? check_in)
          && (Booking.check_in b <? check_out)
          && existsb (Booking.status_eqb (Booking.status b))
               [Booking.pending; Booking.confirmed])
       (bookings db)).

(** [queryset.exists()]. *)
Definition exists_ {A : Type} (queryset : list A) : bool :=
  match queryset with
  | [] => false
  | _ :: _ => true
  end.

Definition validate (db : DB) (instance : option Booking.t) (data : Data.t)
  : result Data.t :=
  check_in <- getitem "check_in" (Data.check_in data) ;;
  check_out <- getitem "check_out" (Data.check_out data) ;;
  if check_in >=? check_out then
    Raise (ValidationError (Message "Check-in date must be before check-out date."))
  else
    listing <- getitem "listing" (Data.listing data) ;;
    number_of_guests <- getitem "number_of_guests" (Data.number_of_guests data) ;;
    if number_of_guests >? Listing.max_guests listing then
      Raise (ValidationError (Message
        ("Number of guests cannot exceed "
           ++ PyDate.str (Listing.max_guests listing) ++ ".")%string))
    else
      if exists_ (conflicting_bookings db instance listing check_in check_out) then
        Raise (ValidationError (Message
          "This listing is already booked for the selected dates."))
      else
        let days := PyDate.days_between check_out check_in in
        Ok (Data.set_total_price data (days * Listing.price_per_night listing)).

(** [serializer.is_valid(raise_exception=True)]: the fields, then
    [validate]. *)
Definition run_validation (db : DB) (instance : option Booking.t) (partial : bool)
    (req : Initial.t) : result Data.t :=
  data <- to_internal_value db partial req ;;
  validate db instance data.

(** [ModelSerializer.create]: [Booking.objects.create] on the entries
    of [validated_data],
    the row taking the next primary key, [status] its default
    ['pending'] and [special_requests] the empty string when absent. *)
Definition create (db : DB) (validated_data : Data.t) : result (DB * Booking.t) :=
  listing <- not_null (Data.listing validated_data) ;;
  guest <- not_null (Data.guest validated_data) ;;
  check_in <- not_null (Data.check_in validated_data) ;;
  check_out <- not_null (Data.check_out validated_data) ;;
  number_of_guests <- not_null (Data.number_of_guests validated_data) ;;
  total_price <- not_null (Data.total_price validated_data) ;;
  let row :=
    {| Booking.id := booking_seq db;
       Booking.listing := Listing.id listing;
       Booking.guest := user_id guest;
       Booking.check_in := check_in;
       Booking.check_out := check_out;
       Booking.number_of_guests := number_of_guests;
       Booking.total_price := total_price;
       Booking.status := default (Data.status validated_data) Booking.pending;
       Booking.special_requests := default (Data.special_requests validated_data) "" |} in
  Ok ({| users := users db; listings := listings db;
         bookings := row :: bookings db;
         listing_seq := listing_seq db;
         booking_seq := booking_seq db + 1 |}, row).

(** [ModelSerializer.update]: [setattr(instance, attr, value)] for each
    entry of [validated_data], then [instance.save()]. *)
Definition update (db : DB) (instance : Booking.t) (validated_data : Data.t)
  : DB * Booking.t :=
  let row :=
    {| Booking.id := Booking.id instance;
       Booking.listing :=
         match Data.listing validated_data with
         | Some l => Listing.id l
         | None => Booking.listing instance
         end;
       Booking.guest :=
         match Data.guest validated_data with
         | Some u => user_id u
         | None => Booking.guest instance
         end;
       Booking.check_in := default (Data.check_in validated_data) (Booking.check_in instance);
       Booking.check_out := default (Data.check_out validated_data) (Booking.check_out instance);
       Booking.number_of_guests :=
         default (Data.number_of_guests validated_data) (Booking.number_of_guests instance);
       Booking.total_price :=
         default (Data.total_price validated_data) (Booking.total_price instance);
       Booking.status := default (Data.status validated_data) (Booking.status instance);
       Booking.special_requests :=
         default (Data.special_requests validated_data) (Booking.special_requests instance) |} in
  (save_booking db row, row).

(** [serializer.data] for an instance: the fields in the order of
    [Meta.fields]; the second, [listing], is the nested
    [ListingSerializer] on [instance.listing]. *)
Definition to_representation (db : DB) (instance : Booking.t) : result body :=
  listing <- related_listing db instance ;;
  listing_data <- ListingSerializer.to_representation listing ;;
  Ok (BookingBody instance listing_data).

End BookingSerializer.


(* ------------------------------------------------------------------ *)
(** ** views.py *)

(** The names the module [views.py] binds: what it imports and the two
    classes it defines. *)
Definition views_globals : list string :=
  [ "viewsets"; "permissions"; "status"; "filters"; "action"; "Response";
    "DjangoFilterBackend"; "Q"; "Listing"; "Booking"; "ListingSerializer";
    "BookingSerializer"; "IsOwnerOrReadOnly"; "IsBookingOwnerOrHost";
    "ListingViewSet"; "BookingViewSet" ].

(** [order_by('check_in')]: ascending, rows of equal key in table order. *)
Fixpoint insert_by_check_in (b : Booking.t) (l : list Booking.t) : list Booking.t :=
  match l with
  | [] => [b]
  | x :: rest =>
      if Booking.check_in b <=? Booking.check_in x then b :: l
      else x :: insert_by_check_in b rest
  end.

Definition order_by_check_in (l : list Booking.t) : list Booking.t :=
  fold_right insert_by_check_in [] l.

Module ListingViewSet.

(** [GenericAPIView.get_object] over [Listing.objects.all()] (a request
    without filter parameters) with the object permission
    [IsOwnerOrReadOnly]. *)
Definition get_object (db : DB) (m : method) (user : User) (pk : Z) : result Listing.t :=
  match find (fun l => Listing.id l =? pk) (listings db) with
  | None => Raise Http404
  | Some obj =>
      if IsOwnerOrReadOnly.has_object_permission m user obj then Ok obj
      else Raise PermissionDenied
  end.

(** [serializer.save(host=self.request.user)]: the keyword arguments
    of [save] are merged over the validated data before [create]. *)
Definition perform_create (db : DB) (user : User) (validated_data : ListingSerializer.Data.t)
  : result (DB * Listing.t) :=
  ListingSerializer.create db (ListingSerializer.Data.set_host validated_data user).

(** [CreateModelMixin.create]: the row is inserted, then
    [serializer.data] is built for the response. *)
Definition create (db : DB) (user : User) (req : ListingSerializer.Initial.t)
  : result (DB * result Response) :=
  validated_data <- ListingSerializer.to_internal_value db false req ;;
  '(db', row) <- perform_create db user validated_data ;;
  Ok (db', respond HTTP_201_CREATED (ListingSerializer.to_representation row)).

(** [DestroyModelMixin.destroy]; [on_delete=CASCADE] removes the
    bookings of the listing with it. *)
Definition destroy (db : DB) (user : User) (pk : Z) : result (DB * result Response) :=
  obj <- get_object db DELETE user pk ;;
  Ok ({| users := users db;
         listings := filter (fun l => negb (Listing.id l =? Listing.id obj)) (listings db);
         bookings :=
           filter (fun b => negb (Booking.listing b =? Listing.id obj)) (bookings db);
         listing_seq := listing_seq db;
         booking_seq := booking_seq db |},
      Ok {| data := NoContent; status := HTTP_204_NO_CONTENT |}).

(** The [while] loop of [available_dates].  [variant] bounds the
    iterations left: the caller passes [check_out - current_date],
    which decreases by one each round, so that the guard is false
    when it reaches zero ([while_dates_variant]). *)
Fixpoint while_dates (globals : list string) (variant : nat)
    (current_date check_out : PyDate.date) (booked_dates : list string)
  : result (list string) :=
  if current_date <? check_out then
    match variant with
    | O => Ok booked_dates
    | S variant' =>
        let booked_dates := booked_dates ++ [PyDate.isoformat current_date] in
        _ <- lookup_global globals "datetime" ;;
        let current_date := PyDate.add_days current_date 1 in
        while_dates globals variant' current_date check_out booked_dates
    end
  else Ok booked_dates.

(** The [for] loop over the bookings. *)
Fixpoint for_bookings (globals : list string) (bookings : list Booking.t)
    (booked_dates : list string) : result (list string) :=
  match bookings with
  | [] => Ok booked_dates
  | booking :: rest =>
      booked_dates <-
        while_dates globals
          (Z.to_nat (Booking.check_out booking - Booking.check_in booking))
          (Booking.check_in booking) (Booking.check_out booking) booked_dates ;;
      for_bookings globals rest booked_dates
  end.

(** [listing.bookings.filter(status__in=['confirmed', 'pending'])]. *)
Definition blocking_bookings (db : DB) (listing : Listing.t) : list Booking.t :=
  filter
    (fun b =>
       (Booking.listing b =? Listing.id listing)
       && existsb (Booking.status_eqb (Booking.status b))
            [Booking.confirmed; Booking.pending])
    (bookings db).

Definition available_dates (globals : list string) (db : DB) (user : User) (pk : Z)
  : result Response :=
  listing <- get_object db GET user pk ;;
  let bookings := blocking_bookings db listing in
  booked_dates <- for_bookings globals bookings [] ;;
  Ok {| data := BookedDates (Listing.id listing) booked_dates
                  "These dates are already booked";
        status := HTTP_200_OK |}.

End ListingViewSet.

Module BookingViewSet.

(** [Q(guest=user) | Q(listing__host=user)]. *)
Definition guest_or_host (db : DB) (user : User) (b : Booking.t) : bool :=
  (Booking.guest b =? user_id user) || listing__host db b (user_id user).

Definition get_queryset (db : DB) (user : User) : list Booking.t :=
  if is_staff user then bookings db
  else filter (guest_or_host db user) (bookings db).

(** [GenericAPIView.get_object], for a request without filter
    parameters: the row of [get_queryset()] with the primary key, or a
    404; then the object permission [IsBookingOwnerOrHost], or a 403.
    The caller is an authenticated user ([IsAuthenticated]). *)
Definition get_object (db : DB) (m : method) (user : User) (pk : Z) : result Booking.t :=
  match find (fun b => Booking.id b =? pk) (get_queryset db user) with
  | None => Raise Http404
  | Some obj =>
      allowed <- IsBookingOwnerOrHost.has_object_permission db m user obj ;;
      if allowed then Ok obj else Raise PermissionDenied
  end.

(** [serializer.save(guest=self.request.user)]. *)
Definition perform_create (db : DB) (user : User) (validated_data : BookingSerializer.Data.t)
  : result (DB * Booking.t) :=
  BookingSerializer.create db (BookingSerializer.Data.set_guest validated_data user).

(** [CreateModelMixin.create]: the row is inserted, then
    [serializer.data] is built for the response. *)
Definition create (db : DB) (user : User) (req : BookingSerializer.Initial.t)
  : result (DB * result Response) :=
  validated_data <- BookingSerializer.run_validation db None false req ;;
  '(db', row) <- perform_create db user validated_data ;;
  Ok (db', respond HTTP_201_CREATED (BookingSerializer.to_representation db' row)).

(** [UpdateModelMixin.update] (PUT) and [partial_update] (PATCH): the
    row is saved, then [serializer.data] is built for the response. *)
Definition update (db : DB) (user : User) (partial : bool) (pk : Z)
    (req : BookingSerializer.Initial.t) : result (DB * result Response) :=
  instance <- get_object db (if partial then PATCH else PUT) user pk ;;
  validated_data <- BookingSerializer.run_validation db (Some instance) partial req ;;
  let '(db', row) := BookingSerializer.update db instance validated_data in
  Ok (db', respond HTTP_200_OK (BookingSerializer.to_representation db' row)).

(** [DestroyModelMixin.destroy]. *)
Definition destroy (db : DB) (user : User) (pk : Z) : result (DB * result Response) :=
  obj <- get_object db DELETE user pk ;;
  Ok (with_bookings db
        (filter (fun b => negb (Booking.id b =? Booking.id obj)) (bookings db)),
      Ok {| data := NoContent; status := HTTP_204_NO_CONTENT |}).

(** The body of [cancel] once [self.get_object()] has returned
    [booking]. *)
Definition cancel_booking (db : DB) (user : User) (booking : Booking.t)
  : result (DB * result Response) :=
  if Booking.status_eqb (Booking.status booking) Booking.cancelled then
    Ok (db, Ok {| data := Error "Booking is already cancelled";
                  status := HTTP_400_BAD_REQUEST |})
  else
    listing <- related_listing db booking ;;
    if negb (existsb (Z.eqb (user_id user)) [Booking.guest booking; Listing.host listing]) then
      Ok (db, Ok {| data := Error "You do not have permission to cancel this booking";
                    status := HTTP_403_FORBIDDEN |})
    else
      let booking := Booking.set_status booking Booking.cancelled in
      let db := save_booking db booking in
      Ok (db, respond HTTP_200_OK (BookingSerializer.to_representation db booking)).

Definition cancel (db : DB) (user : User) (pk : Z) : result (DB * result Response) :=
  booking <- get_object db POST user pk ;;
  cancel_booking db user booking.

(** The body of [confirm] once [self.get_object()] has returned
    [booking]. *)
Definition confirm_booking (db : DB) (user : User) (booking : Booking.t)
  : result (DB * result Response) :=
  if negb (Booking.status_eqb (Booking.status booking) Booking.pending) then
    Ok (db, Ok {| data := Error ("Booking is already "
                                   ++ Booking.value (Booking.status booking))%string;
                  status := HTTP_400_BAD_REQUEST |})
  else
    listing <- related_listing db booking ;;
    if negb (user_id user =? Listing.host listing) then
      Ok (db, Ok {| data := Error "Only the host can confirm bookings";
                    status := HTTP_403_FORBIDDEN |})
    else
      let booking := Booking.set_status booking Booking.confirmed in
      let db := save_booking db booking in
      Ok (db, respond HTTP_200_OK (BookingSerializer.to_representation db booking)).

Definition confirm (db : DB) (user : User) (pk : Z) : result (DB * result Response) :=
  booking <- get_object db POST user pk ;;
  confirm_booking db user booking.

(** The queryset that [upcoming] binds to its local [bookings]:
    [Booking.objects.filter(Q(guest=user) | Q(listing__host=user),
    check_out__gte=today, status__in=['confirmed', 'pending'])
    .order_by('check_in')]. *)
Definition upcoming_bookings (db : DB) (user : User) (today : PyDate.date)
  : list Booking.t :=
  order_by_check_in
    (filter
       (fun b =>
          guest_or_host db user b
          && (Booking.check_out b >=? today)
          && existsb (Booking.status_eqb (Booking.status b))
               [Booking.confirmed; Booking.pending])
       (bookings db)).

(** [upcoming]; [today] is what [timezone.now().date()] reads off the
    clock.  [paginator] is the paginator of the project's settings,
    which are not among the sources: [None] when none is configured,
    else the function that cuts the page out of the queryset. *)
Definition upcoming (globals : list string)
    (paginator : option (list Booking.t -> list Booking.t))
    (db : DB) (user : User) (today : PyDate.date) : result Response :=
  _ <- lookup_global globals "timezone" ;;
  let bookings := upcoming_bookings db user today in
  match paginator with
  | Some paginate_queryset =>
      let page := paginate_queryset bookings in
      rows <- many (BookingSerializer.to_representation db) page ;;
      Ok {| data := Page rows; status := HTTP_200_OK |}
  | None =>
      rows <- many (BookingSerializer.to_representation db) bookings ;;
      Ok {| data := BookingList rows; status := HTTP_200_OK |}
  end.

End BookingViewSet.

(* ------------------------------------------------------------------ *)
(** ** The scenario of the specification's examples *)

Module Scenario.

Definition host_user : User := {| user_id := 1; is_staff := false |}.
Definition guest_user : User := {| user_id := 2; is_staff := false |}.
Definition other_user : User := {| user_id := 3; is_staff := false |}.
Definition staff_user : User := {| user_id := 4; is_staff := true |}.

(** A listing at 100.00 a night. *)
Definition the_listing : Listing.t :=
  {| Listing.id := 1; Listing.host := 1;
     Listing.title := "Sea view"; Listing.description := "Two rooms";
     Listing.property_type := Listing.apartment;
     Listing.price_per_night := 10000;
     Listing.bedrooms := 2; Listing.bathrooms := 1; Listing.max_guests := 4;
     Listing.address := "1 Shore Rd"; Listing.city := "Mombasa";
     Listing.country := "Kenya"; Listing.amenities := ["WiFi"];
     Listing.is_available := true |}.

(** The existing booking over [2024-06-01, 2024-06-05). *)
Definition booked (s : Booking.STATUS_CHOICES) : Booking.t :=
  {| Booking.id := 1; Booking.listing := 1; Booking.guest := 2;
     Booking.check_in := PyDate.mk 2024 6 1;
     Booking.check_out := PyDate.mk 2024 6 5;
     Booking.number_of_guests := 2; Booking.total_price := 40000;
     Booking.status := s; Booking.special_requests := "" |}.

Definition db_with (s : Booking.STATUS_CHOICES) : DB :=
  {| users := [host_user; guest_user; other_user; staff_user];
     listings := [the_listing];
     bookings := [booked s];
     listing_seq := 2; booking_seq := 2 |}.

(** A request for the listing by the guest; [submitted_price] is the
    [total_price] the client sends along, if any. *)
Definition request (check_in check_out : PyDate.date) (submitted_price : option Z)
  : BookingSerializer.Initial.t :=
  {| BookingSerializer.Initial.listing_id := Some 1;
     BookingSerializer.Initial.guest_id := Some 3;
     BookingSerializer.Initial.check_in := Some check_in;
     BookingSerializer.Initial.check_out := Some check_out;
     BookingSerializer.Initial.number_of_guests := Some 2;
     BookingSerializer.Initial.total_price := submitted_price;
     BookingSerializer.Initial.status := None;
     BookingSerializer.Initial.special_requests := None |}.

(** The tables before any booking was made. *)
Definition db_empty : DB :=
  {| users := [host_user; guest_user; other_user; staff_user];
     listings := [the_listing];
     bookings := [];
     listing_seq := 2; booking_seq := 1 |}.

End Scenario.

(* ------------------------------------------------------------------ *)
(** ** Vocabulary of the properties *)

(** The overlap test of the conflict scan, on an existing row. *)
Definition conflicts_with (instance : option Booking.t) (listing : Listing.t)
    (check_in check_out : PyDate.date) (existing : Booking.t) : Prop :=
  Booking.listing existing = Listing.id listing
  /\ (Booking.status existing = Booking.pending
      \/ Booking.status existing = Booking.confirmed)
  /\ Booking.check_out existing > check_in
  /\ Booking.check_in existing < check_out
  /\ (forall i, instance = Some i -> Booking.id existing <> Booking.id i).

(** The three grounds for rejection the specification lists. *)
Definition must_reject (db : DB) (instance : option Booking.t) (listing : Listing.t)
    (check_in check_out : PyDate.date) (number_of_guests : Z) : Prop :=
  check_in >= check_out
  \/ number_of_guests > Listing.max_guests listing
  \/ exists existing,
       In existing (bookings db)
       /\ conflicts_with instance listing check_in check_out existing.


(** The request with another [guest_id] entry. *)
Definition submit_guest_id (req : BookingSerializer.Initial.t) (v : option Z) : BookingSerializer.Initial.t :=
  {| BookingSerializer.Initial.listing_id := BookingSerializer.Initial.listing_id req;
     BookingSerializer.Initial.guest_id := v;
     BookingSerializer.Initial.check_in := BookingSerializer.Initial.check_in req;
     BookingSerializer.Initial.check_out := BookingSerializer.Initial.check_out req;
     BookingSerializer.Initial.number_of_guests := BookingSerializer.Initial.number_of_guests req;
     BookingSerializer.Initial.total_price := BookingSerializer.Initial.total_price req;
     BookingSerializer.Initial.status := BookingSerializer.Initial.status req;
     BookingSerializer.Initial.special_requests := BookingSerializer.Initial.special_requests req |}.


(** Primary keys of the booking table are pairwise distinct. *)
Definition pk_unique (db : DB) : Prop :=
  NoDup (map Booking.id (bookings db)).

(** The caller is a party to the booking: its guest, or the host of its
    listing. *)
Definition party_to (user : User) (booking : Booking.t) (listing : Listing.t) : Prop :=
  Booking.guest booking = user_id user \/ Listing.host listing = user_id user.

(** The dates a booking occupies: from its check_in, included, to its
    check_out, excluded. *)
Definition occupied_dates (b : Booking.t) : list PyDate.date :=
  map (fun k => Booking.check_in b + Z.of_nat k)
    (seq 0 (Z.to_nat (Booking.check_out b - Booking.check_in b))).

(** The bookings the upcoming view is meant to list for a caller. *)
Definition is_upcoming (db : DB) (user : User) (today : PyDate.date) (b : Booking.t) : Prop :=
  (Booking.guest b = user_id user \/ listing__host db b (user_id user) = true)
  /\ Booking.check_out b >= today
  /\ (Booking.status b = Booking.pending \/ Booking.status b = Booking.confirmed).

(** [views.py] with the two missing imports added. *)
Definition repaired_globals : list string :=
  "datetime" :: "timezone" :: views_globals.

(** Ascending order of check_in. *)
Definition check_in_le (a b : Booking.t) : Prop :=
  Booking.check_in a <= Booking.check_in b.

(* ------------------------------------------------------------------ *)
(** ** The system as a transition system *)

(** Half-open intervals [check_in, check_out) that meet. *)
Definition overlap (b1 b2 : Booking.t) : Prop :=
  Booking.check_out b1 > Booking.check_in b2
  /\ Booking.check_in b1 < Booking.check_out b2.

(** A status that blocks the dates. *)
Definition active (b : Booking.t) : Prop :=
  Booking.status b = Booking.pending \/ Booking.status b = Booking.confirmed.

(** No two distinct active bookings of one listing overlap. *)
Definition no_overlap (db : DB) : Prop :=
  forall b1 b2,
    In b1 (bookings db) -> In b2 (bookings db) -> b1 <> b2 ->
    Booking.listing b1 = Booking.listing b2 ->
    active b1 -> active b2 ->
    ~ overlap b1 b2.

(** One request served to its end, or one write to the other tables.
    A request that raises leaves the tables as they were and is no
    step. *)
Inductive step (db : DB) : DB -> Prop :=
| step_booking_create user req db' resp :
    BookingViewSet.create db user req = Ok (db', resp) -> step db db'
| step_booking_update user partial pk req db' resp :
    BookingViewSet.update db user partial pk req = Ok (db', resp) -> step db db'
| step_booking_destroy user pk db' resp :
    BookingViewSet.destroy db user pk = Ok (db', resp) -> step db db'
| step_booking_confirm user pk db' resp :
    BookingViewSet.confirm db user pk = Ok (db', resp) -> step db db'
| step_booking_cancel user pk db' resp :
    BookingViewSet.cancel db user pk = Ok (db', resp) -> step db db'
| step_listing_create user req db' resp :
    ListingViewSet.create db user req = Ok (db', resp) -> step db db'
| step_listing_destroy user pk db' resp :
    ListingViewSet.destroy db user pk = Ok (db', resp) -> step db db'
| step_elsewhere db' keep :
    (* users and listings written by other means (listing updates, user
       administration), bookings at most deleted by a cascade *)
    bookings db' = filter keep (bookings db) ->
    booking_seq db' = booking_seq db ->
    step db db'.

(** The states the system reaches from an empty booking table. *)
Inductive reachable : DB -> Prop :=
| reachable_empty db : bookings db = [] -> reachable db
| reachable_step db db' : reachable db -> step db db' -> reachable db'.

(** Primary keys come from the sequence. *)
Definition pk_below_seq (db : DB) : Prop :=
  forall b, In b (bookings db) -> Booking.id b < booking_seq db.

(** The primary keys of the table, and the sequence that issues them. *)
Definition keys_sound (db : DB) : Prop := pk_unique db /\ pk_below_seq db.

(* ------------------------------------------------------------------ *)
(** ** views.py and serializers.py, the rest of the listing views *)

(** [listing.save()] of an instance read from the table. *)
Definition save_listing (db : DB) (l : Listing.t) : DB :=
  {| users := users db;
     listings := map (fun r => if Listing.id r =? Listing.id l then l else r) (listings db);
     bookings := bookings db;
     listing_seq := listing_seq db; booking_seq := booking_seq db |}.

(** [ModelSerializer.update] for [ListingSerializer]: each entry of the
    validated data is written on the instance, which is then saved. *)
Definition listing_serializer_update (db : DB) (instance : Listing.t)
    (validated_data : ListingSerializer.Data.t) : DB * Listing.t :=
  let row :=
    {| Listing.id := Listing.id instance;
       Listing.host :=
         match ListingSerializer.Data.host validated_data with
         | Some u => user_id u
         | None => Listing.host instance
         end;
       Listing.title :=
         default (ListingSerializer.Data.title validated_data) (Listing.title instance);
       Listing.description :=
         default (ListingSerializer.Data.description validated_data)
           (Listing.description instance);
       Listing.property_type :=
         default (ListingSerializer.Data.property_type validated_data)
           (Listing.property_type instance);
       Listing.price_per_night :=
         default (ListingSerializer.Data.price_per_night validated_data)
           (Listing.price_per_night instance);
       Listing.bedrooms :=
         default (ListingSerializer.Data.bedrooms validated_data) (Listing.bedrooms instance);
       Listing.bathrooms :=
         default (ListingSerializer.Data.bathrooms validated_data)
           (Listing.bathrooms instance);
       Listing.max_guests :=
         default (ListingSerializer.Data.max_guests validated_data)
           (Listing.max_guests instance);
       Listing.address :=
         default (ListingSerializer.Data.address validated_data) (Listing.address instance);
       Listing.city :=
         default (ListingSerializer.Data.city validated_data) (Listing.city instance);
       Listing.country :=
         default (ListingSerializer.Data.country validated_data) (Listing.country instance);
       Listing.amenities :=
         default (ListingSerializer.Data.amenities validated_data)
           (Listing.amenities instance);
       Listing.is_available :=
         default (ListingSerializer.Data.is_available validated_data)
           (Listing.is_available instance) |} in
  (save_listing db row, row).

Module ListingViewSetRest.

(** The query parameters [get_queryset] reads, each absent (or empty,
    which [if min_price:] treats alike) or holding a number; prices in
    hundredths. *)
Record query_params : Type := {
  min_price : option Z;
  max_price : option Z;
  min_guests : option Z
}.

Definition get_queryset (db : DB) (q : query_params) : list Listing.t :=
  let queryset := listings db in
  let queryset :=
    match min_price q with
    | Some p => filter (fun l => Listing.price_per_night l >=? p) queryset
    | None => queryset
    end in
  let queryset :=
    match max_price q with
    | Some p => filter (fun l => Listing.price_per_night l <=? p) queryset
    | None => queryset
    end in
  let queryset :=
    match min_guests q with
    | Some g => filter (fun l => Listing.max_guests l >=? g) queryset
    | None => queryset
    end in
  queryset.

(** [UpdateModelMixin.update] (PUT) and [partial_update] (PATCH);
    [perform_update] is not overridden, so [save] gets no keyword.  The
    row is saved, then [serializer.data] is built for the response. *)
Definition update (db : DB) (user : User) (partial : bool) (pk : Z)
    (req : ListingSerializer.Initial.t) : result (DB * result Response) :=
  instance <- ListingViewSet.get_object db (if partial then PATCH else PUT) user pk ;;
  validated_data <- ListingSerializer.to_internal_value db partial req ;;
  let '(db', row) := listing_serializer_update db instance validated_data in
  Ok (db', respond HTTP_200_OK (ListingSerializer.to_representation row)).

(** The action [bookings]: [listing.bookings.all()], serialized by
    [BookingSerializer(bookings, many=True)]. *)
Definition bookings (db : DB) (user : User) (pk : Z) : result Response :=
  listing <- ListingViewSet.get_object db GET user pk ;;
  let rows := filter (fun b => Booking.listing b =? Listing.id listing) (bookings db) in
  data <- many (BookingSerializer.to_representation db) rows ;;
  Ok {| data := BookingList data; status := HTTP_200_OK |}.

End ListingViewSetRest.

(* ------------------------------------------------------------------ *)
(** ** Requests used as examples below *)

(** A PATCH body that carries a status and nothing else. *)
Definition status_only (s : Booking.STATUS_CHOICES) : BookingSerializer.Initial.t :=
  {| BookingSerializer.Initial.listing_id := None;
     BookingSerializer.Initial.guest_id := None;
     BookingSerializer.Initial.check_in := None;
     BookingSerializer.Initial.check_out := None;
     BookingSerializer.Initial.number_of_guests := None;
     BookingSerializer.Initial.total_price := None;
     BookingSerializer.Initial.status := Some s;
     BookingSerializer.Initial.special_requests := None |}.

(** The tables of the scenario with the listing closed to bookings. *)
Definition db_closed : DB :=
  {| users := users Scenario.db_empty;
     listings :=
       [ {| Listing.id := 1; Listing.host := 1;
            Listing.title := "Sea view"; Listing.description := "Two rooms";
            Listing.property_type := Listing.apartment;
            Listing.price_per_night := 10000;
            Listing.bedrooms := 2; Listing.bathrooms := 1; Listing.max_guests := 4;
            Listing.address := "1 Shore Rd"; Listing.city := "Mombasa";
            Listing.country := "Kenya"; Listing.amenities := ["WiFi"];
            Listing.is_available := false |} ];
     bookings := [];
     listing_seq := 2; booking_seq := 1 |}.

(** The request of the scenario with entries for [guest_id] and
    [status]. *)
Definition request_as (check_in check_out : PyDate.date) (guest_id : option Z)
    (status : option Booking.STATUS_CHOICES) : BookingSerializer.Initial.t :=
  {| BookingSerializer.Initial.listing_id := Some 1;
     BookingSerializer.Initial.guest_id := guest_id;
     BookingSerializer.Initial.check_in := Some check_in;
     BookingSerializer.Initial.check_out := Some check_out;
     BookingSerializer.Initial.number_of_guests := Some 2;
     BookingSerializer.Initial.total_price := None;
     BookingSerializer.Initial.status := status;
     BookingSerializer.Initial.special_requests := None |}.

(* ------------------------------------------------------------------ *)
(** ** Vocabulary of the further properties *)

(** Every stored booking ends after it starts. *)
Definition dates_ordered (db : DB) : Prop :=
  forall b, In b (bookings db) -> Booking.check_in b < Booking.check_out b.

(** The data [validate] gets for a candidate on a listing. *)
Definition candidate (listing : Listing.t) (check_in check_out : PyDate.date)
    (number_of_guests : Z) : BookingSerializer.Data.t :=
  {| BookingSerializer.Data.listing := Some listing;
     BookingSerializer.Data.guest := None;
     BookingSerializer.Data.check_in := Some check_in;
     BookingSerializer.Data.check_out := Some check_out;
     BookingSerializer.Data.number_of_guests := Some number_of_guests;
     BookingSerializer.Data.total_price := None;
     BookingSerializer.Data.status := None;
     BookingSerializer.Data.special_requests := None |}.

(** A request body for the listing of the scenario, with every field
    of the listing, that names [host_id] as its host and has the price
    120.00. *)
Definition listing_request (host_id : Z) : ListingSerializer.Initial.t :=
  {| ListingSerializer.Initial.host_id := Some host_id;
     ListingSerializer.Initial.title := Some "Sea view";
     ListingSerializer.Initial.description := Some "Two rooms";
     ListingSerializer.Initial.property_type := Some Listing.apartment;
     ListingSerializer.Initial.price_per_night := Some 12000;
     ListingSerializer.Initial.bedrooms := Some 2;
     ListingSerializer.Initial.bathrooms := Some 1;
     ListingSerializer.Initial.max_guests := Some 4;
     ListingSerializer.Initial.address := Some "1 Shore Rd";
     ListingSerializer.Initial.city := Some "Mombasa";
     ListingSerializer.Initial.country := Some "Kenya";
     ListingSerializer.Initial.amenities := None;
     ListingSerializer.Initial.is_available := None |}.

(** The listing request with another [host_id] entry. *)
Definition submit_host_id (req : ListingSerializer.Initial.t) (v : option Z)
  : ListingSerializer.Initial.t :=
  {| ListingSerializer.Initial.host_id := v;
     ListingSerializer.Initial.title := ListingSerializer.Initial.title req;
     ListingSerializer.Initial.description := ListingSerializer.Initial.description req;
     ListingSerializer.Initial.property_type := ListingSerializer.Initial.property_type req;
     ListingSerializer.Initial.price_per_night := ListingSerializer.Initial.price_per_night req;
     ListingSerializer.Initial.bedrooms := ListingSerializer.Initial.bedrooms req;
     ListingSerializer.Initial.bathrooms := ListingSerializer.Initial.bathrooms req;
     ListingSerializer.Initial.max_guests := ListingSerializer.Initial.max_guests req;
     ListingSerializer.Initial.address := ListingSerializer.Initial.address req;
     ListingSerializer.Initial.city := ListingSerializer.Initial.city req;
     ListingSerializer.Initial.country := ListingSerializer.Initial.country req;
     ListingSerializer.Initial.amenities := ListingSerializer.Initial.amenities req;
     ListingSerializer.Initial.is_available := ListingSerializer.Initial.is_available req |}.

(* ------------------------------------------------------------------ *)
(** * Properties *)

(** ** Booking validation *)

Section Validation.

Import BookingSerializer.

Lemma status_in_iff (s : Booking.STATUS_CHOICES) :
  existsb (Booking.status_eqb s) [Booking.pending; Booking.confirmed] = true
  <-> s = Booking.pending \/ s = Booking.confirmed.
Proof. destruct s; simpl; intuition congruence. Qed.

Lemma status_in_iff' (s : Booking.STATUS_CHOICES) :
  existsb (Booking.status_eqb s) [Booking.confirmed; Booking.pending] = true
  <-> s = Booking.pending \/ s = Booking.confirmed.
Proof. destruct s; simpl; intuition congruence. Qed.

Lemma in_conflicting_bookings db instance listing check_in check_out existing :
  In existing (conflicting_bookings db instance listing check_in check_out)
  <-> In existing (bookings db)
      /\ conflicts_with instance listing check_in check_out existing.
Proof.
  unfold conflicting_bookings, conflicts_with.
  rewrite !filter_In, !andb_true_iff, status_in_iff.
  rewrite Z.eqb_eq, Z.gtb_ltb, !Z.ltb_lt.
  split.
  - intros [[Hin [[[Hl Ho] Hi] Hs]] Hex].
    repeat split; auto; try lia.
    intros i ->. apply negb_true_iff, Z.eqb_neq in Hex. exact Hex.
  - intros [Hin [Hl [Hs [Ho [Hi Hex]]]]].
    repeat split; auto; try lia.
    destruct instance as [i|]; [|reflexivity].
    apply negb_true_iff, Z.eqb_neq. apply Hex. reflexivity.
Qed.

Lemma exists_true_iff {A : Type} (l : list A) :
  exists_ l = true <-> exists x, In x l.
Proof.
  destruct l as [|x l]; simpl; split.
  - discriminate.
  - intros [x []].
  - intros _. exists x. now left.
  - reflexivity.
Qed.

(** What a successful [validate] has checked and computed. *)
Lemma validate_Ok db instance data data' :
  validate db instance data = Ok data' ->
  exists listing check_in check_out number_of_guests,
    Data.listing data = Some listing
    /\ Data.check_in data = Some check_in
    /\ Data.check_out data = Some check_out
    /\ Data.number_of_guests data = Some number_of_guests
    /\ ~ must_reject db instance listing check_in check_out number_of_guests
    /\ data' = Data.set_total_price data
                 (PyDate.days_between check_out check_in
                  * Listing.price_per_night listing).
Proof.
  unfold validate, must_reject.
  destruct (Data.check_in data) as [ci|]; simpl; [|discriminate].
  destruct (Data.check_out data) as [co|]; simpl; [|discriminate].
  destruct (ci >=? co) eqn:Hd; [discriminate|].
  destruct (Data.listing data) as [l|]; simpl; [|discriminate].
  destruct (Data.number_of_guests data) as [n|]; simpl; [|discriminate].
  destruct (n >? Listing.max_guests l) eqn:Hn; [discriminate|].
  destruct (exists_ _) eqn:Hc; [discriminate|].
  intros [= <-].
  exists l, ci, co, n. repeat split; auto.
  intros [H | [H | [existing H]]].
  - rewrite Z.geb_leb, Z.leb_gt in Hd. lia.
  - rewrite Z.gtb_ltb, Z.ltb_ge in Hn. lia.
  - apply in_conflicting_bookings in H.
    assert (exists_ (conflicting_bookings db instance l ci co) = true) as E
      by (apply exists_true_iff; eauto).
    congruence.
Qed.

End Validation.

(** ** Inversion of the steps of a request *)

Lemma bind_Ok {A B : Type} (r : result A) (k : A -> result B) (b : B) :
  bind r k = Ok b -> exists a, r = Ok a /\ k a = Ok b.
Proof. destruct r as [a|e]; simpl; [eauto | discriminate]. Qed.

Ltac invert_bind H :=
  let a := fresh "a" in
  let Ha := fresh "Ha" in
  apply bind_Ok in H; destruct H as [a [Ha H]].

Section Requests.

Import BookingSerializer.

Lemma related_field_inl {A : Type} (queryset : list A) (pk_of : A -> Z) (pk : Z) (o : A) :
  related_field queryset pk_of pk = inl o -> In o queryset /\ pk_of o = pk.
Proof.
  unfold related_field.
  destruct (find _ queryset) as [x|] eqn:F; [|discriminate].
  intros [= <-]. apply find_some in F. now rewrite Z.eqb_eq in F.
Qed.

Lemma run_field_value {A B : Type} partial required name (raw : option A)
    (conv : A -> B + string) (b : B) errs :
  run_field partial required name raw conv = (Some b, errs) ->
  exists a, raw = Some a /\ conv a = inl b.
Proof.
  unfold run_field. destruct raw as [a|].
  - destruct (conv a) eqn:E; intros [= <- <-]; eauto.
  - destruct (required && negb partial); discriminate.
Qed.

Lemma run_field_id {A : Type} partial required name (raw : option A) v :
  run_field partial required name raw (@inl A string) = (v, []) -> v = raw.
Proof.
  unfold run_field. destruct raw as [a|].
  - now intros [= <-].
  - destruct (required && negb partial); [discriminate | now intros [= <-]].
Qed.

Lemma run_field_clean {A B : Type} partial required name (raw : option A)
    (conv : A -> B + string) (v : option B) :
  run_field partial required name raw conv = (v, []) ->
  match raw with
  | Some a => exists b, conv a = inl b /\ v = Some b
  | None => v = None /\ required && negb partial = false
  end.
Proof.
  unfold run_field. destruct raw as [a|].
  - destruct (conv a) as [b|msg]; [|discriminate]. intros [= <-]. eauto.
  - destruct (required && negb partial); [discriminate|]. intros [= <-]. auto.
Qed.

(** A required field of a request that is not partial comes out with a
    value when it comes out without an error. *)
Lemma run_field_required {A B : Type} name (raw : option A)
    (conv : A -> B + string) (v : option B) :
  run_field false true name raw conv = (v, []) -> exists b, v = Some b.
Proof.
  intro H. apply run_field_clean in H. destruct raw as [a|].
  - destruct H as (b & _ & ->). eauto.
  - destruct H as [_ H]. discriminate.
Qed.

(** What the fields hand to [validate]: the dates, the number of
    guests and the status as sent, the listing and the guest resolved
    from their primary keys, and no [total_price]. *)
Lemma to_internal_value_Ok db partial req data :
  to_internal_value db partial req = Ok data ->
  Data.total_price data = None
  /\ Data.check_in data = Initial.check_in req
  /\ Data.check_out data = Initial.check_out req
  /\ Data.number_of_guests data = Initial.number_of_guests req
  /\ Data.status data = Initial.status req
  /\ (forall l, Data.listing data = Some l ->
        In l (listings db) /\ Listing.is_available l = true
        /\ Initial.listing_id req = Some (Listing.id l))
  /\ (forall u, Data.guest data = Some u ->
        In u (users db) /\ Initial.guest_id req = Some (user_id u)).
Proof.
  unfold to_internal_value.
  destruct (run_field partial true "listing_id" _ _) as [l e1] eqn:F1.
  destruct (run_field partial true "guest_id" _ _) as [g e2] eqn:F2.
  destruct (run_field partial true "check_in" _ _) as [ci e3] eqn:F3.
  destruct (run_field partial true "check_out" _ _) as [co e4] eqn:F4.
  destruct (run_field partial true "number_of_guests" _ _) as [n e5] eqn:F5.
  destruct (run_field partial false "status" _ _) as [st e6] eqn:F6.
  destruct (run_field partial false "special_requests" _ _) as [sr e7] eqn:F7.
  destruct (e1 ++ e2 ++ e3 ++ e4 ++ e5 ++ e6 ++ e7) eqn:E; [|discriminate].
  repeat (apply app_eq_nil in E; destruct E as [? E]); subst.
  intros [= <-]; simpl.
  apply run_field_id in F3, F4, F5, F6.
  repeat apply conj; auto.
  - intros l' ->.
    apply run_field_value in F1. destruct F1 as [pk [-> F1]].
    apply related_field_inl in F1. destruct F1 as [F1 <-].
    apply filter_In in F1. tauto.
  - intros u ->.
    apply run_field_value in F2. destruct F2 as [pk [-> F2]].
    apply related_field_inl in F2. destruct F2 as [F2 <-]. tauto.
Qed.

(** The rows a caller can reach are rows of the table. *)
Lemma get_queryset_incl db user b :
  In b (BookingViewSet.get_queryset db user) -> In b (bookings db).
Proof.
  unfold BookingViewSet.get_queryset.
  destruct (is_staff user); [auto|].
  intro H. apply filter_In in H. tauto.
Qed.

Lemma get_object_Ok db m user pk obj :
  BookingViewSet.get_object db m user pk = Ok obj ->
  In obj (bookings db) /\ Booking.id obj = pk
  /\ IsBookingOwnerOrHost.guest_or_host db user obj = Ok true.
Proof.
  unfold BookingViewSet.get_object.
  destruct (find _ _) as [o|] eqn:F; [|discriminate].
  apply find_some in F. destruct F as [Hin Hid].
  apply get_queryset_incl in Hin. apply Z.eqb_eq in Hid.
  unfold IsBookingOwnerOrHost.has_object_permission.
  assert (forall r : result bool,
             (allowed <- r ;; if allowed then Ok o else Raise PermissionDenied)
                    = Ok obj -> o = obj /\ r = Ok true) as K.
  { intros [[|]|e]; simpl; intros [= <-]; auto. }
  destruct (SAFE_METHODS m); intro H; apply K in H; destruct H as [<- H]; auto.
Qed.

(** [serializer.data] of a booking: the nested listing is serialized,
    [get_average_rating] reads [obj.reviews], and the attribute is not
    there. *)
Lemma booking_data_raises db b l :
  related_listing db b = Ok l ->
  to_representation db b = Raise (AttributeError "reviews").
Proof. unfold to_representation. now intros ->. Qed.

Lemma related_listing_found db b l :
  In l (listings db) -> Listing.id l = Booking.listing b ->
  exists l', related_listing db b = Ok l'.
Proof.
  intros Hin Hid. unfold related_listing.
  destruct (find _ (listings db)) as [l'|] eqn:F; [eauto|].
  apply (find_none _ _ F) in Hin. simpl in Hin.
  rewrite Hid, Z.eqb_refl in Hin. discriminate.
Qed.

Lemma related_listing_save db row b :
  related_listing (save_booking db row) b = related_listing db b.
Proof. reflexivity. Qed.

End Requests.

(* ------------------------------------------------------------------ *)
(** ** C2, C8: what [validate] rejects and accepts *)

Section Validate_claims.

Import BookingSerializer.

(** C2.  For a candidate with its listing, check_in, check_out and
    number_of_guests (and any other entries), [validate] raises a
    validation error if and only if check_in >= check_out, or
    number_of_guests > listing.max_guests, or a row of the table on the
    same listing with status pending or confirmed has
    check_out > new check_in and check_in < new check_out, the
    instance being updated left out of the scan; and it returns (the
    data, priced) exactly when none of the three holds. *)
Theorem C2_validate_raises_iff_rejected
    (db : DB) (instance : option Booking.t) (listing : Listing.t)
    (guest : option User) (check_in check_out : PyDate.date)
    (number_of_guests : Z) (total_price : option Z)
    (status : option Booking.STATUS_CHOICES) (special_requests : option string) :
  let data :=
    {| Data.listing := Some listing; Data.guest := guest;
       Data.check_in := Some check_in; Data.check_out := Some check_out;
       Data.number_of_guests := Some number_of_guests;
       Data.total_price := total_price; Data.status := status;
       Data.special_requests := special_requests |} in
  ((exists d, validate db instance data = Raise (ValidationError d))
     <-> must_reject db instance listing check_in check_out number_of_guests)
  /\ ((exists data', validate db instance data = Ok data')
     <-> ~ must_reject db instance listing check_in check_out number_of_guests).
Proof.
  intro data.
  destruct (validate db instance data) as [data'|e] eqn:V.
  - pose proof (validate_Ok _ _ _ _ V) as (l & ci & co & n & Hl & Hci & Hco & Hn & Hnot & _).
    simpl in Hl, Hci, Hco, Hn.
    injection Hl as <-. injection Hci as <-. injection Hco as <-. injection Hn as <-.
    split; split.
    + intros [d H]. discriminate.
    + intro H. contradiction.
    + intros _. exact Hnot.
    + intros _. eauto.
  - assert (must_reject db instance listing check_in check_out number_of_guests
            /\ exists d, e = ValidationError d) as [Hrej [d ->]].
    { revert V. unfold validate, data, must_reject. simpl.
      destruct (check_in >=? check_out) eqn:Hd.
      { intros [= <-]. split; [|eauto]. left.
        rewrite Z.geb_leb, Z.leb_le in Hd. lia. }
      destruct (number_of_guests >? Listing.max_guests listing) eqn:Hn.
      { intros [= <-]. split; [|eauto]. right; left.
        rewrite Z.gtb_ltb, Z.ltb_lt in Hn. lia. }
      destruct (exists_ _) eqn:Hc; [|discriminate].
      intros [= <-]. split; [|eauto]. right; right.
      apply exists_true_iff in Hc. destruct Hc as [existing Hc].
      exists existing. now apply in_conflicting_bookings. }
    split; split.
    + intros _. exact Hrej.
    + intros _. eauto.
    + intros [data' H]. discriminate.
    + intro H. contradiction.
Qed.

(** C8.  Listing at 100 a night with a confirmed booking over
    [2024-06-01, 2024-06-05): a request over [2024-06-04, 2024-06-08)
    is rejected by [validate] as already booked, and a request over
    [2024-06-05, 2024-06-08) is accepted by [validate] with
    total_price 300 (30000 hundredths), and [create] stores its row
    with these dates and this price as the newest row of the table. *)
Theorem C8_overlap_rejected_back_to_back_accepted :
  let db := Scenario.db_with Booking.confirmed in
  Listing.price_per_night Scenario.the_listing = 100 * 100
  /\ run_validation db None false
       (Scenario.request (PyDate.mk 2024 6 4) (PyDate.mk 2024 6 8) None)
     = Raise (ValidationError
                (Message "This listing is already booked for the selected dates."))
  /\ (exists data,
        run_validation db None false
          (Scenario.request (PyDate.mk 2024 6 5) (PyDate.mk 2024 6 8) None)
        = Ok data
        /\ Data.total_price data = Some (300 * 100))
  /\ (exists db' answer row,
        BookingViewSet.create db Scenario.guest_user
          (Scenario.request (PyDate.mk 2024 6 5) (PyDate.mk 2024 6 8) None)
        = Ok (db', answer)
        /\ bookings db' = row :: bookings db
        /\ Booking.check_in row = PyDate.mk 2024 6 5
        /\ Booking.check_out row = PyDate.mk 2024 6 8
        /\ Booking.total_price row = 300 * 100).
Proof.
  intro db. split; [reflexivity|]. split; [vm_compute; reflexivity|]. split.
  - eexists. split; [vm_compute; reflexivity|]. reflexivity.
  - do 3 eexists. split; [vm_compute; reflexivity|].
    split; [reflexivity|]. repeat split; reflexivity.
Qed.

End Validate_claims.

(* ------------------------------------------------------------------ *)
(** ** The row a successful create or update stores *)

Section Stored_row.

Import BookingSerializer.

Lemma run_validation_Ok db instance partial req d :
  run_validation db instance partial req = Ok d ->
  exists data, to_internal_value db partial req = Ok data
               /\ validate db instance data = Ok d.
Proof. unfold run_validation. intro H. invert_bind H. eauto. Qed.

Lemma perform_create_validated db instance data d db' user :
  validate db instance data = Ok d ->
  exists l ci co n,
    Data.listing data = Some l
    /\ Data.check_in data = Some ci
    /\ Data.check_out data = Some co
    /\ Data.number_of_guests data = Some n
    /\ ~ must_reject db instance l ci co n
    /\ let row :=
         {| Booking.id := booking_seq db';
            Booking.listing := Listing.id l;
            Booking.guest := user_id user;
            Booking.check_in := ci;
            Booking.check_out := co;
            Booking.number_of_guests := n;
            Booking.total_price := PyDate.days_between co ci * Listing.price_per_night l;
            Booking.status := default (Data.status data) Booking.pending;
            Booking.special_requests := default (Data.special_requests data) "" |} in
       BookingViewSet.perform_create db' user d
       = Ok ({| users := users db'; listings := listings db';
                bookings := row :: bookings db';
                listing_seq := listing_seq db';
                booking_seq := booking_seq db' + 1 |}, row).
Proof.
  intro V. apply validate_Ok in V.
  destruct V as (l & ci & co & n & Hl & Hci & Hco & Hn & Hnot & ->).
  exists l, ci, co, n. repeat split; auto.
  unfold BookingViewSet.perform_create, create. simpl.
  rewrite Hl, Hci, Hco, Hn. reflexivity.
Qed.

Lemma create_Ok db user req db' resp :
  BookingViewSet.create db user req = Ok (db', resp) ->
  exists data l ci co n,
    to_internal_value db false req = Ok data
    /\ Data.listing data = Some l
    /\ Data.check_in data = Some ci
    /\ Data.check_out data = Some co
    /\ Data.number_of_guests data = Some n
    /\ ~ must_reject db None l ci co n
    /\ let row :=
         {| Booking.id := booking_seq db;
            Booking.listing := Listing.id l;
            Booking.guest := user_id user;
            Booking.check_in := ci;
            Booking.check_out := co;
            Booking.number_of_guests := n;
            Booking.total_price := PyDate.days_between co ci * Listing.price_per_night l;
            Booking.status := default (Data.status data) Booking.pending;
            Booking.special_requests := default (Data.special_requests data) "" |} in
       db' = {| users := users db; listings := listings db;
                bookings := row :: bookings db;
                listing_seq := listing_seq db;
                booking_seq := booking_seq db + 1 |}
       /\ resp = Raise (AttributeError "reviews").
Proof.
  unfold BookingViewSet.create, run_validation. intro H.
  invert_bind H. rename a into data'.
  invert_bind Ha. rename a into data, Ha0 into Hfields.
  apply validate_Ok in Ha. destruct Ha as (l & ci & co & n & Hl & Hci & Hco & Hn & Hnot & ->).
  invert_bind H. destruct a as [db1 row].
  injection H as <- <-.
  unfold BookingViewSet.perform_create, create in Ha. simpl in Ha.
  rewrite Hl, Hci, Hco, Hn in Ha. simpl in Ha. injection Ha as <- <-.
  exists data, l, ci, co, n. repeat split; auto.
  apply to_internal_value_Ok in Hfields.
  destruct Hfields as (_ & _ & _ & _ & _ & Hlist & _).
  destruct (Hlist l Hl) as (Hin & _ & _).
  destruct (related_listing_found
              {| users := users db; listings := listings db;
                 bookings := bookings db; listing_seq := listing_seq db;
                 booking_seq := booking_seq db |}
              {| Booking.id := booking_seq db;
                 Booking.listing := Listing.id l;
                 Booking.guest := user_id user;
                 Booking.check_in := ci;
                 Booking.check_out := co;
                 Booking.number_of_guests := n;
                 Booking.total_price := PyDate.days_between co ci * Listing.price_per_night l;
                 Booking.status := default (Data.status data) Booking.pending;
                 Booking.special_requests := default (Data.special_requests data) "" |}
              l Hin eq_refl) as [l' Hl'].
  unfold to_representation, related_listing in *. simpl in *. now rewrite Hl'.
Qed.

Lemma update_Ok db user partial pk req db' resp :
  BookingViewSet.update db user partial pk req = Ok (db', resp) ->
  exists instance data l ci co n,
    BookingViewSet.get_object db (if partial then PATCH else PUT) user pk = Ok instance
    /\ to_internal_value db partial req = Ok data
    /\ Data.listing data = Some l
    /\ Data.check_in data = Some ci
    /\ Data.check_out data = Some co
    /\ Data.number_of_guests data = Some n
    /\ ~ must_reject db (Some instance) l ci co n
    /\ let row :=
         {| Booking.id := Booking.id instance;
            Booking.listing := Listing.id l;
            Booking.guest :=
              match Data.guest data with
              | Some u => user_id u
              | None => Booking.guest instance
              end;
            Booking.check_in := ci;
            Booking.check_out := co;
            Booking.number_of_guests := n;
            Booking.total_price := PyDate.days_between co ci * Listing.price_per_night l;
            Booking.status := default (Data.status data) (Booking.status instance);
            Booking.special_requests :=
              default (Data.special_requests data) (Booking.special_requests instance) |} in
       db' = save_booking db row
       /\ resp = Raise (AttributeError "reviews").
Proof.
  unfold BookingViewSet.update, run_validation. intro H.
  invert_bind H. rename a into instance, Ha into Hget.
  invert_bind H. rename a into data'.
  invert_bind Ha. rename a into data, Ha0 into Hfields.
  apply validate_Ok in Ha. destruct Ha as (l & ci & co & n & Hl & Hci & Hco & Hn & Hnot & ->).
  unfold update in H. simpl in H. rewrite Hl, Hci, Hco, Hn in H. simpl in H.
  injection H as <- <-.
  exists instance, data, l, ci, co, n. repeat split; auto.
  apply to_internal_value_Ok in Hfields.
  destruct Hfields as (_ & _ & _ & _ & _ & Hlist & _).
  destruct (Hlist l Hl) as (Hin & _ & _).
  unfold to_representation, related_listing. simpl.
  destruct (find _ (listings db)) as [l'|] eqn:F; [reflexivity|].
  apply (find_none _ _ F) in Hin. simpl in Hin.
  rewrite Z.eqb_refl in Hin. discriminate.
Qed.

(** The row saved by [save_booking] is in the table when a row had its
    primary key. *)
Lemma save_booking_In db row old :
  In old (bookings db) -> Booking.id old = Booking.id row ->
  In row (bookings (save_booking db row)).
Proof.
  intros Hin Hid. unfold save_booking. simpl.
  apply in_map_iff. exists old. rewrite Hid, Z.eqb_refl. auto.
Qed.

Lemma In_save_booking db row r :
  In r (bookings (save_booking db row)) ->
  r = row \/ (In r (bookings db) /\ Booking.id r <> Booking.id row).
Proof.
  unfold save_booking. simpl. intro H.
  apply in_map_iff in H. destruct H as [x [Hx Hin]].
  destruct (Booking.id x =? Booking.id row) eqn:E.
  - left. auto.
  - right. subst r. apply Z.eqb_neq in E. auto.
Qed.

End Stored_row.

(* ------------------------------------------------------------------ *)
(** ** C1: the total price is derived, never taken from the caller *)

Section Pricing.

Import BookingSerializer.

Lemma not_rejected_dates db instance l ci co n :
  ~ must_reject db instance l ci co n -> ci < co.
Proof. unfold must_reject. intro H. destruct (Z_lt_ge_dec ci co); tauto. Qed.



End Pricing.

(* ------------------------------------------------------------------ *)
(** ** C10: the creator is the caller *)

Section Creator.

Import BookingSerializer.

Lemma listing_create_Ok db user req db' resp :
  ListingViewSet.create db user req = Ok (db', resp) ->
  exists row,
    resp = Raise (AttributeError "reviews")
    /\ db' = {| users := users db; listings := row :: listings db;
                bookings := bookings db;
                listing_seq := listing_seq db + 1;
                booking_seq := booking_seq db |}
    /\ Listing.id row = listing_seq db
    /\ Listing.host row = user_id user.
Proof.
  unfold ListingViewSet.create. intro H.
  invert_bind H. rename a into data.
  invert_bind H. destruct a as [db1 row]. injection H as <- <-.
  unfold ListingViewSet.perform_create, ListingSerializer.create in Ha0.
  simpl in Ha0.
  repeat (invert_bind Ha0).
  injection Ha0 as <- <-.
  eexists. repeat split.
Qed.

(** A create request for a listing whose fields are all valid stores
    its row: the required entries are there, so [Listing.objects.create]
    has what it needs. *)
Lemma listing_create_accepts db user req data :
  ListingSerializer.to_internal_value db false req = Ok data ->
  exists row,
    ListingViewSet.create db user req
    = Ok ({| users := users db; listings := row :: listings db;
             bookings := bookings db;
             listing_seq := listing_seq db + 1;
             booking_seq := booking_seq db |},
          Raise (AttributeError "reviews"))
    /\ Listing.id row = listing_seq db
    /\ Listing.host row = user_id user.
Proof.
  unfold ListingViewSet.create. intro H. rewrite H. simpl.
  unfold ListingSerializer.to_internal_value in H.
  destruct (run_field false true "host_id" _ _) as [v1 e1] eqn:F1.
  destruct (run_field false true "title" _ _) as [v2 e2] eqn:F2.
  destruct (run_field false true "description" _ _) as [v3 e3] eqn:F3.
  destruct (run_field false true "property_type" _ _) as [v4 e4] eqn:F4.
  destruct (run_field false true "price_per_night" _ _) as [v5 e5] eqn:F5.
  destruct (run_field false true "bedrooms" _ _) as [v6 e6] eqn:F6.
  destruct (run_field false true "bathrooms" _ _) as [v7 e7] eqn:F7.
  destruct (run_field false true "max_guests" _ _) as [v8 e8] eqn:F8.
  destruct (run_field false true "address" _ _) as [v9 e9] eqn:F9.
  destruct (run_field false true "city" _ _) as [v10 e10] eqn:F10.
  destruct (run_field false true "country" _ _) as [v11 e11] eqn:F11.
  destruct (run_field false false "amenities" _ _) as [v12 e12] eqn:F12.
  destruct (run_field false false "is_available" _ _) as [v13 e13] eqn:F13.
  destruct (e1 ++ e2 ++ e3 ++ e4 ++ e5 ++ e6 ++ e7 ++ e8 ++ e9 ++ e10 ++ e11 ++ e12 ++ e13)
    eqn:E; [|discriminate].
  repeat (apply app_eq_nil in E; destruct E as [? E]); subst.
  injection H as <-.
  apply run_field_required in F2, F3, F4, F5, F6, F7, F8, F9, F10, F11.
  destruct F2 as [? ->], F3 as [? ->], F4 as [? ->], F5 as [? ->], F6 as [? ->],
           F7 as [? ->], F8 as [? ->], F9 as [? ->], F10 as [? ->], F11 as [? ->].
  unfold ListingViewSet.perform_create, ListingSerializer.create. simpl.
  eexists. split; [reflexivity|]. split; reflexivity.
Qed.

(** The validated data of two listing requests that differ in
    [host_id] only, both naming a user, differ in their host only. *)
Lemma listing_to_internal_value_host_id db partial req h1 h2 u1 u2 :
  related_field (users db) user_id h1 = inl u1 ->
  related_field (users db) user_id h2 = inl u2 ->
  match ListingSerializer.to_internal_value db partial (submit_host_id req (Some h1)),
        ListingSerializer.to_internal_value db partial (submit_host_id req (Some h2)) with
  | Ok d1, Ok d2 =>
      forall u, ListingSerializer.Data.set_host d1 u = ListingSerializer.Data.set_host d2 u
  | Raise e1, Raise e2 => e1 = e2
  | _, _ => False
  end.
Proof.
  intros H1 H2. unfold ListingSerializer.to_internal_value, submit_host_id. simpl.
  rewrite H1, H2.
  destruct (run_field partial true "title" _ _) as [v2 e2].
  destruct (run_field partial true "description" _ _) as [v3 e3].
  destruct (run_field partial true "property_type" _ _) as [v4 e4].
  destruct (run_field partial true "price_per_night" _ _) as [v5 e5].
  destruct (run_field partial true "bedrooms" _ _) as [v6 e6].
  destruct (run_field partial true "bathrooms" _ _) as [v7 e7].
  destruct (run_field partial true "max_guests" _ _) as [v8 e8].
  destruct (run_field partial true "address" _ _) as [v9 e9].
  destruct (run_field partial true "city" _ _) as [v10 e10].
  destruct (run_field partial true "country" _ _) as [v11 e11].
  destruct (run_field partial false "amenities" _ _) as [v12 e12].
  destruct (run_field partial false "is_available" _ _) as [v13 e13].
  simpl.
  destruct (e2 ++ e3 ++ e4 ++ e5 ++ e6 ++ e7 ++ e8 ++ e9 ++ e10 ++ e11 ++ e12 ++ e13);
    reflexivity.
Qed.

(** A create request for a booking that passes validation stores its
    row, with the caller as the guest. *)
Lemma create_accepts db user req d :
  run_validation db None false req = Ok d ->
  exists row answer,
    BookingViewSet.create db user req
    = Ok ({| users := users db; listings := listings db;
             bookings := row :: bookings db;
             listing_seq := listing_seq db;
             booking_seq := booking_seq db + 1 |}, answer)
    /\ Booking.id row = booking_seq db
    /\ Booking.guest row = user_id user.
Proof.
  intro V. unfold BookingViewSet.create. rewrite V. simpl.
  apply run_validation_Ok in V. destruct V as (data & _ & V).
  destruct (perform_create_validated _ _ _ _ db user V)
    as (l & ci & co & n & _ & _ & _ & _ & _ & P).
  cbv zeta in P. rewrite P. simpl.
  do 2 eexists. split; [reflexivity|]. split; reflexivity.
Qed.

(** The validated data of two requests that differ in [guest_id] only,
    both naming a user, differ in their guest only. *)
Lemma to_internal_value_guest_id db partial req g1 g2 u1 u2 :
  related_field (users db) user_id g1 = inl u1 ->
  related_field (users db) user_id g2 = inl u2 ->
  match to_internal_value db partial (submit_guest_id req (Some g1)),
        to_internal_value db partial (submit_guest_id req (Some g2)) with
  | Ok d1, Ok d2 => forall u, Data.set_guest d1 u = Data.set_guest d2 u
  | Raise e1, Raise e2 => e1 = e2
  | _, _ => False
  end.
Proof.
  intros H1 H2. unfold to_internal_value, submit_guest_id. simpl.
  rewrite H1, H2.
  destruct (run_field partial true "listing_id" _ _) as [l e1].
  destruct (run_field partial true "check_in" _ _) as [ci e3].
  destruct (run_field partial true "check_out" _ _) as [co e4].
  destruct (run_field partial true "number_of_guests" _ _) as [n e5].
  destruct (run_field partial false "status" _ _) as [st e6].
  destruct (run_field partial false "special_requests" _ _) as [sr e7].
  simpl. destruct (e1 ++ e3 ++ e4 ++ e5 ++ e6 ++ e7); reflexivity.
Qed.

Lemma validate_set_guest db instance d1 d2 :
  (forall u, Data.set_guest d1 u = Data.set_guest d2 u) ->
  match validate db instance d1, validate db instance d2 with
  | Ok d1', Ok d2' => forall u, Data.set_guest d1' u = Data.set_guest d2' u
  | Raise e1, Raise e2 => e1 = e2
  | _, _ => False
  end.
Proof.
  intro H. specialize (H {| user_id := 0; is_staff := false |}).
  destruct d1 as [l1 g1 ci1 co1 n1 tp1 st1 sr1], d2 as [l2 g2 ci2 co2 n2 tp2 st2 sr2].
  unfold Data.set_guest in H. simpl in H. injection H as -> -> -> -> -> -> ->.
  unfold validate. simpl.
  destruct ci2 as [ci|]; simpl; [|reflexivity].
  destruct co2 as [co|]; simpl; [|reflexivity].
  destruct (ci >=? co); [reflexivity|].
  destruct l2 as [l|]; simpl; [|reflexivity].
  destruct n2 as [n|]; simpl; [|reflexivity].
  destruct (n >? Listing.max_guests l); [reflexivity|].
  destruct (exists_ _); reflexivity.
Qed.

Lemma related_field_found {A : Type} (queryset : list A) (pk_of : A -> Z) (pk : Z) :
  (exists o, In o queryset /\ pk_of o = pk) ->
  exists o', related_field queryset pk_of pk = inl o'.
Proof.
  intros [o [Hin Hpk]]. unfold related_field.
  destruct (find _ queryset) as [x|] eqn:F; [eauto|].
  eapply find_none in F; eauto. apply Z.eqb_neq in F. contradiction.
Qed.

(** C10.  A create request for a booking that passes validation
    stores a row whose guest is the caller, and every row a booking
    create stores has the caller as its guest, whatever [guest_id] the
    request carries: two requests that differ only in the user their
    [guest_id] names have the same outcome.  Likewise a create request
    for a listing whose fields are valid stores a row whose host is the
    caller, every row a listing create stores has the caller as its
    host, and two requests that differ only in the user their [host_id]
    names have the same outcome. *)
Theorem C10_creator_is_the_caller (db : DB) (user : User) :
  (forall req d,
      run_validation db None false req = Ok d ->
      exists db' answer row,
        BookingViewSet.create db user req = Ok (db', answer)
        /\ bookings db' = row :: bookings db
        /\ Booking.guest row = user_id user)
  /\ (forall req db' answer,
      BookingViewSet.create db user req = Ok (db', answer) ->
      exists row,
        bookings db' = row :: bookings db
        /\ In row (bookings db') /\ Booking.guest row = user_id user)
  /\ (forall req u1 u2,
      In u1 (users db) -> In u2 (users db) ->
      BookingViewSet.create db user (submit_guest_id req (Some (user_id u1)))
      = BookingViewSet.create db user (submit_guest_id req (Some (user_id u2))))
  /\ (forall req d,
      ListingSerializer.to_internal_value db false req = Ok d ->
      exists db' answer row,
        ListingViewSet.create db user req = Ok (db', answer)
        /\ listings db' = row :: listings db
        /\ Listing.host row = user_id user)
  /\ (forall req db' answer,
      ListingViewSet.create db user req = Ok (db', answer) ->
      exists row,
        listings db' = row :: listings db
        /\ In row (listings db') /\ Listing.host row = user_id user)
  /\ (forall req u1 u2,
      In u1 (users db) -> In u2 (users db) ->
      ListingViewSet.create db user (submit_host_id req (Some (user_id u1)))
      = ListingViewSet.create db user (submit_host_id req (Some (user_id u2)))).
Proof.
  split; [|split; [|split; [|split; [|split]]]].
  - intros req d V.
    destruct (create_accepts db user req d V) as (row & answer & H & _ & Hg).
    do 2 eexists. exists row. split; [exact H|]. split; [reflexivity | exact Hg].
  - intros req db' answer H.
    apply create_Ok in H.
    destruct H as (data & l & ci & co & n & _ & _ & _ & _ & _ & _ & Hdb & _).
    eexists. split; [rewrite Hdb; reflexivity|]. split; [|reflexivity].
    rewrite Hdb. left. reflexivity.
  - intros req u1 u2 H1 H2.
    destruct (related_field_found (users db) user_id (user_id u1)) as [v1 F1]; [eauto|].
    destruct (related_field_found (users db) user_id (user_id u2)) as [v2 F2]; [eauto|].
    pose proof (to_internal_value_guest_id db false req _ _ _ _ F1 F2) as T.
    unfold BookingViewSet.create, run_validation.
    destruct (to_internal_value db false (submit_guest_id req (Some (user_id u1)))) as [d1|e1];
      destruct (to_internal_value db false (submit_guest_id req (Some (user_id u2)))) as [d2|e2];
      try contradiction; simpl; [|congruence].
    pose proof (validate_set_guest db None d1 d2 T) as V.
    destruct (validate db None d1) as [d1'|e1]; destruct (validate db None d2) as [d2'|e2];
      try contradiction; simpl; [|congruence].
    unfold BookingViewSet.perform_create. rewrite (V user). reflexivity.
  - intros req d V.
    destruct (listing_create_accepts db user req d V) as (row & H & _ & Hh).
    do 2 eexists. exists row. split; [exact H|]. split; [reflexivity | exact Hh].
  - intros req db' answer H.
    apply listing_create_Ok in H. destruct H as (row & _ & Hdb & _ & Hhost).
    exists row. split; [rewrite Hdb; reflexivity|]. split; [|exact Hhost].
    rewrite Hdb. left. reflexivity.
  - intros req u1 u2 H1 H2.
    destruct (related_field_found (users db) user_id (user_id u1)) as [v1 F1]; [eauto|].
    destruct (related_field_found (users db) user_id (user_id u2)) as [v2 F2]; [eauto|].
    pose proof (listing_to_internal_value_host_id db false req _ _ _ _ F1 F2) as T.
    unfold ListingViewSet.create.
    destruct (ListingSerializer.to_internal_value db false
                (submit_host_id req (Some (user_id u1)))) as [d1|e1];
      destruct (ListingSerializer.to_internal_value db false
                  (submit_host_id req (Some (user_id u2)))) as [d2|e2];
      try contradiction; simpl; [|congruence].
    unfold ListingViewSet.perform_create. rewrite (T user). reflexivity.
Qed.

(** The scenario's guest (user 2) posts a listing whose [host_id] names
    user 1: [ListingViewSet.create] stores the listing with host 2.
    The same user books with [guest_id] 3 in the request:
    [BookingViewSet.create] stores the booking with guest 2. *)
Lemma C10_witness :
  (exists db' answer row,
      ListingSerializer.Initial.host_id (listing_request 1) = Some 1
      /\ ListingViewSet.create Scenario.db_empty Scenario.guest_user (listing_request 1)
         = Ok (db', answer)
      /\ listings db' = row :: listings Scenario.db_empty
      /\ Listing.host row = 2)
  /\ (exists db' answer row,
      BookingSerializer.Initial.guest_id
        (Scenario.request (PyDate.mk 2024 6 5) (PyDate.mk 2024 6 8) None) = Some 3
      /\ BookingViewSet.create (Scenario.db_with Booking.confirmed) Scenario.guest_user
           (Scenario.request (PyDate.mk 2024 6 5) (PyDate.mk 2024 6 8) None)
         = Ok (db', answer)
      /\ bookings db' = row :: bookings (Scenario.db_with Booking.confirmed)
      /\ Booking.guest row = 2).
Proof.
  split.
  - destruct (proj1 (proj2 (proj2 (proj2 (C10_creator_is_the_caller
                                             Scenario.db_empty Scenario.guest_user))))
                    (listing_request 1) _ eq_refl)
      as (db' & answer & row & H & Hrows & Hh).
    exists db', answer, row. split; [reflexivity|]. auto.
  - destruct (proj1 (C10_creator_is_the_caller
                       (Scenario.db_with Booking.confirmed) Scenario.guest_user)
                    (Scenario.request (PyDate.mk 2024 6 5) (PyDate.mk 2024 6 8) None)
                    _ eq_refl)
      as (db' & answer & row & H & Hrows & Hg).
    exists db', answer, row. split; [reflexivity|]. auto.
Defined.

End Creator.

(* ------------------------------------------------------------------ *)
(** ** The booking state machine: [confirm] and [cancel] *)

Section State_machine.

Lemma find_the_one {A : Type} (p : A -> bool) (l : list A) (x : A) :
  In x l -> p x = true -> (forall y, In y l -> p y = true -> y = x) ->
  find p l = Some x.
Proof.
  induction l as [|a l IH]; simpl; [tauto|].
  intros Hin Hp Huniq.
  destruct (p a) eqn:Pa.
  - f_equal. apply Huniq; auto.
  - destruct Hin as [-> | Hin]; [congruence|].
    apply IH; auto.
Qed.

Lemma pk_unique_row db b1 b2 :
  pk_unique db -> In b1 (bookings db) -> In b2 (bookings db) ->
  Booking.id b1 = Booking.id b2 -> b1 = b2.
Proof.
  unfold pk_unique. induction (bookings db) as [|a l IH]; simpl; [tauto|].
  intros Hnd [-> | H1] [-> | H2] E; auto.
  - inversion Hnd as [|? ? Hnotin _]. exfalso. apply Hnotin.
    rewrite E. now apply in_map.
  - inversion Hnd as [|? ? Hnotin _]. exfalso. apply Hnotin.
    rewrite <- E. now apply in_map.
  - inversion Hnd. auto.
Qed.

(** Writing a new status on a row leaves it reachable by the callers
    who could reach it. *)
Lemma get_object_after_set_status db m user pk booking s :
  BookingViewSet.get_object db m user pk = Ok booking ->
  BookingViewSet.get_object (save_booking db (Booking.set_status booking s)) m user pk
  = Ok (Booking.set_status booking s).
Proof.
  intro Hget. pose proof (get_object_Ok _ _ _ _ _ Hget) as (Hin & Hid & Hperm).
  set (b' := Booking.set_status booking s).
  set (db' := save_booking db b').
  assert (Hvis : In booking (BookingViewSet.get_queryset db user)).
  { unfold BookingViewSet.get_object in Hget.
    destruct (find _ _) as [o|] eqn:F; [|discriminate].
    apply find_some in F. destruct F as [F _].
    destruct (IsBookingOwnerOrHost.has_object_permission db m user o) as [[|]|]; simpl in Hget;
      try discriminate. now injection Hget as <-. }
  assert (Hsame : forall u, BookingViewSet.guest_or_host db' u b'
                            = BookingViewSet.guest_or_host db u booking) by reflexivity.
  assert (Hvis' : In b' (BookingViewSet.get_queryset db' user)).
  { unfold BookingViewSet.get_queryset in *.
    assert (In b' (bookings db')) as Hin'
      by (eapply save_booking_In; [exact Hin | reflexivity]).
    destruct (is_staff user); [exact Hin'|].
    apply filter_In. apply filter_In in Hvis. rewrite Hsame. tauto. }
  unfold BookingViewSet.get_object.
  rewrite (find_the_one _ _ b' Hvis').
  - assert (IsBookingOwnerOrHost.has_object_permission db' m user b'
            = IsBookingOwnerOrHost.has_object_permission db m user booking) as -> by reflexivity.
    unfold IsBookingOwnerOrHost.has_object_permission.
    destruct (SAFE_METHODS m); rewrite Hperm; reflexivity.
  - simpl. now apply Z.eqb_eq.
  - intros y Hy Hpk. apply Z.eqb_eq in Hpk.
    apply get_queryset_incl in Hy. apply In_save_booking in Hy.
    destruct Hy as [-> | [_ Hne]]; [reflexivity|].
    exfalso. apply Hne. simpl. congruence.
Qed.

Lemma find_nothing {A : Type} (p : A -> bool) (l : list A) :
  (forall y, In y l -> p y = false) -> find p l = None.
Proof.
  induction l as [|a l IH]; simpl; [reflexivity|].
  intro H. rewrite (H a) by auto. apply IH. auto.
Qed.

Lemma related_listing_host db booking listing uid :
  related_listing db booking = Ok listing ->
  listing__host db booking uid = (Listing.host listing =? uid).
Proof.
  unfold related_listing, listing__host.
  destruct (find _ _); [|discriminate]. now intros [= ->].
Qed.

(** A party to the booking reaches it through [get_object]. *)
Lemma party_gets_object db m user booking listing :
  pk_unique db -> In booking (bookings db) ->
  related_listing db booking = Ok listing ->
  party_to user booking listing ->
  BookingViewSet.get_object db m user (Booking.id booking) = Ok booking.
Proof.
  intros Hpk Hin Hl Hparty.
  assert (Hperm : IsBookingOwnerOrHost.guest_or_host db user booking = Ok true).
  { unfold IsBookingOwnerOrHost.guest_or_host. rewrite Hl. simpl.
    destruct (Booking.guest booking =? user_id user) eqn:G; [reflexivity|].
    apply Z.eqb_neq in G. destruct Hparty as [H | H]; [contradiction|].
    f_equal. now apply Z.eqb_eq. }
  assert (Hvis : In booking (BookingViewSet.get_queryset db user)).
  { unfold BookingViewSet.get_queryset. destruct (is_staff user); [exact Hin|].
    apply filter_In. split; [exact Hin|].
    unfold BookingViewSet.guest_or_host.
    rewrite (related_listing_host _ _ _ _ Hl).
    apply orb_true_iff. destruct Hparty as [H | H]; [left | right]; now apply Z.eqb_eq. }
  unfold BookingViewSet.get_object.
  rewrite (find_the_one _ _ booking Hvis).
  - unfold IsBookingOwnerOrHost.has_object_permission.
    destruct (SAFE_METHODS m); rewrite Hperm; reflexivity.
  - apply Z.eqb_refl.
  - intros y Hy E. apply Z.eqb_eq in E. apply get_queryset_incl in Hy.
    eapply pk_unique_row; eauto.
Qed.

(** Anyone else is stopped by [get_object]: the row is outside the
    queryset of a caller who is not staff, and the object permission
    refuses a caller who is. *)
Lemma stranger_is_stopped db m user booking listing :
  pk_unique db -> In booking (bookings db) ->
  related_listing db booking = Ok listing ->
  ~ party_to user booking listing ->
  BookingViewSet.get_object db m user (Booking.id booking)
  = Raise (if is_staff user then PermissionDenied else Http404).
Proof.
  intros Hpk Hin Hl Hstranger. unfold party_to in Hstranger.
  assert (Hg : (Booking.guest booking =? user_id user) = false)
    by (apply Z.eqb_neq; tauto).
  assert (Hh : (Listing.host listing =? user_id user) = false)
    by (apply Z.eqb_neq; tauto).
  unfold BookingViewSet.get_object, BookingViewSet.get_queryset.
  destruct (is_staff user).
  - rewrite (find_the_one _ _ booking Hin).
    + unfold IsBookingOwnerOrHost.has_object_permission,
        IsBookingOwnerOrHost.guest_or_host.
      rewrite Hg, Hl. simpl. rewrite Hh. destruct (SAFE_METHODS m); reflexivity.
    + apply Z.eqb_refl.
    + intros y Hy E. apply Z.eqb_eq in E. eapply pk_unique_row; eauto.
  - rewrite find_nothing; [reflexivity|].
    intros y Hy. apply filter_In in Hy. destruct Hy as [Hy Hvis].
    apply Z.eqb_neq. intro E.
    assert (y = booking) as -> by (eapply pk_unique_row; eauto).
    unfold BookingViewSet.guest_or_host in Hvis.
    rewrite (related_listing_host _ _ _ _ Hl), Hg, Hh in Hvis. discriminate.
Qed.

(** C4 (as amended).  [confirm] by a party to the booking (its guest
    or the listing's host) checks the status first and the caller
    second: when the status is not pending it answers 400 with 'Booking
    is already {status}' and changes nothing; when the status is
    pending and the caller is not the listing's host it answers 403
    with 'Only the host can confirm bookings' and changes nothing; when
    the status is pending and the caller is the host it stores the
    status confirmed, and a second [confirm] by the host then answers
    400 with 'Booking is already confirmed' and changes nothing.  A
    caller who is no party is stopped by [get_object] (404 for a caller
    who is not staff, 403 for one who is); the view's own tests, were
    the booking handed to it, answer that caller 400 for a booking that
    is not pending and 403 only for a pending one. *)
Theorem C4_confirm_checks_status_then_host
    (db : DB) (user : User) (booking : Booking.t) (listing : Listing.t)
    (Hpk : pk_unique db) (Hin : In booking (bookings db))
    (Hlisting : related_listing db booking = Ok listing) :
  (party_to user booking listing ->
     Booking.status booking <> Booking.pending ->
     BookingViewSet.confirm db user (Booking.id booking)
     = Ok (db, Ok {| data := Error ("Booking is already "
                                      ++ Booking.value (Booking.status booking))%string;
                     status := 400 |}))
  /\ (party_to user booking listing ->
      Booking.status booking = Booking.pending ->
      user_id user <> Listing.host listing ->
      BookingViewSet.confirm db user (Booking.id booking)
      = Ok (db, Ok {| data := Error "Only the host can confirm bookings"; status := 403 |}))
  /\ (Booking.status booking = Booking.pending ->
      user_id user = Listing.host listing ->
      let confirmed := Booking.set_status booking Booking.confirmed in
      let db' := save_booking db confirmed in
      (exists answer,
          BookingViewSet.confirm db user (Booking.id booking) = Ok (db', answer))
      /\ In confirmed (bookings db')
      /\ BookingViewSet.confirm db' user (Booking.id booking)
         = Ok (db', Ok {| data := Error "Booking is already confirmed"; status := 400 |}))
  /\ (~ party_to user booking listing ->
      BookingViewSet.confirm db user (Booking.id booking)
      = Raise (if is_staff user then PermissionDenied else Http404))
  /\ (~ party_to user booking listing ->
      BookingViewSet.confirm_booking db user booking
      = Ok (db,
            Ok (if negb (Booking.status_eqb (Booking.status booking) Booking.pending)
                then {| data := Error ("Booking is already "
                                         ++ Booking.value (Booking.status booking))%string;
                        status := 400 |}
                else {| data := Error "Only the host can confirm bookings";
                        status := 403 |}))).
Proof.
  unfold BookingViewSet.confirm.
  split; [|split; [|split; [|split]]].
  - intros Hparty Hs.
    rewrite (party_gets_object _ POST _ _ _ Hpk Hin Hlisting Hparty). simpl.
    unfold BookingViewSet.confirm_booking.
    destruct (Booking.status booking); simpl; try reflexivity. contradiction.
  - intros Hparty Hs Hne.
    rewrite (party_gets_object _ POST _ _ _ Hpk Hin Hlisting Hparty). simpl.
    unfold BookingViewSet.confirm_booking. rewrite Hs, Hlisting. simpl.
    apply Z.eqb_neq in Hne. rewrite Hne. reflexivity.
  - intros Hs He.
    assert (Hget : BookingViewSet.get_object db POST user (Booking.id booking) = Ok booking).
    { apply party_gets_object with (listing := listing); auto. right. auto. }
    split; [|split].
    + rewrite Hget. simpl.
      unfold BookingViewSet.confirm_booking. rewrite Hs, Hlisting. simpl.
      apply Z.eqb_eq in He. rewrite He. simpl. eexists. reflexivity.
    + eapply save_booking_In; [exact Hin | reflexivity].
    + rewrite (get_object_after_set_status _ _ _ _ _ Booking.confirmed Hget). reflexivity.
  - intro Hstranger.
    rewrite (stranger_is_stopped _ POST _ _ _ Hpk Hin Hlisting Hstranger). reflexivity.
  - intro Hstranger. unfold BookingViewSet.confirm_booking.
    destruct (negb _); [reflexivity|].
    rewrite Hlisting. simpl.
    assert ((user_id user =? Listing.host listing) = false) as ->.
    { apply Z.eqb_neq. intro E. apply Hstranger. right. auto. }
    reflexivity.
Qed.

Lemma scenario_pk_unique s : pk_unique (Scenario.db_with s).
Proof. unfold pk_unique. simpl. repeat constructor. simpl. tauto. Qed.

(** The pending booking of the scenario, confirmed twice by the host:
    the first request stores the status confirmed, the second is
    answered 400. *)
Lemma C4_witness :
  let db := Scenario.db_with Booking.pending in
  let db' := Scenario.db_with Booking.confirmed in
  (exists answer, BookingViewSet.confirm db Scenario.host_user 1 = Ok (db', answer))
  /\ In (Scenario.booked Booking.confirmed) (bookings db')
  /\ BookingViewSet.confirm db' Scenario.host_user 1
     = Ok (db', Ok {| data := Error "Booking is already confirmed"; status := 400 |}).
Proof.
  exact (proj1 (proj2 (proj2 (C4_confirm_checks_status_then_host
                                (Scenario.db_with Booking.pending) Scenario.host_user
                                (Scenario.booked Booking.pending) Scenario.the_listing
                                (scenario_pk_unique _) (or_introl eq_refl) eq_refl)))
               eq_refl eq_refl).
Defined.

(** C4 as stated fails.  The guest of a confirmed booking is not the
    listing's host, and [confirm] answers 400 'Booking is already
    confirmed', not 403 'Only the host can confirm bookings'.  And on a
    pending booking, user 3, who is neither its guest nor the host,
    gets a 404 and not that 403. *)
Lemma C4_counterexample :
  let db := Scenario.db_with Booking.confirmed in
  user_id Scenario.guest_user <> Listing.host Scenario.the_listing
  /\ BookingViewSet.confirm db Scenario.guest_user 1
     = Ok (db, Ok {| data := Error "Booking is already confirmed"; status := 400 |})
  /\ BookingViewSet.confirm db Scenario.guest_user 1
     <> Ok (db, Ok {| data := Error "Only the host can confirm bookings"; status := 403 |})
  /\ user_id Scenario.other_user <> Listing.host Scenario.the_listing
  /\ BookingViewSet.confirm (Scenario.db_with Booking.pending) Scenario.other_user 1
     = Raise Http404.
Proof.
  intro db. split; [discriminate|]. split; [reflexivity|].
  split; [discriminate|]. split; [discriminate | reflexivity].
Qed.

(** [cancel] by a party on a booking that is not cancelled yet. *)
Lemma cancel_by_party db user booking listing :
  pk_unique db -> In booking (bookings db) ->
  related_listing db booking = Ok listing ->
  party_to user booking listing ->
  Booking.status booking <> Booking.cancelled ->
  BookingViewSet.cancel db user (Booking.id booking)
  = Ok (save_booking db (Booking.set_status booking Booking.cancelled),
        Raise (AttributeError "reviews")).
Proof.
  intros Hpk Hin Hlisting Hparty Hs. unfold BookingViewSet.cancel.
  rewrite (party_gets_object _ POST _ _ _ Hpk Hin Hlisting Hparty). simpl.
  unfold BookingViewSet.cancel_booking. rewrite Hlisting.
  assert (Booking.status_eqb (Booking.status booking) Booking.cancelled = false) as ->
    by (destruct (Booking.status booking); try reflexivity; contradiction).
  simpl.
  assert ((user_id user =? Booking.guest booking)
          || ((user_id user =? Listing.host listing) || false) = true) as ->.
  { rewrite orb_false_r. apply orb_true_iff.
    destruct Hparty as [H | H]; [left | right]; apply Z.eqb_eq; auto. }
  simpl.
  rewrite (booking_data_raises _ (Booking.set_status booking Booking.cancelled) listing)
    by exact Hlisting.
  reflexivity.
Qed.

(** C5 (as amended).  [cancel] on a booking by one of its parties (the
    guest or the listing's host) stores the status cancelled when the
    booking is not cancelled yet (pending, confirmed, and completed as
    well); it answers 400 'Booking is already cancelled' and changes
    nothing when it is.  A caller who is
    no party never changes the booking: [get_object] stops the request
    (404 for a caller who is not staff, 403 for one who is), and the
    view's own test, were the booking handed to it, answers 400 for a
    cancelled booking and 403 'You do not have permission to cancel
    this booking' only for one that is not cancelled. *)
Theorem C5_cancel_checks_status_then_caller
    (db : DB) (user : User) (booking : Booking.t) (listing : Listing.t)
    (Hpk : pk_unique db) (Hin : In booking (bookings db))
    (Hlisting : related_listing db booking = Ok listing) :
  (party_to user booking listing ->
     Booking.status booking <> Booking.cancelled ->
     let cancelled := Booking.set_status booking Booking.cancelled in
     (exists answer,
         BookingViewSet.cancel db user (Booking.id booking)
         = Ok (save_booking db cancelled, answer))
     /\ In cancelled (bookings (save_booking db cancelled)))
  /\ (party_to user booking listing ->
      Booking.status booking = Booking.cancelled ->
      BookingViewSet.cancel db user (Booking.id booking)
      = Ok (db, Ok {| data := Error "Booking is already cancelled"; status := 400 |}))
  /\ (~ party_to user booking listing ->
      BookingViewSet.cancel db user (Booking.id booking)
      = Raise (if is_staff user then PermissionDenied else Http404))
  /\ (~ party_to user booking listing ->
      BookingViewSet.cancel_booking db user booking
      = Ok (db,
            Ok (if Booking.status_eqb (Booking.status booking) Booking.cancelled
                then {| data := Error "Booking is already cancelled"; status := 400 |}
                else {| data := Error "You do not have permission to cancel this booking";
                        status := 403 |}))).
Proof.
  unfold BookingViewSet.cancel.
  split; [|split; [|split]].
  - intros Hparty Hs. fold (BookingViewSet.cancel db user (Booking.id booking)).
    split.
    + eexists. now apply cancel_by_party with (listing := listing).
    + eapply save_booking_In; [exact Hin | reflexivity].
  - intros Hparty Hs.
    rewrite (party_gets_object _ POST _ _ _ Hpk Hin Hlisting Hparty). simpl.
    unfold BookingViewSet.cancel_booking. rewrite Hs. reflexivity.
  - intro Hstranger.
    rewrite (stranger_is_stopped _ POST _ _ _ Hpk Hin Hlisting Hstranger). reflexivity.
  - intro Hstranger. unfold BookingViewSet.cancel_booking.
    destruct (Booking.status_eqb (Booking.status booking) Booking.cancelled); [reflexivity|].
    rewrite Hlisting. simpl.
    assert ((user_id user =? Booking.guest booking)
            || ((user_id user =? Listing.host listing) || false) = false) as ->.
    { unfold party_to in Hstranger. rewrite orb_false_r. apply orb_false_iff.
      split; apply Z.eqb_neq; intro E; apply Hstranger; auto. }
    reflexivity.
Qed.

(** The guest of the scenario cancels the confirmed booking: the
    stored status is cancelled. *)
Lemma C5_witness :
  (exists answer,
      BookingViewSet.cancel (Scenario.db_with Booking.confirmed) Scenario.guest_user 1
      = Ok (Scenario.db_with Booking.cancelled, answer))
  /\ In (Scenario.booked Booking.cancelled) (bookings (Scenario.db_with Booking.cancelled)).
Proof.
  refine (proj1 (C5_cancel_checks_status_then_caller
                   (Scenario.db_with Booking.confirmed) Scenario.guest_user
                   (Scenario.booked Booking.confirmed) Scenario.the_listing
                   (scenario_pk_unique _) (or_introl eq_refl) eq_refl)
                (or_introl eq_refl) _).
  discriminate.
Defined.

(** C5 as stated fails on a cancelled booking and a caller who is
    neither its guest nor its host: no answer is both the 400 of the
    one clause and the 403 of the other.  The request of user 3 ends in
    a 404, that of the staff user 4 in a 403 and not in the 400, and
    the view's own tests answer 400 and not 403. *)
Lemma C5_counterexample :
  let db := Scenario.db_with Booking.cancelled in
  let booking := Scenario.booked Booking.cancelled in
  (~ party_to Scenario.other_user booking Scenario.the_listing)
  /\ (~ party_to Scenario.staff_user booking Scenario.the_listing)
  /\ BookingViewSet.cancel db Scenario.other_user 1 = Raise Http404
  /\ BookingViewSet.cancel db Scenario.staff_user 1 = Raise PermissionDenied
  /\ BookingViewSet.cancel_booking db Scenario.other_user booking
     = Ok (db, Ok {| data := Error "Booking is already cancelled"; status := 400 |}).
Proof.
  intros db booking. unfold party_to.
  split; [simpl; lia|]. split; [simpl; lia|].
  repeat split; reflexivity.
Qed.

(** The row [get_object] returns is the row with that primary key. *)
Lemma get_object_is_the_row db m user booking obj :
  pk_unique db -> In booking (bookings db) ->
  BookingViewSet.get_object db m user (Booking.id booking) = Ok obj ->
  obj = booking.
Proof.
  intros Hpk Hin Hget. apply get_object_Ok in Hget. destruct Hget as (Hobj & Hid & _).
  eapply pk_unique_row; eauto.
Qed.

(** C6 (as amended).  Nothing leaves cancelled: on a cancelled booking
    neither [confirm] nor [cancel], by any caller, changes the tables.
    On a completed booking [confirm] changes nothing either, but
    [cancel] by the guest or the listing's host stores the status
    cancelled. *)
Theorem C6_cancelled_is_final_completed_can_be_cancelled
    (db : DB) (user : User) (booking : Booking.t) (listing : Listing.t)
    (Hpk : pk_unique db) (Hin : In booking (bookings db))
    (Hlisting : related_listing db booking = Ok listing) :
  (Booking.status booking = Booking.cancelled
   \/ Booking.status booking = Booking.completed ->
     forall db' resp,
       BookingViewSet.confirm db user (Booking.id booking) = Ok (db', resp) -> db' = db)
  /\ (Booking.status booking = Booking.cancelled ->
      forall db' resp,
        BookingViewSet.cancel db user (Booking.id booking) = Ok (db', resp) -> db' = db)
  /\ (Booking.status booking = Booking.completed ->
      party_to user booking listing ->
      let cancelled := Booking.set_status booking Booking.cancelled in
      (exists answer,
          BookingViewSet.cancel db user (Booking.id booking)
          = Ok (save_booking db cancelled, answer))
      /\ In cancelled (bookings (save_booking db cancelled))
      /\ ~ In booking (bookings (save_booking db cancelled))).
Proof.
  split; [|split].
  - intros Hs db' resp H. unfold BookingViewSet.confirm in H.
    invert_bind H. rename a into obj.
    apply (get_object_is_the_row _ _ _ _ _ Hpk Hin) in Ha. subst obj.
    unfold BookingViewSet.confirm_booking in H.
    destruct Hs as [Hs | Hs]; rewrite Hs in H; simpl in H; now injection H as <- _.
  - intros Hs db' resp H. unfold BookingViewSet.cancel in H.
    invert_bind H. rename a into obj.
    apply (get_object_is_the_row _ _ _ _ _ Hpk Hin) in Ha. subst obj.
    unfold BookingViewSet.cancel_booking in H.
    rewrite Hs in H; simpl in H; now injection H as <- _.
  - intros Hs Hparty. split; [|split].
    + eexists. apply cancel_by_party with (listing := listing); auto. congruence.
    + eapply save_booking_In; [exact Hin | reflexivity].
    + intro H. apply In_save_booking in H.
      destruct H as [H | [_ H]]; [|now apply H].
      rewrite H in Hs. simpl in Hs. discriminate.
Qed.

(** The guest of the scenario cancels the cancelled booking again:
    the tables are as before. *)
Lemma C6_witness :
  let db := Scenario.db_with Booking.cancelled in
  BookingViewSet.cancel db Scenario.guest_user 1
  = Ok (db, Ok {| data := Error "Booking is already cancelled"; status := 400 |})
  /\ db = db.
Proof.
  intro db. split; [reflexivity|].
  exact (proj1 (proj2 (C6_cancelled_is_final_completed_can_be_cancelled
                         db Scenario.guest_user (Scenario.booked Booking.cancelled)
                         Scenario.the_listing (scenario_pk_unique _)
                         (or_introl eq_refl) eq_refl))
               eq_refl db _ eq_refl).
Defined.

(** C6 as stated fails: the guest of a completed booking cancels it,
    and the stored status goes from completed to cancelled. *)
Lemma C6_counterexample :
  let db := Scenario.db_with Booking.completed in
  bookings db = [Scenario.booked Booking.completed]
  /\ (exists answer,
        BookingViewSet.cancel db Scenario.guest_user 1
        = Ok (Scenario.db_with Booking.cancelled, answer))
  /\ bookings (Scenario.db_with Booking.cancelled) = [Scenario.booked Booking.cancelled]
  /\ Booking.status (Scenario.booked Booking.completed) = Booking.completed
  /\ Booking.status (Scenario.booked Booking.cancelled) = Booking.cancelled.
Proof.
  intro db. split; [reflexivity|]. split; [eexists; reflexivity|].
  repeat split; reflexivity.
Qed.

End State_machine.

(* ------------------------------------------------------------------ *)
(** ** C7, C9: the two query views *)

Section Query_views.

Import ListingViewSet.

Lemma while_dates_done globals n current_date check_out booked_dates :
  (current_date <? check_out) = false ->
  while_dates globals n current_date check_out booked_dates = Ok booked_dates.
Proof. intro G. destruct n; simpl; rewrite G; reflexivity. Qed.

Lemma while_dates_step globals n current_date check_out booked_dates :
  (current_date <? check_out) = true ->
  while_dates globals (S n) current_date check_out booked_dates
  = (_ <- lookup_global globals "datetime" ;;
     while_dates globals n (PyDate.add_days current_date 1) check_out
       (booked_dates ++ [PyDate.isoformat current_date])).
Proof. intro G. simpl. rewrite G. reflexivity. Qed.

(** The guard of the loop is false once the variant is used up, so a
    larger variant changes nothing. *)
Lemma while_dates_variant globals n current_date check_out booked_dates :
  (Z.to_nat (check_out - current_date) <= n)%nat ->
  while_dates globals n current_date check_out booked_dates
  = while_dates globals (Z.to_nat (check_out - current_date))
      current_date check_out booked_dates.
Proof.
  revert current_date booked_dates.
  induction n as [|n IH]; intros cur acc Hle.
  - replace (Z.to_nat (check_out - cur)) with O by lia. reflexivity.
  - destruct (cur <? check_out) eqn:G.
    + pose proof G as G'. apply Z.ltb_lt in G'.
      destruct (Z.to_nat (check_out - cur)) as [|m] eqn:M; [lia|].
      rewrite !while_dates_step by exact G.
      destruct (lookup_global globals "datetime"); simpl; [|reflexivity].
      unfold PyDate.add_days.
      rewrite IH by lia.
      replace m with (Z.to_nat (check_out - (cur + 1))) by lia. reflexivity.
    + rewrite !while_dates_done by exact G. reflexivity.
Qed.

(** Without [datetime] among the globals, the first round of the loop
    raises. *)
Lemma while_dates_unbound globals current_date check_out booked_dates :
  lookup_global globals "datetime" = Raise (NameError "datetime") ->
  current_date < check_out ->
  while_dates globals (Z.to_nat (check_out - current_date))
    current_date check_out booked_dates
  = Raise (NameError "datetime").
Proof.
  intros Hg Hlt.
  destruct (Z.to_nat (check_out - current_date)) as [|m] eqn:M; [lia|].
  rewrite while_dates_step by (now apply Z.ltb_lt).
  rewrite Hg. reflexivity.
Qed.

(** With [datetime] bound, the loop appends the ISO form of each date
    from [current_date] up to [check_out], excluded. *)
Lemma while_dates_bound globals n current_date check_out booked_dates :
  lookup_global globals "datetime" = Ok tt ->
  n = Z.to_nat (check_out - current_date) ->
  while_dates globals n current_date check_out booked_dates
  = Ok (booked_dates
          ++ map PyDate.isoformat
               (map (fun k => current_date + Z.of_nat k) (seq 0 n))).
Proof.
  intro Hg. revert current_date booked_dates.
  induction n as [|n IH]; intros cur acc Hn.
  - rewrite while_dates_done by (apply Z.ltb_ge; lia).
    simpl. now rewrite app_nil_r.
  - rewrite while_dates_step by (apply Z.ltb_lt; lia).
    rewrite Hg. simpl. unfold PyDate.add_days.
    rewrite IH by lia. rewrite <- app_assoc. simpl.
    rewrite Z.add_0_r. do 3 f_equal.
    rewrite <- seq_shift, !map_map. apply map_ext.
    intro k. f_equal. lia.
Qed.

Lemma for_bookings_bound globals rows booked_dates :
  lookup_global globals "datetime" = Ok tt ->
  for_bookings globals rows booked_dates
  = Ok (booked_dates ++ map PyDate.isoformat (flat_map occupied_dates rows)).
Proof.
  intro Hg. revert booked_dates.
  induction rows as [|b rows IH]; intro acc; simpl.
  - now rewrite app_nil_r.
  - rewrite (while_dates_bound _ _ _ _ _ Hg eq_refl). simpl.
    rewrite IH, map_app, app_assoc. reflexivity.
Qed.

Lemma for_bookings_unbound globals rows booked_dates :
  lookup_global globals "datetime" = Raise (NameError "datetime") ->
  (exists b, In b rows /\ Booking.check_in b < Booking.check_out b) ->
  for_bookings globals rows booked_dates = Raise (NameError "datetime").
Proof.
  intros Hg. revert booked_dates.
  induction rows as [|b rows IH]; intros acc [x [Hin Hlt]]; [destruct Hin|].
  simpl.
  destruct (Z_lt_ge_dec (Booking.check_in b) (Booking.check_out b)) as [L | G].
  - rewrite while_dates_unbound by assumption. reflexivity.
  - rewrite while_dates_done by (apply Z.ltb_ge; lia). simpl.
    destruct Hin as [-> | Hin]; [lia|].
    apply IH. eauto.
Qed.

(** C7.  As written, [available_dates] raises [NameError] on the
    listing of the scenario, whose one booking is confirmed over
    [2024-06-01, 2024-06-05): [views.py] never imports [datetime], and
    the loop reaches [datetime.timedelta] in its first round.  The same
    holds for every listing with a pending or confirmed booking whose
    check_in is before its check_out.  With the import added the view
    returns the ISO dates each such booking occupies, check_in included
    and check_out excluded, and ["2024-06-01"; "2024-06-02";
    "2024-06-03"; "2024-06-04"] in the scenario. *)
Theorem C7_available_dates_raises_NameError :
  ListingViewSet.available_dates views_globals
    (Scenario.db_with Booking.confirmed) Scenario.other_user 1
  = Raise (NameError "datetime")
  /\ (forall db user pk listing b,
        get_object db GET user pk = Ok listing ->
        In b (blocking_bookings db listing) ->
        Booking.check_in b < Booking.check_out b ->
        ListingViewSet.available_dates views_globals db user pk
        = Raise (NameError "datetime"))
  /\ (forall db user pk listing,
        get_object db GET user pk = Ok listing ->
        ListingViewSet.available_dates repaired_globals db user pk
        = Ok {| data :=
                  BookedDates (Listing.id listing)
                    (map PyDate.isoformat
                       (flat_map occupied_dates (blocking_bookings db listing)))
                    "These dates are already booked";
                status := 200 |})
  /\ ListingViewSet.available_dates repaired_globals
       (Scenario.db_with Booking.confirmed) Scenario.other_user 1
     = Ok {| data :=
               BookedDates 1 ["2024-06-01"; "2024-06-02"; "2024-06-03"; "2024-06-04"]
                 "These dates are already booked";
             status := 200 |}.
Proof.
  split; [vm_compute; reflexivity|]. split; [|split; [|vm_compute; reflexivity]].
  - intros db user pk listing b Hget Hin Hlt.
    unfold available_dates. rewrite Hget. simpl.
    rewrite for_bookings_unbound; [reflexivity | reflexivity | eauto].
  - intros db user pk listing Hget.
    unfold available_dates. rewrite Hget. simpl.
    rewrite for_bookings_bound by reflexivity. reflexivity.
Qed.

Lemma insert_by_check_in_perm b l :
  Permutation (insert_by_check_in b l) (b :: l).
Proof.
  induction l as [|x l IH]; simpl; [reflexivity|].
  destruct (Booking.check_in b <=? Booking.check_in x); [reflexivity|].
  rewrite IH. apply perm_swap.
Qed.

Lemma order_by_check_in_perm l : Permutation (order_by_check_in l) l.
Proof.
  induction l as [|x l IH]; simpl; [reflexivity|].
  rewrite insert_by_check_in_perm. now constructor.
Qed.

Lemma insert_by_check_in_sorted b l :
  Sorted check_in_le l -> Sorted check_in_le (insert_by_check_in b l).
Proof.
  induction l as [|x l IH]; simpl; intro S.
  - repeat constructor.
  - destruct (Booking.check_in b <=? Booking.check_in x) eqn:E.
    + constructor; [exact S|]. constructor. now apply Z.leb_le.
    + apply Z.leb_gt in E. inversion S as [|? ? S' H]; subst.
      constructor; [now apply IH|].
      destruct l as [|y l]; simpl.
      * constructor. unfold check_in_le. lia.
      * destruct (Booking.check_in b <=? Booking.check_in y).
        -- constructor. unfold check_in_le. lia.
        -- inversion H; subst. now constructor.
Qed.

Lemma order_by_check_in_sorted l : Sorted check_in_le (order_by_check_in l).
Proof.
  induction l as [|x l IH]; simpl; [constructor|].
  now apply insert_by_check_in_sorted.
Qed.

(** C9.  As written, [upcoming] raises [NameError] for every caller,
    table, date and pagination setting: [views.py] never imports
    [timezone], which the view reads before anything else. *)
Theorem C9_upcoming_raises_NameError :
  forall paginator db user today,
    BookingViewSet.upcoming views_globals paginator db user today
    = Raise (NameError "timezone").
Proof. reflexivity. Qed.

End Query_views.

(* ------------------------------------------------------------------ *)
(** ** C3: no two active bookings of a listing overlap *)

Section Invariant.

Import BookingSerializer.

Lemma overlap_conflicts instance l ci co row old :
  Booking.listing row = Listing.id l ->
  Booking.check_in row = ci -> Booking.check_out row = co ->
  Booking.listing old = Booking.listing row ->
  active old ->
  (forall i, instance = Some i -> Booking.id old <> Booking.id i) ->
  overlap row old \/ overlap old row ->
  conflicts_with instance l ci co old.
Proof.
  unfold overlap, conflicts_with, active.
  intros Hl <- <- Hsame Hact Hex Hov.
  repeat split; auto; try congruence; destruct Hov; lia.
Qed.

(** A row that passed the conflict scan overlaps no active row of its
    listing in the table (other than the instance updated). *)
Lemma accepted_row_is_clear db instance l ci co n row old :
  ~ must_reject db instance l ci co n ->
  Booking.listing row = Listing.id l ->
  Booking.check_in row = ci -> Booking.check_out row = co ->
  In old (bookings db) ->
  (forall i, instance = Some i -> Booking.id old <> Booking.id i) ->
  Booking.listing old = Booking.listing row ->
  active old ->
  ~ (overlap row old \/ overlap old row).
Proof.
  intros Hnot Hl Hci Hco Hin Hex Hsame Hact Hov.
  apply Hnot. right; right. exists old. split; [exact Hin|].
  eapply overlap_conflicts; eauto.
Qed.

Lemma no_overlap_filter db db' keep :
  bookings db' = filter keep (bookings db) -> no_overlap db -> no_overlap db'.
Proof.
  intros E H b1 b2 H1 H2. rewrite E in H1, H2.
  apply filter_In in H1, H2. apply H; tauto.
Qed.

(** Rewriting the status of a row to one that does not block dates, or
    from pending to confirmed, keeps the property. *)
Lemma no_overlap_set_status db booking s :
  In booking (bookings db) ->
  (active (Booking.set_status booking s) -> active booking) ->
  no_overlap db ->
  no_overlap (save_booking db (Booking.set_status booking s)).
Proof.
  intros Hin Hact H b1 b2 H1 H2 Hne Hsame A1 A2.
  apply In_save_booking in H1, H2.
  destruct H1 as [-> | [H1 N1]], H2 as [-> | [H2 N2]].
  - contradiction.
  - intro Hov. apply (H booking b2); auto.
    intros ->. apply N2. reflexivity.
  - intro Hov. apply (H b1 booking); auto.
    intros ->. apply N1. reflexivity.
  - apply H; auto.
Qed.

Lemma step_no_overlap db db' : no_overlap db -> step db db' -> no_overlap db'.
Proof.
  intros Hinv Hstep. destruct Hstep as
    [user req db' resp H | user partial pk req db' resp H | user pk db' resp H
     | user pk db' resp H | user pk db' resp H | user req db' resp H
     | user pk db' resp H | db' keep Hb Hs].
  - (* create *)
    apply create_Ok in H.
    destruct H as (data & l & ci & co & n & _ & _ & _ & _ & _ & Hnot & Hdb & _).
    rewrite Hdb. intros b1 b2 H1 H2 Hne Hsame A1 A2 Hov. simpl in H1, H2.
    destruct H1 as [<- | H1], H2 as [<- | H2].
    + contradiction.
    + lazymatch type of Hov with
      | overlap ?row _ =>
          refine (accepted_row_is_clear db None l ci co n row b2 Hnot eq_refl eq_refl
                    eq_refl H2 _ _ A2 (or_introl Hov)); [discriminate | now symmetry]
      end.
    + lazymatch type of Hov with
      | overlap _ ?row =>
          refine (accepted_row_is_clear db None l ci co n row b1 Hnot eq_refl eq_refl
                    eq_refl H1 _ _ A1 (or_intror Hov)); [discriminate | exact Hsame]
      end.
    + apply (Hinv b1 b2); auto.
  - (* update *)
    apply update_Ok in H.
    destruct H as (instance & data & l & ci & co & n & _ & _ & _ & _ & _ & _ & Hnot & Hdb & _).
    rewrite Hdb. intros b1 b2 H1 H2 Hne Hsame A1 A2 Hov.
    apply In_save_booking in H1, H2.
    destruct H1 as [-> | [H1 N1]], H2 as [-> | [H2 N2]].
    + contradiction.
    + lazymatch type of Hov with
      | overlap ?row _ =>
          refine (accepted_row_is_clear db (Some instance) l ci co n row b2 Hnot
                    eq_refl eq_refl eq_refl H2 _ _ A2 (or_introl Hov)); [|now symmetry]
      end.
      intros i [= <-]. exact N2.
    + lazymatch type of Hov with
      | overlap _ ?row =>
          refine (accepted_row_is_clear db (Some instance) l ci co n row b1 Hnot
                    eq_refl eq_refl eq_refl H1 _ _ A1 (or_intror Hov)); [|exact Hsame]
      end.
      intros i [= <-]. exact N1.
    + apply (Hinv b1 b2); auto.
  - (* destroy *)
    unfold BookingViewSet.destroy in H. invert_bind H. injection H as <- _.
    eapply no_overlap_filter; [|exact Hinv]. reflexivity.
  - (* confirm *)
    unfold BookingViewSet.confirm in H. invert_bind H. rename a into booking.
    apply get_object_Ok in Ha. destruct Ha as (Hin & _ & _).
    unfold BookingViewSet.confirm_booking in H.
    destruct (Booking.status booking) eqn:S; simpl in H;
      try (injection H as <- _; exact Hinv).
    invert_bind H.
    destruct (negb (user_id user =? Listing.host a)); injection H as <- _; [exact Hinv|].
    apply no_overlap_set_status; auto. intros _. left. exact S.
  - (* cancel *)
    unfold BookingViewSet.cancel in H. invert_bind H. rename a into booking.
    apply get_object_Ok in Ha. destruct Ha as (Hin & _ & _).
    unfold BookingViewSet.cancel_booking in H.
    destruct (Booking.status_eqb (Booking.status booking) Booking.cancelled);
      [injection H as <- _; exact Hinv|].
    invert_bind H.
    destruct (negb _); injection H as <- _; [exact Hinv|].
    apply no_overlap_set_status; auto.
    unfold active. simpl. intros [E | E]; discriminate.
  - (* a listing is created *)
    apply listing_create_Ok in H. destruct H as (row & _ & -> & _).
    exact Hinv.
  - (* a listing is deleted *)
    unfold ListingViewSet.destroy in H. invert_bind H. injection H as <- _.
    eapply no_overlap_filter; [|exact Hinv]. reflexivity.
  - eapply no_overlap_filter; eauto.
Qed.

Lemma save_booking_ids db row :
  map Booking.id (bookings (save_booking db row)) = map Booking.id (bookings db).
Proof.
  unfold save_booking. simpl. rewrite map_map. apply map_ext_in.
  intros r _. destruct (Booking.id r =? Booking.id row) eqn:E; [|reflexivity].
  apply Z.eqb_eq in E. now rewrite E.
Qed.

Lemma NoDup_map_filter {A B : Type} (f : A -> B) (keep : A -> bool) (l : list A) :
  NoDup (map f l) -> NoDup (map f (filter keep l)).
Proof.
  induction l as [|a l IH]; simpl; intro H; [constructor|].
  inversion H as [|? ? Hnotin Hnd]; subst.
  destruct (keep a); simpl; [|auto].
  constructor; [|auto].
  intro Hin. apply Hnotin. apply in_map_iff in Hin. destruct Hin as [x [E Hx]].
  apply filter_In in Hx. apply in_map_iff. exists x. tauto.
Qed.

Lemma keys_sound_same db db' :
  map Booking.id (bookings db') = map Booking.id (bookings db) ->
  booking_seq db' = booking_seq db ->
  keys_sound db -> keys_sound db'.
Proof.
  unfold keys_sound, pk_unique, pk_below_seq. intros E S [U B]. rewrite E, S. split; [exact U|].
  intros b Hb. apply (in_map Booking.id) in Hb. rewrite E in Hb.
  apply in_map_iff in Hb. destruct Hb as [x [<- Hx]]. auto.
Qed.

Lemma keys_sound_filter db db' keep :
  bookings db' = filter keep (bookings db) ->
  booking_seq db' = booking_seq db ->
  keys_sound db -> keys_sound db'.
Proof.
  unfold keys_sound, pk_unique, pk_below_seq. intros E S [U B]. rewrite E, S. split.
  - now apply NoDup_map_filter.
  - intros b Hb. apply filter_In in Hb. apply B. tauto.
Qed.

Lemma step_keys_sound db db' : keys_sound db -> step db db' -> keys_sound db'.
Proof.
  intros Hk Hstep. destruct Hstep as
    [user req db' resp H | user partial pk req db' resp H | user pk db' resp H
     | user pk db' resp H | user pk db' resp H | user req db' resp H
     | user pk db' resp H | db' keep Hb Hs].
  - apply create_Ok in H.
    destruct H as (data & l & ci & co & n & _ & _ & _ & _ & _ & _ & Hdb & _).
    rewrite Hdb. destruct Hk as [U B]. unfold keys_sound, pk_unique, pk_below_seq. simpl.
    split.
    + constructor; [|exact U].
      intro Hin. apply in_map_iff in Hin. destruct Hin as [x [E Hx]].
      apply B in Hx. lia.
    + intros b [<- | Hb]; simpl; [lia|]. apply B in Hb. lia.
  - apply update_Ok in H.
    destruct H as (instance & data & l & ci & co & n & _ & _ & _ & _ & _ & _ & _ & Hdb & _).
    rewrite Hdb. eapply keys_sound_same; [apply save_booking_ids | reflexivity | exact Hk].
  - unfold BookingViewSet.destroy in H. invert_bind H. injection H as <- _.
    eapply keys_sound_filter; [reflexivity | reflexivity | exact Hk].
  - unfold BookingViewSet.confirm in H. invert_bind H.
    unfold BookingViewSet.confirm_booking in H.
    destruct (negb _); [injection H as <- _; exact Hk|].
    invert_bind H.
    destruct (negb _); injection H as <- _; [exact Hk|].
    eapply keys_sound_same; [apply save_booking_ids | reflexivity | exact Hk].
  - unfold BookingViewSet.cancel in H. invert_bind H.
    unfold BookingViewSet.cancel_booking in H.
    destruct (Booking.status_eqb _ _); [injection H as <- _; exact Hk|].
    invert_bind H.
    destruct (negb _); injection H as <- _; [exact Hk|].
    eapply keys_sound_same; [apply save_booking_ids | reflexivity | exact Hk].
  - apply listing_create_Ok in H. destruct H as (row & _ & -> & _).
    exact Hk.
  - unfold ListingViewSet.destroy in H. invert_bind H. injection H as <- _.
    eapply keys_sound_filter; [reflexivity | reflexivity | exact Hk].
  - eapply keys_sound_filter; eauto.
Qed.

Lemma reachable_sound db : reachable db -> keys_sound db /\ no_overlap db.
Proof.
  induction 1 as [db E | db db' _ [IHk IHn] Hstep].
  - unfold keys_sound, pk_unique, pk_below_seq, no_overlap. rewrite E. simpl.
    repeat split; try constructor; intros; contradiction.
  - split; [eapply step_keys_sound | eapply step_no_overlap]; eauto.
Qed.

(** C3 (as amended).  In every state reached from an empty booking
    table by requests served one after the other (create, update, delete,
    confirm and cancel of bookings, creation and deletion of listings,
    writes to the other tables), primary keys are pairwise distinct and
    no two distinct bookings of the same listing with status pending or
    confirmed have check_out of the one after check_in of the other and
    check_in before its check_out; and every such step preserves this
    no-overlap property. *)
Theorem C3_no_overlap_is_invariant :
  (forall db, reachable db -> pk_unique db /\ no_overlap db)
  /\ (forall db db', no_overlap db -> step db db' -> no_overlap db').
Proof.
  split.
  - intros db H. apply reachable_sound in H. unfold keys_sound in H. tauto.
  - exact step_no_overlap.
Qed.

(** The scenario is reached by a create and a confirm, and a second
    create then books the days after it. *)
Lemma C3_witness :
  no_overlap (Scenario.db_with Booking.confirmed)
  /\ exists db', step (Scenario.db_with Booking.confirmed) db' /\ no_overlap db'.
Proof.
  assert (R : reachable (Scenario.db_with Booking.confirmed)).
  { apply reachable_step with (db := Scenario.db_with Booking.pending).
    - apply reachable_step with (db := Scenario.db_empty).
      + apply reachable_empty. reflexivity.
      + eapply (step_booking_create _ Scenario.guest_user
                  (Scenario.request (PyDate.mk 2024 6 1) (PyDate.mk 2024 6 5) None)).
        reflexivity.
    - eapply (step_booking_confirm _ Scenario.host_user 1). reflexivity. }
  pose proof (proj2 (proj1 C3_no_overlap_is_invariant _ R)) as N.
  split; [exact N|].
  eexists. split.
  - eapply (step_booking_create _ Scenario.guest_user
              (Scenario.request (PyDate.mk 2024 6 5) (PyDate.mk 2024 6 8) None)).
    reflexivity.
  - eapply (proj2 C3_no_overlap_is_invariant); [exact N|].
    eapply (step_booking_create _ Scenario.guest_user
              (Scenario.request (PyDate.mk 2024 6 5) (PyDate.mk 2024 6 8) None)).
    reflexivity.
Defined.

(** C3 as stated fails for requests served at the same time.  On the
    empty booking table, the guest asks for [2024-06-01, 2024-06-05)
    and user 3 for [2024-06-03, 2024-06-07) of the same listing; both
    requests pass validation before either row is written, and both
    rows are stored: the table that had no overlap has two distinct
    pending bookings of the listing that overlap. *)
Lemma C3_counterexample :
  let r1 := Scenario.request (PyDate.mk 2024 6 1) (PyDate.mk 2024 6 5) None in
  let r2 := Scenario.request (PyDate.mk 2024 6 3) (PyDate.mk 2024 6 7) None in
  exists d1 d2 db1 row1 db2 row2,
    no_overlap Scenario.db_empty
    /\ BookingSerializer.run_validation Scenario.db_empty None false r1 = Ok d1
    /\ BookingSerializer.run_validation Scenario.db_empty None false r2 = Ok d2
    /\ BookingViewSet.perform_create Scenario.db_empty Scenario.guest_user d1
       = Ok (db1, row1)
    /\ BookingViewSet.perform_create db1 Scenario.other_user d2 = Ok (db2, row2)
    /\ bookings db2 = [row2; row1]
    /\ row1 <> row2
    /\ Booking.listing row1 = Booking.listing row2
    /\ Booking.status row1 = Booking.pending
    /\ Booking.status row2 = Booking.pending
    /\ overlap row1 row2
    /\ ~ no_overlap db2.
Proof.
  intros r1 r2. do 6 eexists.
  split; [intros b1 b2 []|].
  split; [vm_compute; reflexivity|].
  split; [vm_compute; reflexivity|].
  split; [vm_compute; reflexivity|].
  split; [vm_compute; reflexivity|].
  split; [reflexivity|].
  split; [discriminate|].
  split; [reflexivity|].
  split; [reflexivity|].
  split; [reflexivity|].
  split; [split; vm_compute; reflexivity|].
  intro N.
  refine (N _ _ (or_intror (or_introl eq_refl)) (or_introl eq_refl) _ eq_refl
            (or_introl eq_refl) (or_introl eq_refl) _).
  - discriminate.
  - split; vm_compute; reflexivity.
Qed.

End Invariant.

(* ------------------------------------------------------------------ *)
(** * Further properties of the code *)

Section Further_validation.

Import BookingSerializer.

(** The row [perform_create] stores for data that [validate] returned,
    on whatever tables it is run. *)


(** X1.  The conflict check reads the table and the row is written
    afterwards.  When two create requests for the same listing, with
    overlapping dates and a status that blocks dates, are both
    validated against the same table before either row is written,
    both rows are then stored: the table holds two distinct active
    bookings of the listing that overlap. *)
Theorem X1_interleaved_creates_leave_an_overlap
    (db0 : DB) (u1 u2 : User) (r1 r2 : Initial.t) (d1 d2 : Data.t)
    (ci1 co1 ci2 co2 : PyDate.date)
    (V1 : run_validation db0 None false r1 = Ok d1)
    (V2 : run_validation db0 None false r2 = Ok d2)
    (Hlisting : Initial.listing_id r1 = Initial.listing_id r2)
    (Hci1 : Initial.check_in r1 = Some ci1) (Hco1 : Initial.check_out r1 = Some co1)
    (Hci2 : Initial.check_in r2 = Some ci2) (Hco2 : Initial.check_out r2 = Some co2)
    (Hoverlap : co1 > ci2 /\ ci1 < co2)
    (Hs1 : Initial.status r1 = None \/ Initial.status r1 = Some Booking.pending
           \/ Initial.status r1 = Some Booking.confirmed)
    (Hs2 : Initial.status r2 = None \/ Initial.status r2 = Some Booking.pending
           \/ Initial.status r2 = Some Booking.confirmed) :
  exists db1 row1 db2 row2,
    BookingViewSet.perform_create db0 u1 d1 = Ok (db1, row1)
    /\ BookingViewSet.perform_create db1 u2 d2 = Ok (db2, row2)
    /\ In row1 (bookings db2) /\ In row2 (bookings db2)
    /\ row1 <> row2
    /\ Booking.listing row1 = Booking.listing row2
    /\ active row1 /\ active row2
    /\ overlap row1 row2
    /\ ~ no_overlap db2.
Proof.
  apply run_validation_Ok in V1, V2.
  destruct V1 as (data1 & F1 & V1). destruct V2 as (data2 & F2 & V2).
  apply to_internal_value_Ok in F1, F2.
  destruct F1 as (_ & Eci1 & Eco1 & _ & Est1 & L1 & _).
  destruct F2 as (_ & Eci2 & Eco2 & _ & Est2 & L2 & _).
  destruct (perform_create_validated _ _ _ _ db0 u1 V1)
    as (l1 & a1 & b1 & n1 & Hl1 & Ha1 & Hb1 & _ & _ & P1).
  cbv zeta in P1.
  match type of P1 with _ = Ok (?d, _) => set (db1 := d) in * end.
  destruct (perform_create_validated _ _ _ _ db1 u2 V2)
    as (l2 & a2 & b2 & n2 & Hl2 & Ha2 & Hb2 & _ & _ & P2).
  cbv zeta in P2.
  assert (a1 = ci1 /\ b1 = co1 /\ a2 = ci2 /\ b2 = co2) as (-> & -> & -> & ->)
    by (repeat split; congruence).
  assert (Listing.id l1 = Listing.id l2) as El.
  { destruct (L1 l1 Hl1) as (_ & _ & E1). destruct (L2 l2 Hl2) as (_ & _ & E2).
    congruence. }
  assert (forall s, s = None \/ s = Some Booking.pending \/ s = Some Booking.confirmed ->
                    default s Booking.pending = Booking.pending
                    \/ default s Booking.pending = Booking.confirmed) as Hact.
  { intros s [-> | [-> | ->]]; simpl; auto. }
  do 4 eexists.
  split; [exact P1|]. split; [exact P2|].
  assert (Hne : forall x y : Booking.t, Booking.id x <> Booking.id y -> x <> y)
    by (intros x y H ->; contradiction).
  assert (Hov : forall x y : Booking.t,
             Booking.check_in x = ci1 -> Booking.check_out x = co1 ->
             Booking.check_in y = ci2 -> Booking.check_out y = co2 -> overlap x y).
  { intros x y <- <- <- <-. exact Hoverlap. }
  repeat split.
  - right. left. reflexivity.
  - left. reflexivity.
  - apply Hne. simpl. lia.
  - exact El.
  - unfold active. simpl. apply Hact. now rewrite Est1.
  - unfold active. simpl. apply Hact. now rewrite Est2.
  - apply Hoverlap.
  - apply Hoverlap.
  - intro N.
    refine (N _ _ (or_intror (or_introl eq_refl)) (or_introl eq_refl) _ El _ _ _).
    + apply Hne. simpl. lia.
    + unfold active. simpl. apply Hact. now rewrite Est1.
    + unfold active. simpl. apply Hact. now rewrite Est2.
    + apply Hov; reflexivity.
Qed.

(** Two requests over [06-01, 06-05) and [06-04, 06-08), both
    validated on the empty table. *)
Lemma X1_witness :
  exists db2 row1 row2,
    In row1 (bookings db2) /\ In row2 (bookings db2) /\ overlap row1 row2
    /\ ~ no_overlap db2.
Proof.
  destruct (X1_interleaved_creates_leave_an_overlap
              Scenario.db_empty Scenario.guest_user Scenario.other_user
              (Scenario.request (PyDate.mk 2024 6 1) (PyDate.mk 2024 6 5) None)
              (Scenario.request (PyDate.mk 2024 6 4) (PyDate.mk 2024 6 8) None)
              _ _ _ _ _ _ eq_refl eq_refl eq_refl eq_refl eq_refl eq_refl eq_refl
              (conj eq_refl eq_refl) (or_introl eq_refl) (or_introl eq_refl))
    as (db1 & row1 & db2 & row2 & _ & _ & I1 & I2 & _ & _ & _ & _ & O & N).
  exists db2, row1, row2. auto.
Defined.

(** X2.  [validate] indexes [data] by 'check_in' and 'check_out'
    whatever the request holds: a partial update (PATCH) of a booking
    the caller can reach, whose body passes the fields but has no
    check_in, raises [KeyError] 'check_in', and one that has a check_in
    but no check_out raises [KeyError] 'check_out'; either leaves the
    view unhandled and is answered 500. *)
Theorem X2_partial_update_without_dates_raises_KeyError
    (db : DB) (user : User) (pk : Z) (req : Initial.t)
    (instance : Booking.t) (data : Data.t)
    (Hget : BookingViewSet.get_object db PATCH user pk = Ok instance)
    (Hfields : to_internal_value db true req = Ok data) :
  (Initial.check_in req = None ->
     BookingViewSet.update db user true pk req = Raise (KeyError "check_in"))
  /\ (Initial.check_in req <> None -> Initial.check_out req = None ->
      BookingViewSet.update db user true pk req = Raise (KeyError "check_out"))
  /\ exception_status (KeyError "check_in") = 500
  /\ exception_status (KeyError "check_out") = 500.
Proof.
  pose proof (to_internal_value_Ok _ _ _ _ Hfields) as (_ & Eci & Eco & _).
  unfold BookingViewSet.update, run_validation. rewrite Hget, Hfields. simpl.
  unfold validate. rewrite Eci, Eco.
  split; [|split; [|split; reflexivity]].
  - intros ->. reflexivity.
  - intros Hci ->. destruct (Initial.check_in req); [reflexivity | contradiction].
Qed.

(** The guest of the scenario PATCHes the status alone. *)
Lemma X2_witness :
  BookingViewSet.update (Scenario.db_with Booking.pending) Scenario.guest_user true 1
    (status_only Booking.cancelled)
  = Raise (KeyError "check_in").
Proof.
  refine (proj1 (X2_partial_update_without_dates_raises_KeyError
                   (Scenario.db_with Booking.pending) Scenario.guest_user 1
                   (status_only Booking.cancelled) (Scenario.booked Booking.pending) _
                   eq_refl eq_refl) eq_refl).
Defined.

(** X3.  [validate] reports the first check that fails, in the order
    dates, number of guests, conflicts: a candidate whose check_in is
    not before its check_out gets the date message whatever else is
    wrong with it; one with good dates and too many guests gets the
    message naming the listing's [max_guests]; one with good dates and
    few enough guests that meets an active booking gets the
    already-booked message. *)
Theorem X3_validate_reports_the_first_failed_check
    (db : DB) (instance : option Booking.t) (listing : Listing.t)
    (guest : option User) (check_in check_out : PyDate.date)
    (number_of_guests : Z) (total_price : option Z)
    (status : option Booking.STATUS_CHOICES) (special_requests : option string) :
  let data :=
    {| Data.listing := Some listing; Data.guest := guest;
       Data.check_in := Some check_in; Data.check_out := Some check_out;
       Data.number_of_guests := Some number_of_guests;
       Data.total_price := total_price; Data.status := status;
       Data.special_requests := special_requests |} in
  (check_in >= check_out ->
     validate db instance data
     = Raise (ValidationError (Message "Check-in date must be before check-out date.")))
  /\ (check_in < check_out ->
      number_of_guests > Listing.max_guests listing ->
      validate db instance data
      = Raise (ValidationError (Message
          ("Number of guests cannot exceed "
             ++ PyDate.str (Listing.max_guests listing) ++ ".")%string)))
  /\ (check_in < check_out ->
      number_of_guests <= Listing.max_guests listing ->
      (exists existing,
          In existing (bookings db)
          /\ conflicts_with instance listing check_in check_out existing) ->
      validate db instance data
      = Raise (ValidationError (Message
          "This listing is already booked for the selected dates."))).
Proof.
  intro data. unfold validate, data. simpl.
  split; [|split].
  - intro H. assert ((check_in >=? check_out) = true) as ->; [|reflexivity].
    rewrite Z.geb_leb. apply Z.leb_le. lia.
  - intros Hd Hn. assert ((check_in >=? check_out) = false) as ->.
    { rewrite Z.geb_leb. apply Z.leb_gt. lia. }
    assert ((number_of_guests >? Listing.max_guests listing) = true) as ->; [|reflexivity].
    rewrite Z.gtb_ltb. apply Z.ltb_lt. lia.
  - intros Hd Hn [existing Hc]. assert ((check_in >=? check_out) = false) as ->.
    { rewrite Z.geb_leb. apply Z.leb_gt. lia. }
    assert ((number_of_guests >? Listing.max_guests listing) = false) as ->.
    { rewrite Z.gtb_ltb. apply Z.ltb_ge. lia. }
    assert (exists_ (conflicting_bookings db instance listing check_in check_out) = true)
      as ->; [|reflexivity].
    apply exists_true_iff. exists existing. now apply in_conflicting_bookings.
Qed.

Lemma related_field_missing {A : Type} (queryset : list A) (pk_of : A -> Z) (pk : Z) :
  (forall o, In o queryset -> pk_of o <> pk) ->
  related_field queryset pk_of pk
  = inr ("Invalid pk " ++ dquote ++ PyDate.str pk ++ dquote
           ++ " - object does not exist.")%string.
Proof.
  intro H. unfold related_field. rewrite find_nothing; [reflexivity|].
  intros y Hy. apply Z.eqb_neq. auto.
Qed.

(** The fields reject a [listing_id] that names no available listing. *)
Lemma to_internal_value_listing_error db partial req pk :
  Initial.listing_id req = Some pk ->
  (forall l, In l (listings db) -> Listing.id l = pk -> Listing.is_available l = false) ->
  exists errs,
    to_internal_value db partial req
    = Raise (ValidationError (FieldErrors
        (("listing_id",
          ("Invalid pk " ++ dquote ++ PyDate.str pk ++ dquote
             ++ " - object does not exist.")%string) :: errs))).
Proof.
  intros Hreq Hun. unfold to_internal_value. rewrite Hreq.
  unfold run_field at 1. rewrite related_field_missing.
  - destruct (run_field partial true "guest_id" _ _) as [g e2].
    destruct (run_field partial true "check_in" _ _) as [ci e3].
    destruct (run_field partial true "check_out" _ _) as [co e4].
    destruct (run_field partial true "number_of_guests" _ _) as [n e5].
    destruct (run_field partial false "status" _ _) as [st e6].
    destruct (run_field partial false "special_requests" _ _) as [sr e7].
    simpl. eexists. reflexivity.
  - intros l Hl E. apply filter_In in Hl. destruct Hl as [Hl Ha].
    rewrite (Hun l Hl E) in Ha. discriminate.
Qed.

(** X4.  A listing that is not available, or that does not exist,
    cannot be booked nor kept by an update: a create, PUT or PATCH
    whose [listing_id] names no listing with [is_available] is refused
    by the field with a validation error on 'listing_id', before
    [validate] runs, and nothing is written. *)
Theorem X4_unavailable_listing_is_refused_by_the_field
    (db : DB) (user : User) (req : Initial.t) (listing_pk : Z)
    (Hreq : Initial.listing_id req = Some listing_pk)
    (Hunavailable :
       forall l, In l (listings db) -> Listing.id l = listing_pk ->
                 Listing.is_available l = false) :
  let msg := ("Invalid pk " ++ dquote ++ PyDate.str listing_pk ++ dquote
                ++ " - object does not exist.")%string in
  (exists errs,
      BookingViewSet.create db user req
      = Raise (ValidationError (FieldErrors (("listing_id", msg) :: errs))))
  /\ (forall (partial : bool) pk instance,
        BookingViewSet.get_object db (if partial then PATCH else PUT) user pk = Ok instance ->
        exists errs,
          BookingViewSet.update db user partial pk req
          = Raise (ValidationError (FieldErrors (("listing_id", msg) :: errs)))).
Proof.
  intro msg. split.
  - destruct (to_internal_value_listing_error db false req _ Hreq Hunavailable) as [errs E].
    exists errs. unfold BookingViewSet.create, run_validation. rewrite E. reflexivity.
  - intros partial pk instance Hget.
    destruct (to_internal_value_listing_error db partial req _ Hreq Hunavailable) as [errs E].
    exists errs. unfold BookingViewSet.update, run_validation. rewrite Hget, E. reflexivity.
Qed.

(** The closed listing of [db_closed] is asked for. *)
Lemma X4_witness :
  exists errs,
    BookingViewSet.create db_closed Scenario.guest_user
      (Scenario.request (PyDate.mk 2024 6 1) (PyDate.mk 2024 6 5) None)
    = Raise (ValidationError (FieldErrors
        (("listing_id",
          ("Invalid pk " ++ dquote ++ "1" ++ dquote ++ " - object does not exist.")%string)
           :: errs))).
Proof.
  refine (proj1 (X4_unavailable_listing_is_refused_by_the_field
                   db_closed Scenario.guest_user
                   (Scenario.request (PyDate.mk 2024 6 1) (PyDate.mk 2024 6 5) None) 1
                   eq_refl _)).
  intros l [<- | []] _. reflexivity.
Defined.


(** The guest entry of the validated data, read off the request. *)
Lemma to_internal_value_guest db partial req data :
  to_internal_value db partial req = Ok data ->
  match Initial.guest_id req with
  | Some g => exists u, Data.guest data = Some u /\ In u (users db) /\ user_id u = g
  | None => Data.guest data = None /\ partial = true
  end.
Proof.
  unfold to_internal_value.
  destruct (run_field partial true "listing_id" _ _) as [l e1] eqn:F1.
  destruct (run_field partial true "guest_id" _ _) as [g e2] eqn:F2.
  destruct (run_field partial true "check_in" _ _) as [ci e3] eqn:F3.
  destruct (run_field partial true "check_out" _ _) as [co e4] eqn:F4.
  destruct (run_field partial true "number_of_guests" _ _) as [n e5] eqn:F5.
  destruct (run_field partial false "status" _ _) as [st e6] eqn:F6.
  destruct (run_field partial false "special_requests" _ _) as [sr e7] eqn:F7.
  destruct (e1 ++ e2 ++ e3 ++ e4 ++ e5 ++ e6 ++ e7) eqn:E; [|discriminate].
  repeat (apply app_eq_nil in E; destruct E as [? E]); subst.
  intros [= <-]; simpl.
  apply run_field_clean in F2.
  destruct (Initial.guest_id req) as [pk|].
  - destruct F2 as (u & Hu & ->). apply related_field_inl in Hu.
    exists u. tauto.
  - destruct F2 as [-> Hp]. split; [reflexivity|].
    simpl in Hp. now destruct partial.
Qed.

(** The fields refuse a create without a usable [guest_id]. *)
Lemma to_internal_value_guest_error db req msg :
  run_field false true "guest_id" (Initial.guest_id req)
    (related_field (users db) user_id) = (None, [("guest_id", msg)]) ->
  exists errs,
    to_internal_value db false req = Raise (ValidationError (FieldErrors errs))
    /\ In ("guest_id", msg) errs.
Proof.
  intro F2. unfold to_internal_value. rewrite F2.
  destruct (run_field false true "listing_id" _ _) as [l e1].
  destruct (run_field false true "check_in" _ _) as [ci e3].
  destruct (run_field false true "check_out" _ _) as [co e4].
  destruct (run_field false true "number_of_guests" _ _) as [n e5].
  destruct (run_field false false "status" _ _) as [st e6].
  destruct (run_field false false "special_requests" _ _) as [sr e7].
  destruct e1 as [|e e1]; simpl; eexists; (split; [reflexivity|]).
  - left. reflexivity.
  - right. apply in_or_app. right. left. reflexivity.
Qed.

(** X5.  The guest of a new booking is always the caller, yet the
    request must still carry a [guest_id] that names a user: a create
    without [guest_id] is refused with 'This field is required.' and
    one whose [guest_id] names no user with the invalid-pk message,
    both as validation errors on 'guest_id', and no booking is stored. *)
Theorem X5_create_requires_a_guest_id_it_then_ignores
    (db : DB) (user : User) (req : Initial.t) :
  (Initial.guest_id req = None ->
     exists errs,
       BookingViewSet.create db user req = Raise (ValidationError (FieldErrors errs))
       /\ In ("guest_id", "This field is required.") errs)
  /\ (forall g,
        Initial.guest_id req = Some g ->
        (forall u, In u (users db) -> user_id u <> g) ->
        exists errs,
          BookingViewSet.create db user req = Raise (ValidationError (FieldErrors errs))
          /\ In ("guest_id",
                 ("Invalid pk " ++ dquote ++ PyDate.str g ++ dquote
                    ++ " - object does not exist.")%string) errs).
Proof.
  split.
  - intro Hg.
    destruct (to_internal_value_guest_error db req "This field is required.")
      as (errs & E & Hin); [rewrite Hg; reflexivity|].
    exists errs. split; [|exact Hin].
    unfold BookingViewSet.create, run_validation. rewrite E. reflexivity.
  - intros g Hg Hnone.
    destruct (to_internal_value_guest_error db req
                ("Invalid pk " ++ dquote ++ PyDate.str g ++ dquote
                   ++ " - object does not exist.")%string)
      as (errs & E & Hin).
    { rewrite Hg. unfold run_field. now rewrite related_field_missing. }
    exists errs. split; [|exact Hin].
    unfold BookingViewSet.create, run_validation. rewrite E. reflexivity.
Qed.

End Further_validation.

Section Further_writes.

Import BookingSerializer.

(** X6.  [status] is a writable field of the serializer: the booking a
    create request stores, as the newest row of the table, has the
    status the request names, and 'pending' only when it names none.
    A guest can thus store a booking that is already confirmed, without
    the host's [confirm]. *)
Theorem X6_create_stores_the_submitted_status
    (db : DB) (user : User) (req : Initial.t) (db' : DB) (answer : result Response)
    (H : BookingViewSet.create db user req = Ok (db', answer)) :
  exists row,
    bookings db' = row :: bookings db
    /\ In row (bookings db')
    /\ Booking.status row = default (Initial.status req) Booking.pending.
Proof.
  apply create_Ok in H.
  destruct H as (data & l & ci & co & n & Hfields & _ & _ & _ & _ & _ & Hdb & _).
  apply to_internal_value_Ok in Hfields. destruct Hfields as (_ & _ & _ & _ & Est & _).
  eexists. split; [rewrite Hdb; reflexivity|]. split.
  - rewrite Hdb. left. reflexivity.
  - simpl. now rewrite Est.
Qed.

(** The guest books the days after the existing booking, confirmed
    from the start: the stored row is confirmed, and its guest is the
    caller. *)
Lemma X6_witness :
  exists db' answer row,
    BookingViewSet.create (Scenario.db_with Booking.confirmed) Scenario.guest_user
      (request_as (PyDate.mk 2024 6 5) (PyDate.mk 2024 6 8) (Some 2)
         (Some Booking.confirmed))
    = Ok (db', answer)
    /\ bookings db' = row :: bookings (Scenario.db_with Booking.confirmed)
    /\ Booking.guest row = 2
    /\ Booking.status row = Booking.confirmed.
Proof.
  destruct (X6_create_stores_the_submitted_status
              (Scenario.db_with Booking.confirmed) Scenario.guest_user
              (request_as (PyDate.mk 2024 6 5) (PyDate.mk 2024 6 8) (Some 2)
                 (Some Booking.confirmed)) _ _ eq_refl)
    as (row & Hrows & _ & Hs).
  do 2 eexists. exists row. split; [reflexivity|]. split; [exact Hrows|].
  split; [|exact Hs].
  injection Hrows as <-. reflexivity.
Defined.

(** X7.  An accepted update (PUT or PATCH) stores, on the row with the
    primary key of the request, the status and the guest the request
    names and keeps the instance's where the request names none:
    nothing restricts the change of status, so a cancelled booking can
    be made pending again, and the guest is not pinned to the caller as
    it is on create. *)
Theorem X7_update_stores_the_submitted_status_and_guest
    (db : DB) (user : User) (partial : bool) (pk : Z) (req : Initial.t)
    (db' : DB) (answer : result Response)
    (H : BookingViewSet.update db user partial pk req = Ok (db', answer)) :
  exists instance row,
    BookingViewSet.get_object db (if partial then PATCH else PUT) user pk = Ok instance
    /\ db' = save_booking db row
    /\ In row (bookings db')
    /\ Booking.id row = pk
    /\ Booking.status row = default (Initial.status req) (Booking.status instance)
    /\ Booking.guest row = default (Initial.guest_id req) (Booking.guest instance).
Proof.
  apply update_Ok in H.
  destruct H as (instance & data & l & ci & co & n & Hget & Hfields & _ & _ & _ & _
                 & _ & Hdb & _).
  pose proof (to_internal_value_Ok _ _ _ _ Hfields) as (_ & _ & _ & _ & Est & _).
  pose proof (to_internal_value_guest _ _ _ _ Hfields) as Hguest.
  pose proof (get_object_Ok _ _ _ _ _ Hget) as (Hin & Hid & _).
  cbv zeta in Hdb.
  exists instance.
  lazymatch type of Hdb with _ = save_booking _ ?r => exists r end.
  split; [exact Hget|]. split; [exact Hdb|].
  split; [|split; [|split]].
  - rewrite Hdb. eapply save_booking_In; eauto.
  - exact Hid.
  - simpl. now rewrite Est.
  - simpl. destruct (Initial.guest_id req) as [g|].
    + destruct Hguest as (u & -> & _ & <-). reflexivity.
    + destruct Hguest as [-> _]. reflexivity.
Qed.

(** The guest of the cancelled booking of the scenario PUTs it back to
    pending and hands it to user 3: the stored row is pending and has
    guest 3. *)
Lemma X7_witness :
  exists db' answer row,
    BookingViewSet.update (Scenario.db_with Booking.cancelled) Scenario.guest_user false 1
      (request_as (PyDate.mk 2024 6 1) (PyDate.mk 2024 6 5) (Some 3)
         (Some Booking.pending))
    = Ok (db', answer)
    /\ bookings db' = [row]
    /\ Booking.status row = Booking.pending
    /\ Booking.guest row = 3.
Proof.
  destruct (X7_update_stores_the_submitted_status_and_guest
              (Scenario.db_with Booking.cancelled) Scenario.guest_user false 1
              (request_as (PyDate.mk 2024 6 1) (PyDate.mk 2024 6 5) (Some 3)
                 (Some Booking.pending)) _ _ eq_refl)
    as (instance & row & Hget & Hdb & _ & Hid & Hs & Hg).
  injection Hget as <-.
  do 2 eexists. exists row. split; [reflexivity|].
  split; [|split; [exact Hs | exact Hg]].
  rewrite Hdb. unfold save_booking. simpl. rewrite Hid. reflexivity.
Defined.

End Further_writes.

Section Further_state.

Import BookingSerializer.

(** What [save_booking] of a row with a new status does to the table,
    when primary keys are distinct. *)
Lemma save_status_frame db booking s :
  pk_unique db -> In booking (bookings db) ->
  let db' := save_booking db (Booking.set_status booking s) in
  users db' = users db /\ listings db' = listings db
  /\ listing_seq db' = listing_seq db /\ booking_seq db' = booking_seq db
  /\ map (fun r => Booking.set_status r Booking.pending) (bookings db')
     = map (fun r => Booking.set_status r Booking.pending) (bookings db)
  /\ (forall r, In r (bookings db) -> Booking.id r <> Booking.id booking ->
                In r (bookings db')).
Proof.
  intros Hpk Hin db'. repeat split.
  - unfold db', save_booking. simpl. rewrite map_map. apply map_ext_in.
    intros r Hr. simpl. destruct (Booking.id r =? Booking.id booking) eqn:E; [|reflexivity].
    apply Z.eqb_eq in E.
    assert (r = booking) as -> by (eapply pk_unique_row; eauto).
    reflexivity.
  - intros r Hr Hne. unfold db', save_booking. simpl.
    apply in_map_iff. exists r. split; [|exact Hr].
    simpl. apply Z.eqb_neq in Hne. now rewrite Hne.
Qed.

(** The tables a served [confirm] or [cancel] returns: those it got, or
    those with a new status saved on the row it fetched. *)
Lemma confirm_cancel_Ok db user pk db' resp :
  BookingViewSet.confirm db user pk = Ok (db', resp)
  \/ BookingViewSet.cancel db user pk = Ok (db', resp) ->
  exists booking,
    In booking (bookings db) /\ Booking.id booking = pk
    /\ (db' = db \/ exists s, db' = save_booking db (Booking.set_status booking s)).
Proof.
  intros [H | H].
  - unfold BookingViewSet.confirm in H. invert_bind H. rename a into booking.
    apply get_object_Ok in Ha. destruct Ha as (Hin & Hid & _).
    exists booking. split; [exact Hin|]. split; [exact Hid|].
    unfold BookingViewSet.confirm_booking in H.
    destruct (negb _); [injection H as <- _; auto|].
    invert_bind H. destruct (negb _); cbv zeta in H; injection H as <- _; eauto.
  - unfold BookingViewSet.cancel in H. invert_bind H. rename a into booking.
    apply get_object_Ok in Ha. destruct Ha as (Hin & Hid & _).
    exists booking. split; [exact Hin|]. split; [exact Hid|].
    unfold BookingViewSet.cancel_booking in H.
    destruct (Booking.status_eqb _ _); [injection H as <- _; auto|].
    invert_bind H. destruct (negb _); cbv zeta in H; injection H as <- _; eauto.
Qed.

(** X8.  Of the columns of the tables held here (all but the
    timestamps [created_at] and [updated_at], of which every [save()]
    rewrites [updated_at]), [confirm] and [cancel] write nothing but
    the status of the booking they are called on: users, listings and
    both sequences are as before, every row keeps its place and all its
    other fields (dates, guest, listing, number of guests, total price,
    special requests), and every row with another primary key is left
    as it was, status included. *)
Theorem X8_confirm_and_cancel_write_one_status_only
    (db : DB) (user : User) (pk : Z) (db' : DB) (answer : result Response)
    (Hpk : pk_unique db)
    (H : BookingViewSet.confirm db user pk = Ok (db', answer)
         \/ BookingViewSet.cancel db user pk = Ok (db', answer)) :
  users db' = users db /\ listings db' = listings db
  /\ listing_seq db' = listing_seq db /\ booking_seq db' = booking_seq db
  /\ map (fun r => Booking.set_status r Booking.pending) (bookings db')
     = map (fun r => Booking.set_status r Booking.pending) (bookings db)
  /\ (forall r, In r (bookings db) -> Booking.id r <> pk -> In r (bookings db')).
Proof.
  apply confirm_cancel_Ok in H.
  destruct H as (booking & Hin & <- & [-> | [s ->]]).
  - repeat split; auto.
  - exact (save_status_frame db booking s Hpk Hin).
Qed.

(** The host confirms the pending booking of the scenario. *)
Lemma X8_witness :
  bookings (Scenario.db_with Booking.confirmed) = [Scenario.booked Booking.confirmed]
  /\ map (fun r => Booking.set_status r Booking.pending)
       (bookings (Scenario.db_with Booking.confirmed))
     = map (fun r => Booking.set_status r Booking.pending)
         (bookings (Scenario.db_with Booking.pending)).
Proof.
  split; [reflexivity|].
  refine (proj1 (proj2 (proj2 (proj2 (proj2
            (X8_confirm_and_cancel_write_one_status_only
               (Scenario.db_with Booking.pending) Scenario.host_user 1
               (Scenario.db_with Booking.confirmed)
               (Raise (AttributeError "reviews"))
               (scenario_pk_unique _) (or_introl eq_refl))))))).
Defined.

(** The row a create stores, its key and who can fetch it. *)
Lemma created_row_facts
    (db : DB) (user : User) (req : Initial.t) (db' : DB) (answer : result Response)
    (Hseq : pk_below_seq db)
    (H : BookingViewSet.create db user req = Ok (db', answer)) :
  exists row,
    Booking.id row = booking_seq db
    /\ (forall b, In b (bookings db) -> Booking.id b <> Booking.id row)
    /\ booking_seq db' = booking_seq db + 1
    /\ bookings db' = row :: bookings db
    /\ (forall m, BookingViewSet.get_object db' m user (Booking.id row) = Ok row)
    /\ users db' = users db /\ listings db' = listings db.
Proof.
  apply create_Ok in H.
  destruct H as (data & l & ci & co & n & _ & _ & _ & _ & _ & _ & Hdb & _).
  cbv zeta in Hdb.
  match type of Hdb with
  | _ = {| users := _; listings := _; bookings := ?r :: _;
           listing_seq := _; booking_seq := _ |} => set (row := r) in *
  end.
  exists row. split; [reflexivity|].
  split; [|split; [|split; [|split]]].
  - intros b Hb. apply Hseq in Hb. simpl. lia.
  - now rewrite Hdb.
  - now rewrite Hdb.
  - intro m. unfold BookingViewSet.get_object.
    assert (BookingViewSet.get_queryset db' user
            = row :: BookingViewSet.get_queryset db user) as ->.
    { unfold BookingViewSet.get_queryset. rewrite Hdb. simpl.
      destruct (is_staff user); [reflexivity|].
      unfold BookingViewSet.guest_or_host at 1. simpl. rewrite Z.eqb_refl. reflexivity. }
    simpl. rewrite Z.eqb_refl.
    unfold IsBookingOwnerOrHost.has_object_permission, IsBookingOwnerOrHost.guest_or_host.
    simpl. rewrite Z.eqb_refl. destruct (SAFE_METHODS m); reflexivity.
  - rewrite Hdb. split; reflexivity.
Qed.

(** X9.  A created booking takes the next value of the sequence as
    its primary key, which no row of the table has; the sequence moves
    on by one, the rows already there are kept, and the caller, being
    the guest, gets the new row back from [get_object] under that key,
    for reading and for writing. *)
Theorem X9_create_then_get_object_returns_the_row
    (db : DB) (user : User) (req : Initial.t) (db' : DB) (answer : result Response)
    (Hseq : pk_below_seq db)
    (H : BookingViewSet.create db user req = Ok (db', answer)) :
  exists row,
    Booking.id row = booking_seq db
    /\ (forall b, In b (bookings db) -> Booking.id b <> Booking.id row)
    /\ booking_seq db' = booking_seq db + 1
    /\ bookings db' = row :: bookings db
    /\ (forall m, BookingViewSet.get_object db' m user (Booking.id row) = Ok row).
Proof.
  destruct (created_row_facts db user req db' answer Hseq H)
    as (row & H1 & H2 & H3 & H4 & H5 & _).
  exists row. auto.
Qed.

Lemma scenario_pk_below_seq s : pk_below_seq (Scenario.db_with s).
Proof. intros b [<- | []]. simpl. lia. Qed.

(** The guest books the days after the existing booking and reads the
    new booking back under key 2. *)
Lemma X9_witness :
  exists db' row,
    Booking.id row = 2
    /\ BookingViewSet.get_object db' GET Scenario.guest_user 2 = Ok row.
Proof.
  destruct (X9_create_then_get_object_returns_the_row
              (Scenario.db_with Booking.confirmed) Scenario.guest_user
              (Scenario.request (PyDate.mk 2024 6 5) (PyDate.mk 2024 6 8) None)
              _ _ (scenario_pk_below_seq _) eq_refl)
    as (row & Hid & _ & _ & _ & Hget).
  eexists. exists row. split; [exact Hid|].
  rewrite <- Hid at 1. apply Hget.
Defined.

(** X10.  A booking deleted by its guest right after its creation
    leaves the booking table exactly as it was before the create; only
    the sequence keeps the step, so the key is not issued again. *)
Theorem X10_create_then_destroy_restores_the_table
    (db : DB) (user : User) (req : Initial.t) (db' : DB) (answer : result Response)
    (Hseq : pk_below_seq db)
    (H : BookingViewSet.create db user req = Ok (db', answer)) :
  exists row db'',
    bookings db' = row :: bookings db
    /\ BookingViewSet.destroy db' user (Booking.id row)
       = Ok (db'', Ok {| data := NoContent; status := HTTP_204_NO_CONTENT |})
    /\ bookings db'' = bookings db
    /\ users db'' = users db /\ listings db'' = listings db
    /\ booking_seq db'' = booking_seq db + 1.
Proof.
  destruct (created_row_facts _ _ _ _ _ Hseq H)
    as (row & Hid & Hfresh & Hs & Hrows & Hget & Hu & Hl).
  exists row.
  unfold BookingViewSet.destroy. rewrite Hget. simpl.
  eexists. split; [exact Hrows|]. split; [reflexivity|]. simpl.
  split; [|auto].
  rewrite Hrows. simpl. rewrite Z.eqb_refl. simpl.
  apply forallb_filter_id. apply forallb_forall.
  intros b Hb. apply negb_true_iff, Z.eqb_neq. auto.
Qed.

(** The guest books the days after the existing booking and deletes
    the booking again. *)
Lemma X10_witness :
  exists db'',
    bookings db'' = bookings (Scenario.db_with Booking.confirmed)
    /\ booking_seq db'' = 3.
Proof.
  destruct (X10_create_then_destroy_restores_the_table
              (Scenario.db_with Booking.confirmed) Scenario.guest_user
              (Scenario.request (PyDate.mk 2024 6 5) (PyDate.mk 2024 6 8) None)
              _ _ (scenario_pk_below_seq _) eq_refl)
    as (row & db'' & _ & _ & Hrows & _ & _ & Hs).
  exists db''. split; [exact Hrows | exact Hs].
Defined.

(** X11.  A booking is deleted by a party to it and by nobody else:
    the guest's or the host's DELETE removes that row and no other, and
    afterwards nobody reaches the key (404); the DELETE of anyone else
    is refused (404 for a caller who is not staff, 403 for one who is)
    and removes nothing. *)
Theorem X11_destroy_removes_the_row_for_parties_only
    (db : DB) (user : User) (booking : Booking.t) (listing : Listing.t)
    (Hpk : pk_unique db) (Hin : In booking (bookings db))
    (Hlisting : related_listing db booking = Ok listing) :
  (party_to user booking listing ->
     exists db',
       BookingViewSet.destroy db user (Booking.id booking)
       = Ok (db', Ok {| data := NoContent; status := HTTP_204_NO_CONTENT |})
       /\ (forall r, In r (bookings db') <-> In r (bookings db) /\ r <> booking)
       /\ (forall m anyone,
             BookingViewSet.get_object db' m anyone (Booking.id booking) = Raise Http404))
  /\ (~ party_to user booking listing ->
      BookingViewSet.destroy db user (Booking.id booking)
      = Raise (if is_staff user then PermissionDenied else Http404)).
Proof.
  split.
  - intro Hparty. unfold BookingViewSet.destroy.
    rewrite (party_gets_object _ DELETE _ _ _ Hpk Hin Hlisting Hparty). simpl.
    eexists. split; [reflexivity|]. simpl.
    assert (Hrows : forall r,
               In r (filter (fun b => negb (Booking.id b =? Booking.id booking)) (bookings db))
               <-> In r (bookings db) /\ r <> booking).
    { intro r. rewrite filter_In, negb_true_iff, Z.eqb_neq. split.
      - intros [Hr Hne]. split; [exact Hr|]. intros ->. contradiction.
      - intros [Hr Hne]. split; [exact Hr|]. intro E. apply Hne.
        eapply pk_unique_row; eauto. }
    split; [exact Hrows|].
    intros m anyone. unfold BookingViewSet.get_object.
    rewrite find_nothing; [reflexivity|].
    intros y Hy. apply get_queryset_incl in Hy. simpl in Hy.
    apply filter_In in Hy. destruct Hy as [_ Hne].
    now apply negb_true_iff in Hne.
  - intro Hstranger. unfold BookingViewSet.destroy.
    rewrite (stranger_is_stopped _ DELETE _ _ _ Hpk Hin Hlisting Hstranger). reflexivity.
Qed.

(** User 3 is refused the deletion of the scenario's booking. *)
Lemma X11_witness :
  BookingViewSet.destroy (Scenario.db_with Booking.confirmed) Scenario.other_user 1
  = Raise Http404.
Proof.
  refine (proj2 (X11_destroy_removes_the_row_for_parties_only
                   (Scenario.db_with Booking.confirmed) Scenario.other_user
                   (Scenario.booked Booking.confirmed) Scenario.the_listing
                   (scenario_pk_unique _) (or_introl eq_refl) eq_refl) _).
  unfold party_to. simpl. lia.
Defined.

End Further_state.

Section Further_invariants.

Import BookingSerializer.

Lemma dates_ordered_filter db db' keep :
  bookings db' = filter keep (bookings db) -> dates_ordered db -> dates_ordered db'.
Proof.
  intros E H b Hb. rewrite E in Hb. apply filter_In in Hb. apply H. tauto.
Qed.

Lemma dates_ordered_set_status db booking s :
  In booking (bookings db) -> dates_ordered db ->
  dates_ordered (save_booking db (Booking.set_status booking s)).
Proof.
  intros Hin H b Hb. apply In_save_booking in Hb.
  destruct Hb as [-> | [Hb _]]; [exact (H booking Hin) | exact (H b Hb)].
Qed.

Lemma step_dates_ordered db db' : dates_ordered db -> step db db' -> dates_ordered db'.
Proof.
  intros Hinv Hstep. destruct Hstep as
    [user req db' resp H | user partial pk req db' resp H | user pk db' resp H
     | user pk db' resp H | user pk db' resp H | user req db' resp H
     | user pk db' resp H | db' keep Hb Hs].
  - apply create_Ok in H.
    destruct H as (data & l & ci & co & n & _ & _ & _ & _ & _ & Hnot & Hdb & _).
    rewrite Hdb. intros b [<- | Hb]; [|auto].
    simpl. eapply not_rejected_dates; eauto.
  - apply update_Ok in H.
    destruct H as (instance & data & l & ci & co & n & _ & _ & _ & _ & _ & _ & Hnot & Hdb & _).
    rewrite Hdb. intros b Hb. apply In_save_booking in Hb.
    destruct Hb as [-> | [Hb _]]; [|auto].
    simpl. eapply not_rejected_dates; eauto.
  - unfold BookingViewSet.destroy in H. invert_bind H. injection H as <- _.
    eapply dates_ordered_filter; [|exact Hinv]. reflexivity.
  - destruct (confirm_cancel_Ok db user pk db' resp (or_introl H))
      as (booking & Hin & _ & [-> | [s ->]]); [exact Hinv|].
    now apply dates_ordered_set_status.
  - destruct (confirm_cancel_Ok db user pk db' resp (or_intror H))
      as (booking & Hin & _ & [-> | [s ->]]); [exact Hinv|].
    now apply dates_ordered_set_status.
  - apply listing_create_Ok in H. destruct H as (row & _ & -> & _). exact Hinv.
  - unfold ListingViewSet.destroy in H. invert_bind H. injection H as <- _.
    eapply dates_ordered_filter; [|exact Hinv]. reflexivity.
  - eapply dates_ordered_filter; eauto.
Qed.

Lemma reachable_dates_ordered db : reachable db -> dates_ordered db.
Proof.
  induction 1 as [db E | db db' _ IH Hstep].
  - intros b Hb. rewrite E in Hb. contradiction.
  - eapply step_dates_ordered; eauto.
Qed.

(** X12.  Every write of a booking's dates goes through [validate], so
    in every state reached from an empty booking table by requests
    served one after the other, each stored booking has its check_in
    strictly before its check_out, whatever its status; and each such
    step keeps that true. *)
Theorem X12_stored_bookings_end_after_they_start :
  (forall db, reachable db -> dates_ordered db)
  /\ (forall db db', dates_ordered db -> step db db' -> dates_ordered db').
Proof. split; [exact reachable_dates_ordered | exact step_dates_ordered]. Qed.

Lemma validate_candidate db instance l ci co n :
  ci < co -> n <= Listing.max_guests l ->
  validate db instance (candidate l ci co n)
  = if exists_ (conflicting_bookings db instance l ci co)
    then Raise (ValidationError (Message
           "This listing is already booked for the selected dates."))
    else Ok (Data.set_total_price (candidate l ci co n)
               (PyDate.days_between co ci * Listing.price_per_night l)).
Proof.
  intros Hd Hn. unfold validate, candidate. simpl.
  assert ((ci >=? co) = false) as -> by (rewrite Z.geb_leb; apply Z.leb_gt; lia).
  assert ((n >? Listing.max_guests l) = false) as ->
    by (rewrite Z.gtb_ltb; apply Z.ltb_ge; lia).
  reflexivity.
Qed.

Lemma exists_false_iff {A : Type} (l : list A) :
  exists_ l = false <-> forall x, ~ In x l.
Proof.
  destruct l as [|x l]; simpl; split; auto.
  - discriminate.
  - intro H. exfalso. apply (H x). now left.
Qed.

(** A served [cancel] of a booking that blocks dates has saved it as
    cancelled. *)
Lemma cancel_Ok_active db user booking db' resp :
  pk_unique db -> In booking (bookings db) -> active booking ->
  BookingViewSet.cancel db user (Booking.id booking) = Ok (db', resp) ->
  db' = save_booking db (Booking.set_status booking Booking.cancelled).
Proof.
  intros Hpk Hin Hact H. unfold BookingViewSet.cancel in H.
  invert_bind H. rename a into obj.
  pose proof (get_object_Ok _ _ _ _ _ Ha) as (_ & _ & Hperm).
  apply (get_object_is_the_row _ _ _ _ _ Hpk Hin) in Ha. subst obj.
  unfold BookingViewSet.cancel_booking in H.
  assert (Booking.status_eqb (Booking.status booking) Booking.cancelled = false) as E
    by (destruct Hact as [-> | ->]; reflexivity).
  rewrite E in H. invert_bind H. rename a into l.
  unfold IsBookingOwnerOrHost.guest_or_host in Hperm. rewrite Ha in Hperm. simpl in *.
  assert ((user_id user =? Booking.guest booking)
          || ((user_id user =? Listing.host l) || false) = true) as P.
  { rewrite orb_false_r, (Z.eqb_sym (user_id user)), (Z.eqb_sym (user_id user)).
    destruct (Booking.guest booking =? user_id user); [reflexivity|].
    simpl. now injection Hperm. }
  rewrite P in H. cbv zeta in H. now injection H as <- _.
Qed.

(** X13.  Cancelling a booking frees its dates.  On tables with
    distinct keys and no overlap, a candidate for the listing and the
    very dates of a pending or confirmed booking is rejected as already
    booked; once a [cancel] of that booking has been served, the same
    candidate passes [validate], priced by its nights. *)
Theorem X13_cancel_frees_the_dates
    (db : DB) (user : User) (booking : Booking.t) (listing : Listing.t) (n : Z)
    (db' : DB) (resp : result Response)
    (Hpk : pk_unique db) (Hno : no_overlap db)
    (Hin : In booking (bookings db)) (Hact : active booking)
    (Hdates : Booking.check_in booking < Booking.check_out booking)
    (Hl : Booking.listing booking = Listing.id listing)
    (Hn : n <= Listing.max_guests listing)
    (Hcancel : BookingViewSet.cancel db user (Booking.id booking) = Ok (db', resp)) :
  let data :=
    candidate listing (Booking.check_in booking) (Booking.check_out booking) n in
  validate db None data
  = Raise (ValidationError (Message
      "This listing is already booked for the selected dates."))
  /\ validate db' None data
     = Ok (Data.set_total_price data
             (PyDate.days_between (Booking.check_out booking) (Booking.check_in booking)
              * Listing.price_per_night listing)).
Proof.
  intro data. unfold data. rewrite !validate_candidate by assumption.
  split.
  - assert (exists_ (conflicting_bookings db None listing (Booking.check_in booking)
                       (Booking.check_out booking)) = true) as ->; [|reflexivity].
    apply exists_true_iff. exists booking. apply in_conflicting_bookings.
    split; [exact Hin|]. unfold conflicts_with. unfold active in Hact.
    repeat split; auto; try lia. discriminate.
  - rewrite (cancel_Ok_active _ _ _ _ _ Hpk Hin Hact Hcancel).
    match goal with |- (if ?b then _ else _) = _ => assert (b = false) as -> end;
      [|reflexivity].
    apply exists_false_iff. intros existing Hex.
    apply in_conflicting_bookings in Hex. destruct Hex as [Hex (El & Ea & Ho & Hi & _)].
    apply In_save_booking in Hex. destruct Hex as [-> | [Hex Hne]].
    + simpl in Ea. destruct Ea; discriminate.
    + apply (Hno booking existing); auto.
      * intros ->. apply Hne. reflexivity.
      * congruence.
      * unfold overlap. lia.
Qed.

Lemma scenario_no_overlap s : no_overlap (Scenario.db_with s).
Proof. intros b1 b2 [<- | []] [<- | []] H. contradiction. Qed.

(** The guest cancels the confirmed booking of the scenario: its four
    nights can be booked again, for 400.00. *)
Lemma X13_witness :
  validate (Scenario.db_with Booking.cancelled) None
    (candidate Scenario.the_listing (PyDate.mk 2024 6 1) (PyDate.mk 2024 6 5) 2)
  = Ok (Data.set_total_price
          (candidate Scenario.the_listing (PyDate.mk 2024 6 1) (PyDate.mk 2024 6 5) 2)
          40000).
Proof.
  refine (proj2 (X13_cancel_frees_the_dates
                   (Scenario.db_with Booking.confirmed) Scenario.guest_user
                   (Scenario.booked Booking.confirmed) Scenario.the_listing 2
                   (Scenario.db_with Booking.cancelled)
                   (Raise (AttributeError "reviews"))
                   (scenario_pk_unique _) (scenario_no_overlap _) (or_introl eq_refl)
                   (or_intror eq_refl) _ eq_refl _ eq_refl)).
  - vm_compute. reflexivity.
  - vm_compute. discriminate.
Defined.

End Further_invariants.

Section Further_views.

(** X14.  As written (without the import of [datetime]),
    [available_dates] answers only for a listing that has no pending or
    confirmed booking, and then with an empty list; on tables reached
    by served requests it raises [NameError] for every listing that
    has one, since every stored booking spans at least one night. *)
Theorem X14_available_dates_answers_only_without_bookings
    (db : DB) (user : User) (pk : Z) (listing : Listing.t)
    (Hreach : reachable db)
    (Hget : ListingViewSet.get_object db GET user pk = Ok listing) :
  (ListingViewSet.blocking_bookings db listing = [] ->
     ListingViewSet.available_dates views_globals db user pk
     = Ok {| data := BookedDates (Listing.id listing) [] "These dates are already booked";
             status := 200 |})
  /\ (ListingViewSet.blocking_bookings db listing <> [] ->
      ListingViewSet.available_dates views_globals db user pk
      = Raise (NameError "datetime")).
Proof.
  unfold ListingViewSet.available_dates. rewrite Hget. simpl. split.
  - intros ->. reflexivity.
  - intro Hne.
    destruct (ListingViewSet.blocking_bookings db listing) as [|b rest] eqn:E;
      [contradiction|].
    rewrite for_bookings_unbound; [reflexivity | reflexivity |].
    exists b. split; [now left|].
    apply (reachable_dates_ordered db Hreach).
    assert (In b (ListingViewSet.blocking_bookings db listing)) as Hb
      by (rewrite E; now left).
    unfold ListingViewSet.blocking_bookings in Hb. apply filter_In in Hb. tauto.
Qed.

(** The listing of the scenario before any booking. *)
Lemma X14_witness :
  ListingViewSet.available_dates views_globals Scenario.db_empty Scenario.other_user 1
  = Ok {| data := BookedDates 1 [] "These dates are already booked"; status := 200 |}.
Proof.
  exact (proj1 (X14_available_dates_answers_only_without_bookings
                  Scenario.db_empty Scenario.other_user 1 Scenario.the_listing
                  (reachable_empty Scenario.db_empty eq_refl) eq_refl) eq_refl).
Defined.

(** X15.  [get_queryset] of the booking views gives a caller who is not
    staff exactly the rows he is the guest of or whose listing he
    hosts, and gives staff the whole table; yet staff status opens no
    single booking: for a booking he is no party to, [get_object]
    refuses a staff caller with a 403 whatever the method, reads
    included, because [IsBookingOwnerOrHost] applies the same test to
    safe and unsafe methods. *)
Theorem X15_staff_lists_every_booking_but_opens_none
    (db : DB) (user : User) :
  (is_staff user = false ->
     forall b, In b (BookingViewSet.get_queryset db user)
               <-> In b (bookings db)
                   /\ (Booking.guest b = user_id user
                       \/ listing__host db b (user_id user) = true))
  /\ (is_staff user = true -> BookingViewSet.get_queryset db user = bookings db)
  /\ (is_staff user = true ->
      forall booking listing m,
        pk_unique db -> In booking (bookings db) ->
        related_listing db booking = Ok listing ->
        ~ party_to user booking listing ->
        BookingViewSet.get_object db m user (Booking.id booking) = Raise PermissionDenied)
  /\ (forall m obj,
        IsBookingOwnerOrHost.has_object_permission db m user obj
        = IsBookingOwnerOrHost.has_object_permission db GET user obj).
Proof.
  split; [|split; [|split]].
  - intros Hs b. unfold BookingViewSet.get_queryset. rewrite Hs.
    rewrite filter_In. unfold BookingViewSet.guest_or_host.
    rewrite orb_true_iff, Z.eqb_eq. reflexivity.
  - intros Hs. unfold BookingViewSet.get_queryset. now rewrite Hs.
  - intros Hs booking listing m Hpk Hin Hl Hstranger.
    rewrite (stranger_is_stopped _ m _ _ _ Hpk Hin Hl Hstranger). now rewrite Hs.
  - intros m obj. unfold IsBookingOwnerOrHost.has_object_permission.
    destruct (SAFE_METHODS m); reflexivity.
Qed.

(** The staff user of the scenario lists the booking and is refused
    reading it. *)
Lemma X15_witness :
  BookingViewSet.get_queryset (Scenario.db_with Booking.confirmed) Scenario.staff_user
  = [Scenario.booked Booking.confirmed]
  /\ BookingViewSet.get_object (Scenario.db_with Booking.confirmed) GET
       Scenario.staff_user 1
     = Raise PermissionDenied.
Proof.
  split.
  - exact (proj1 (proj2 (X15_staff_lists_every_booking_but_opens_none
                           (Scenario.db_with Booking.confirmed) Scenario.staff_user))
                 eq_refl).
  - refine (proj1 (proj2 (proj2 (X15_staff_lists_every_booking_but_opens_none
                                   (Scenario.db_with Booking.confirmed) Scenario.staff_user)))
              eq_refl (Scenario.booked Booking.confirmed) Scenario.the_listing GET
              (scenario_pk_unique _) (or_introl eq_refl) eq_refl _).
    unfold party_to. simpl. lia.
Defined.

(** X16.  The listing action [bookings] checks no party, and it
    answers for a listing without bookings only: for a listing that
    exists and any caller, it answers 200 with an empty list when no
    booking is on the listing, and as soon as one is, of whatever
    status, building the data raises [AttributeError] on the nested
    listing, so that no booking is shown to anyone; for an unknown key
    it raises the 404. *)
Theorem X16_listing_bookings_answers_only_without_bookings
    (db : DB) (user : User) (pk : Z) :
  (forall listing,
      find (fun l => Listing.id l =? pk) (listings db) = Some listing ->
      (forall b, In b (bookings db) -> Booking.listing b <> pk) ->
      ListingViewSetRest.bookings db user pk
      = Ok {| data := BookingList []; status := 200 |})
  /\ (forall listing booking,
      find (fun l => Listing.id l =? pk) (listings db) = Some listing ->
      In booking (bookings db) -> Booking.listing booking = pk ->
      ListingViewSetRest.bookings db user pk = Raise (AttributeError "reviews"))
  /\ (find (fun l => Listing.id l =? pk) (listings db) = None ->
      ListingViewSetRest.bookings db user pk = Raise Http404).
Proof.
  unfold ListingViewSetRest.bookings, ListingViewSet.get_object.
  split; [|split].
  - intros listing F Hnone. rewrite F. simpl.
    pose proof (find_some _ _ F) as [_ Hid]. apply Z.eqb_eq in Hid.
    assert (filter (fun b => Booking.listing b =? Listing.id listing) (bookings db) = [])
      as ->; [|reflexivity].
    rewrite Hid.
    induction (bookings db) as [|b rows IH]; [reflexivity|]. simpl.
    assert ((Booking.listing b =? pk) = false) as ->
      by (apply Z.eqb_neq, Hnone; now left).
    apply IH. intros b' Hb'. apply Hnone. now right.
  - intros listing booking F Hin Hb. rewrite F. simpl.
    pose proof (find_some _ _ F) as [_ Hid]. apply Z.eqb_eq in Hid.
    assert (In booking
              (filter (fun b => Booking.listing b =? Listing.id listing) (bookings db)))
      as Hrows by (apply filter_In; split; [exact Hin | apply Z.eqb_eq; congruence]).
    assert (Hall : forall b,
               In b (filter (fun b => Booking.listing b =? Listing.id listing)
                       (bookings db)) ->
               BookingSerializer.to_representation db b = Raise (AttributeError "reviews")).
    { intros b Hb'. apply filter_In in Hb'. destruct Hb' as [_ E]. apply Z.eqb_eq in E.
      apply booking_data_raises with (l := listing).
      unfold related_listing. rewrite E, Hid, F. reflexivity. }
    destruct (filter _ (bookings db)) as [|b rows]; [contradiction|].
    simpl. rewrite (Hall b) by (now left). reflexivity.
  - intros ->. reflexivity.
Qed.

(** User 3 asks for the bookings of the listing of the scenario: with
    its one booking the action raises, without it the action answers
    the empty list. *)
Lemma X16_witness :
  ListingViewSetRest.bookings (Scenario.db_with Booking.confirmed) Scenario.other_user 1
  = Raise (AttributeError "reviews")
  /\ ListingViewSetRest.bookings Scenario.db_empty Scenario.other_user 1
     = Ok {| data := BookingList []; status := 200 |}.
Proof.
  split.
  - exact (proj1 (proj2 (X16_listing_bookings_answers_only_without_bookings
                           (Scenario.db_with Booking.confirmed) Scenario.other_user 1))
             Scenario.the_listing (Scenario.booked Booking.confirmed)
             eq_refl (or_introl eq_refl) eq_refl).
  - refine (proj1 (X16_listing_bookings_answers_only_without_bookings
                     Scenario.db_empty Scenario.other_user 1)
              Scenario.the_listing eq_refl _).
    intros b [].
Defined.

End Further_views.

Section Further_listings.

(** X17.  [get_queryset] of the listing views keeps exactly the
    listings that meet each bound the request gives:
    price_per_night at least [min_price], at most [max_price], and
    max_guests at least [min_guests]; a request without these
    parameters gets every listing, and one whose [min_price] exceeds
    its [max_price] gets none. *)
Theorem X17_listing_queryset_applies_the_given_bounds
    (db : DB) (q : ListingViewSetRest.query_params) :
  (forall l,
      In l (ListingViewSetRest.get_queryset db q)
      <-> In l (listings db)
          /\ (forall p, ListingViewSetRest.min_price q = Some p ->
                        Listing.price_per_night l >= p)
          /\ (forall p, ListingViewSetRest.max_price q = Some p ->
                        Listing.price_per_night l <= p)
          /\ (forall g, ListingViewSetRest.min_guests q = Some g ->
                        Listing.max_guests l >= g))
  /\ (ListingViewSetRest.min_price q = None ->
      ListingViewSetRest.max_price q = None ->
      ListingViewSetRest.min_guests q = None ->
      ListingViewSetRest.get_queryset db q = listings db)
  /\ (forall lo hi,
        ListingViewSetRest.min_price q = Some lo ->
        ListingViewSetRest.max_price q = Some hi ->
        hi < lo ->
        ListingViewSetRest.get_queryset db q = []).
Proof.
  assert (Hchar : forall l,
      In l (ListingViewSetRest.get_queryset db q)
      <-> In l (listings db)
          /\ (forall p, ListingViewSetRest.min_price q = Some p ->
                        Listing.price_per_night l >= p)
          /\ (forall p, ListingViewSetRest.max_price q = Some p ->
                        Listing.price_per_night l <= p)
          /\ (forall g, ListingViewSetRest.min_guests q = Some g ->
                        Listing.max_guests l >= g)).
  { intro l. unfold ListingViewSetRest.get_queryset.
    destruct (ListingViewSetRest.min_price q) as [lo|],
             (ListingViewSetRest.max_price q) as [hi|],
             (ListingViewSetRest.min_guests q) as [g|];
      rewrite ?filter_In, ?Z.geb_leb, ?Z.leb_le;
      split; intro H; repeat split; try tauto;
      try (intros x [= <-]; lia); try discriminate;
      try (destruct H as (_ & H1 & H2 & H3);
           first [specialize (H1 _ eq_refl) | idtac];
           first [specialize (H2 _ eq_refl) | idtac];
           first [specialize (H3 _ eq_refl) | idtac]; lia). }
  split; [exact Hchar|]. split.
  - intros H1 H2 H3. unfold ListingViewSetRest.get_queryset. now rewrite H1, H2, H3.
  - intros lo hi H1 H2 Hlt.
    destruct (ListingViewSetRest.get_queryset db q) as [|l rest] eqn:E; [reflexivity|].
    destruct (proj1 (Hchar l) (or_introl eq_refl)) as (_ & Hlo & Hhi & _).
    specialize (Hlo _ H1). specialize (Hhi _ H2). lia.
Qed.

(** The host entry of the validated data of a listing, read off the
    request. *)
Lemma listing_to_internal_value_host db partial req data :
  ListingSerializer.to_internal_value db partial req = Ok data ->
  match ListingSerializer.Initial.host_id req with
  | Some h =>
      exists u, ListingSerializer.Data.host data = Some u
                /\ In u (users db) /\ user_id u = h
  | None => ListingSerializer.Data.host data = None /\ partial = true
  end.
Proof.
  unfold ListingSerializer.to_internal_value.
  destruct (run_field partial true "host_id" _ _) as [h e1] eqn:F1.
  destruct (run_field partial true "title" _ _) as [v2 e2].
  destruct (run_field partial true "description" _ _) as [v3 e3].
  destruct (run_field partial true "property_type" _ _) as [v4 e4].
  destruct (run_field partial true "price_per_night" _ _) as [v5 e5].
  destruct (run_field partial true "bedrooms" _ _) as [v6 e6].
  destruct (run_field partial true "bathrooms" _ _) as [v7 e7].
  destruct (run_field partial true "max_guests" _ _) as [v8 e8].
  destruct (run_field partial true "address" _ _) as [v9 e9].
  destruct (run_field partial true "city" _ _) as [v10 e10].
  destruct (run_field partial true "country" _ _) as [v11 e11].
  destruct (run_field partial false "amenities" _ _) as [v12 e12].
  destruct (run_field partial false "is_available" _ _) as [v13 e13].
  destruct e1 as [|x e1]; [|discriminate].
  destruct (_ ++ _); [|discriminate].
  intros [= <-]; simpl.
  apply run_field_clean in F1.
  destruct (ListingSerializer.Initial.host_id req) as [pk|].
  - destruct F1 as (u & Hu & ->). apply related_field_inl in Hu.
    exists u. tauto.
  - destruct F1 as [-> Hp]. split; [reflexivity|].
    simpl in Hp. now destruct partial.
Qed.

(** X18.  Only its host updates a listing: anyone else is refused with
    a 403, and an unknown key with a 404.  But the host that an update
    stores on the row is the user [host_id] names (the former host when
    a PATCH names none), not the caller: unlike [perform_create], the
    update does not pin the host, so a PUT hands the listing over.  The
    bookings are not touched. *)
Theorem X18_listing_update_is_host_only_and_can_hand_over
    (db : DB) (user : User) (partial : bool) (pk : Z)
    (req : ListingSerializer.Initial.t) :
  (forall instance,
      find (fun l => Listing.id l =? pk) (listings db) = Some instance ->
      Listing.host instance <> user_id user ->
      ListingViewSetRest.update db user partial pk req = Raise PermissionDenied)
  /\ (find (fun l => Listing.id l =? pk) (listings db) = None ->
      ListingViewSetRest.update db user partial pk req = Raise Http404)
  /\ (forall db' answer,
      ListingViewSetRest.update db user partial pk req = Ok (db', answer) ->
      exists instance row,
        find (fun l => Listing.id l =? pk) (listings db) = Some instance
        /\ Listing.host instance = user_id user
        /\ db' = save_listing db row
        /\ In row (listings db')
        /\ Listing.id row = pk
        /\ Listing.host row
           = default (ListingSerializer.Initial.host_id req) (Listing.host instance)
        /\ bookings db' = bookings db).
Proof.
  unfold ListingViewSetRest.update, ListingViewSet.get_object.
  assert (Hm : SAFE_METHODS (if partial then PATCH else PUT) = false)
    by (destruct partial; reflexivity).
  split; [|split].
  - intros instance -> Hne. unfold IsOwnerOrReadOnly.has_object_permission.
    rewrite Hm. apply Z.eqb_neq in Hne. rewrite Hne. reflexivity.
  - intros ->. reflexivity.
  - intros db' resp H.
    destruct (find _ (listings db)) as [instance|] eqn:F; [|discriminate].
    unfold IsOwnerOrReadOnly.has_object_permission in H. rewrite Hm in H.
    destruct (Listing.host instance =? user_id user) eqn:Eh; [|discriminate].
    simpl in H. invert_bind H. rename a into data.
    apply listing_to_internal_value_host in Ha.
    unfold listing_serializer_update in H. injection H as <- <-.
    apply find_some in F. destruct F as [Fin Fid]. apply Z.eqb_eq in Fid.
    exists instance. eexists. split; [reflexivity|].
    split; [now apply Z.eqb_eq|]. split; [reflexivity|].
    split; [|split; [exact Fid|split; [|reflexivity]]].
    + unfold save_listing. simpl. apply in_map_iff. exists instance.
      split; [|exact Fin]. simpl. now rewrite Z.eqb_refl.
    + simpl. destruct (ListingSerializer.Initial.host_id req) as [h|].
      * destruct Ha as (u & -> & _ & <-). reflexivity.
      * destruct Ha as [-> _]. reflexivity.
Qed.

(** The host of the scenario PUTs the listing with [host_id] 2: the
    stored listing has host 2 from then on, and the next PUT of user 1
    is refused. *)
Lemma X18_witness :
  exists db' answer row,
    ListingViewSetRest.update Scenario.db_empty Scenario.host_user false 1 (listing_request 2)
    = Ok (db', answer)
    /\ listings db' = [row]
    /\ Listing.host row = 2
    /\ ListingViewSetRest.update db' Scenario.host_user false 1 (listing_request 1)
       = Raise PermissionDenied.
Proof.
  destruct (proj2 (proj2 (X18_listing_update_is_host_only_and_can_hand_over
                            Scenario.db_empty Scenario.host_user false 1
                            (listing_request 2))) _ _ eq_refl)
    as (instance & row & _ & _ & Hdb & _ & Hid & Hhost & _).
  do 2 eexists. exists row. split; [reflexivity|].
  assert (Hrows : listings (save_listing Scenario.db_empty row) = [row])
    by (unfold save_listing; simpl; rewrite Hid; reflexivity).
  split; [rewrite <- Hdb in Hrows; exact Hrows|].
  split; [exact Hhost|].
  vm_compute. reflexivity.
Defined.

(** X19.  A listing is deleted by its host only (403 for anyone else,
    404 for an unknown key), and the delete cascades: no listing with
    that key and no booking of it remain, whatever the status of the
    bookings, while every other listing and every booking of another
    listing stay. *)
Theorem X19_listing_destroy_is_host_only_and_cascades
    (db : DB) (user : User) (pk : Z) :
  (forall listing,
      find (fun l => Listing.id l =? pk) (listings db) = Some listing ->
      Listing.host listing <> user_id user ->
      ListingViewSet.destroy db user pk = Raise PermissionDenied)
  /\ (find (fun l => Listing.id l =? pk) (listings db) = None ->
      ListingViewSet.destroy db user pk = Raise Http404)
  /\ (forall listing,
      find (fun l => Listing.id l =? pk) (listings db) = Some listing ->
      Listing.host listing = user_id user ->
      exists db',
        ListingViewSet.destroy db user pk
        = Ok (db', Ok {| data := NoContent; status := HTTP_204_NO_CONTENT |})
        /\ (forall l, In l (listings db') <-> In l (listings db) /\ Listing.id l <> pk)
        /\ (forall b, In b (bookings db')
                      <-> In b (bookings db) /\ Booking.listing b <> pk)
        /\ users db' = users db).
Proof.
  unfold ListingViewSet.destroy, ListingViewSet.get_object.
  split; [|split].
  - intros listing -> Hne. unfold IsOwnerOrReadOnly.has_object_permission. simpl.
    apply Z.eqb_neq in Hne. rewrite Hne. reflexivity.
  - intros ->. reflexivity.
  - intros listing F Hhost. pose proof F as F'. rewrite F.
    apply find_some in F'. destruct F' as [_ Hid]. apply Z.eqb_eq in Hid.
    unfold IsOwnerOrReadOnly.has_object_permission. simpl.
    apply Z.eqb_eq in Hhost. rewrite Hhost. simpl.
    eexists. split; [reflexivity|]. simpl.
    split; [|split; [|reflexivity]].
    + intro l. rewrite filter_In, negb_true_iff, Z.eqb_neq, Hid. reflexivity.
    + intro b. rewrite filter_In, negb_true_iff, Z.eqb_neq, Hid. reflexivity.
Qed.

(** The host deletes the listing of the scenario: its confirmed booking
    goes with it. *)
Lemma X19_witness :
  exists db',
    ListingViewSet.destroy (Scenario.db_with Booking.confirmed) Scenario.host_user 1
    = Ok (db', Ok {| data := NoContent; status := HTTP_204_NO_CONTENT |})
    /\ ~ In (Scenario.booked Booking.confirmed) (bookings db').
Proof.
  destruct (proj2 (proj2 (X19_listing_destroy_is_host_only_and_cascades
                            (Scenario.db_with Booking.confirmed) Scenario.host_user 1))
              Scenario.the_listing eq_refl eq_refl)
    as (db' & Hd & _ & Hb & _).
  exists db'. split; [exact Hd|].
  intro Hin. apply Hb in Hin. destruct Hin as [_ Hne]. apply Hne. reflexivity.
Defined.

End Further_listings.

Section Further_bounds.

Import BookingSerializer.

(** X20.  [validate] bounds the number of guests from above only: a
    candidate it accepts is accepted as well, at the same price, with
    any smaller number of guests, zero and negative numbers included. *)
Theorem X20_validate_has_no_lower_bound_on_guests
    (db : DB) (instance : option Booking.t) (listing : Listing.t)
    (check_in check_out : PyDate.date) (n n' : Z) (d : Data.t)
    (Haccepted : validate db instance (candidate listing check_in check_out n) = Ok d)
    (Hfewer : n' <= n) :
  validate db instance (candidate listing check_in check_out n')
  = Ok (Data.set_total_price (candidate listing check_in check_out n')
          (PyDate.days_between check_out check_in * Listing.price_per_night listing)).
Proof.
  apply validate_Ok in Haccepted.
  destruct Haccepted as (l & ci & co & m & Hl & Hci & Hco & Hm & Hnot & _).
  simpl in Hl, Hci, Hco, Hm.
  injection Hl as <-. injection Hci as <-. injection Hco as <-. injection Hm as <-.
  assert (check_in < check_out) as Hd by (eapply not_rejected_dates; eauto).
  assert (n <= Listing.max_guests listing) as Hn.
  { destruct (Z_le_gt_dec n (Listing.max_guests listing)); [assumption|].
    exfalso. apply Hnot. right. left. assumption. }
  rewrite validate_candidate by lia.
  assert (exists_ (conflicting_bookings db instance listing check_in check_out) = false)
    as ->; [|reflexivity].
  apply exists_false_iff. intros x Hx. apply in_conflicting_bookings in Hx.
  apply Hnot. right. right. eauto.
Qed.

(** The days after the existing booking, for minus three guests. *)
Lemma X20_witness :
  validate (Scenario.db_with Booking.confirmed) None
    (candidate Scenario.the_listing (PyDate.mk 2024 6 5) (PyDate.mk 2024 6 8) (-3))
  = Ok (Data.set_total_price
          (candidate Scenario.the_listing (PyDate.mk 2024 6 5) (PyDate.mk 2024 6 8) (-3))
          30000).
Proof.
  refine (X20_validate_has_no_lower_bound_on_guests
            (Scenario.db_with Booking.confirmed) None Scenario.the_listing
            (PyDate.mk 2024 6 5) (PyDate.mk 2024 6 8) 2 (-3) _ eq_refl _).
  vm_compute. discriminate.
Defined.

(** X21.  The conflict scan leaves out the booking being updated: on
    tables with distinct keys and no overlap, an update of a pending or
    confirmed booking that keeps its listing and its dates passes
    [validate] (for a number of guests the listing allows), although
    the very same candidate is rejected as already booked when it comes
    as a new booking. *)
Theorem X21_an_update_does_not_conflict_with_itself
    (db : DB) (booking : Booking.t) (listing : Listing.t) (n : Z)
    (Hpk : pk_unique db) (Hno : no_overlap db)
    (Hin : In booking (bookings db)) (Hact : active booking)
    (Hdates : Booking.check_in booking < Booking.check_out booking)
    (Hl : Booking.listing booking = Listing.id listing)
    (Hn : n <= Listing.max_guests listing) :
  let data :=
    candidate listing (Booking.check_in booking) (Booking.check_out booking) n in
  validate db (Some booking) data
  = Ok (Data.set_total_price data
          (PyDate.days_between (Booking.check_out booking) (Booking.check_in booking)
           * Listing.price_per_night listing))
  /\ validate db None data
     = Raise (ValidationError (Message
         "This listing is already booked for the selected dates.")).
Proof.
  intro data. unfold data. rewrite !validate_candidate by assumption.
  split.
  - match goal with |- (if ?b then _ else _) = _ => assert (b = false) as -> end;
      [|reflexivity].
    apply exists_false_iff. intros existing Hex.
    apply in_conflicting_bookings in Hex.
    destruct Hex as [Hex (El & Ea & Ho & Hi & Hother)].
    specialize (Hother booking eq_refl).
    apply (Hno booking existing); auto.
    + intros ->. contradiction.
    + congruence.
    + unfold overlap. lia.
  - assert (exists_ (conflicting_bookings db None listing (Booking.check_in booking)
                       (Booking.check_out booking)) = true) as ->; [|reflexivity].
    apply exists_true_iff. exists booking. apply in_conflicting_bookings.
    split; [exact Hin|]. unfold conflicts_with. unfold active in Hact.
    repeat split; auto; try lia. discriminate.
Qed.

(** The confirmed booking of the scenario, updated over its own dates. *)
Lemma X21_witness :
  validate (Scenario.db_with Booking.confirmed) (Some (Scenario.booked Booking.confirmed))
    (candidate Scenario.the_listing (PyDate.mk 2024 6 1) (PyDate.mk 2024 6 5) 2)
  = Ok (Data.set_total_price
          (candidate Scenario.the_listing (PyDate.mk 2024 6 1) (PyDate.mk 2024 6 5) 2)
          40000).
Proof.
  refine (proj1 (X21_an_update_does_not_conflict_with_itself
                   (Scenario.db_with Booking.confirmed) (Scenario.booked Booking.confirmed)
                   Scenario.the_listing 2
                   (scenario_pk_unique _) (scenario_no_overlap _) (or_introl eq_refl)
                   (or_intror eq_refl) _ eq_refl _)).
  - vm_compute. reflexivity.
  - vm_compute. discriminate.
Defined.

End Further_bounds.

Section Further_answers.

Import BookingSerializer.

(** The tables and the answer of a served [confirm] or [cancel]: an
    error answer on the tables as they were, or a saved row and the
    data of the response that fail to build. *)
Lemma confirm_cancel_answer db user pk db' answer :
  BookingViewSet.confirm db user pk = Ok (db', answer)
  \/ BookingViewSet.cancel db user pk = Ok (db', answer) ->
  (db' = db
   /\ exists message code,
        answer = Ok {| data := Error message; status := code |}
        /\ (code = HTTP_400_BAD_REQUEST \/ code = HTTP_403_FORBIDDEN))
  \/ answer = Raise (AttributeError "reviews").
Proof.
  intros [H | H].
  - unfold BookingViewSet.confirm in H. invert_bind H. rename a into booking.
    unfold BookingViewSet.confirm_booking in H.
    destruct (negb _); [injection H as <- <-; left; eauto 6|].
    invert_bind H. rename a into listing, Ha0 into Hl.
    destruct (negb _); [injection H as <- <-; left; eauto 6|].
    cbv zeta in H. injection H as <- <-. right.
    rewrite (booking_data_raises _ _ listing) by exact Hl. reflexivity.
  - unfold BookingViewSet.cancel in H. invert_bind H. rename a into booking.
    unfold BookingViewSet.cancel_booking in H.
    destruct (Booking.status_eqb _ _); [injection H as <- <-; left; eauto 6|].
    invert_bind H. rename a into listing, Ha0 into Hl.
    destruct (negb _); [injection H as <- <-; left; eauto 6|].
    cbv zeta in H. injection H as <- <-. right.
    rewrite (booking_data_raises _ _ listing) by exact Hl. reflexivity.
Qed.

Lemma listing_update_Ok db user partial pk req db' answer :
  ListingViewSetRest.update db user partial pk req = Ok (db', answer) ->
  answer = Raise (AttributeError "reviews").
Proof.
  unfold ListingViewSetRest.update. intro H.
  invert_bind H. invert_bind H.
  unfold listing_serializer_update in H. now injection H as _ <-.
Qed.

(** X22.  No request that writes a row is answered with a success.
    [get_average_rating] reads [obj.reviews], and no model gives a
    listing that attribute: whenever the create or the update of a
    booking or of a listing has stored its row, and whenever [confirm]
    or [cancel] has stored the new status, building [serializer.data]
    raises [AttributeError] (a 500), with the row left in the table.
    [confirm] and [cancel] answer, on unchanged tables, with their 400
    and 403 errors only. *)
Theorem X22_no_write_is_answered_with_success (db : DB) (user : User) :
  (forall req db' answer,
      BookingViewSet.create db user req = Ok (db', answer) ->
      answer = Raise (AttributeError "reviews"))
  /\ (forall partial pk req db' answer,
      BookingViewSet.update db user partial pk req = Ok (db', answer) ->
      answer = Raise (AttributeError "reviews"))
  /\ (forall pk db' answer,
      BookingViewSet.confirm db user pk = Ok (db', answer) ->
      (db' = db
       /\ exists message code,
            answer = Ok {| data := Error message; status := code |}
            /\ (code = 400 \/ code = 403))
      \/ answer = Raise (AttributeError "reviews"))
  /\ (forall pk db' answer,
      BookingViewSet.cancel db user pk = Ok (db', answer) ->
      (db' = db
       /\ exists message code,
            answer = Ok {| data := Error message; status := code |}
            /\ (code = 400 \/ code = 403))
      \/ answer = Raise (AttributeError "reviews"))
  /\ (forall req db' answer,
      ListingViewSet.create db user req = Ok (db', answer) ->
      answer = Raise (AttributeError "reviews"))
  /\ (forall partial pk req db' answer,
      ListingViewSetRest.update db user partial pk req = Ok (db', answer) ->
      answer = Raise (AttributeError "reviews"))
  /\ exception_status (AttributeError "reviews") = 500.
Proof.
  split; [|split; [|split; [|split; [|split; [|split]]]]].
  - intros req db' answer H. apply create_Ok in H.
    destruct H as (data & l & ci & co & n & _ & _ & _ & _ & _ & _ & _ & H). exact H.
  - intros partial pk req db' answer H. apply update_Ok in H.
    destruct H as (i & data & l & ci & co & n & _ & _ & _ & _ & _ & _ & _ & _ & H).
    exact H.
  - intros pk db' answer H. apply (confirm_cancel_answer db user pk). now left.
  - intros pk db' answer H. apply (confirm_cancel_answer db user pk). now right.
  - intros req db' answer H. apply listing_create_Ok in H.
    destruct H as (row & H & _). exact H.
  - intros partial pk req db' answer H. now apply listing_update_Ok in H.
  - reflexivity.
Qed.

(** The guest books the days after the existing booking: the row is
    stored, and the request ends in the [AttributeError]. *)
Lemma X22_witness :
  exists db' answer row,
    BookingViewSet.create (Scenario.db_with Booking.confirmed) Scenario.guest_user
      (Scenario.request (PyDate.mk 2024 6 5) (PyDate.mk 2024 6 8) None)
    = Ok (db', answer)
    /\ bookings db' = row :: bookings (Scenario.db_with Booking.confirmed)
    /\ answer = Raise (AttributeError "reviews").
Proof.
  do 3 eexists. split; [vm_compute; reflexivity|]. split; [reflexivity|].
  exact (proj1 (X22_no_write_is_answered_with_success
                  (Scenario.db_with Booking.confirmed) Scenario.guest_user)
           (Scenario.request (PyDate.mk 2024 6 5) (PyDate.mk 2024 6 8) None)
           _ _ eq_refl).
Defined.

(** X23.  The queryset [upcoming] builds holds, in ascending order of
    check_in, exactly the rows of the booking table whose guest or
    listing host is the caller, whose check_out is today or later and
    whose status is pending or confirmed, each as often as the table
    holds it. *)
Theorem X23_upcoming_queryset_selects_and_orders
    (db : DB) (user : User) (today : PyDate.date) :
  let l := BookingViewSet.upcoming_bookings db user today in
  Sorted check_in_le l
  /\ (forall b, In b l <-> In b (bookings db) /\ is_upcoming db user today b)
  /\ (exists keep, Permutation l (filter keep (bookings db))).
Proof.
  intro l. unfold l, BookingViewSet.upcoming_bookings.
  split; [apply order_by_check_in_sorted|]. split.
  - intro b. rewrite (Permutation_in' (eq_refl b) (order_by_check_in_perm _)).
    rewrite filter_In. unfold is_upcoming, BookingViewSet.guest_or_host.
    rewrite !andb_true_iff, orb_true_iff, status_in_iff', Z.eqb_eq, Z.geb_leb, Z.leb_le.
    intuition lia.
  - eexists. apply order_by_check_in_perm.
Qed.

(** X24.  With [timezone] imported, [upcoming] answers only when
    nothing is upcoming: on an empty page it answers 200 with an empty
    list (paginated or not), and as soon as the page holds a booking of
    a listing of the table, building the data raises [AttributeError]
    on the nested listing. *)
Theorem X24_upcoming_with_timezone_answers_only_an_empty_page
    (paginator : option (list Booking.t -> list Booking.t))
    (db : DB) (user : User) (today : PyDate.date) :
  let page :=
    match paginator with
    | Some paginate_queryset =>
        paginate_queryset (BookingViewSet.upcoming_bookings db user today)
    | None => BookingViewSet.upcoming_bookings db user today
    end in
  (page = [] ->
     BookingViewSet.upcoming repaired_globals paginator db user today
     = Ok {| data := match paginator with Some _ => Page [] | None => BookingList [] end;
             status := 200 |})
  /\ (forall b rest l,
      page = b :: rest -> related_listing db b = Ok l ->
      BookingViewSet.upcoming repaired_globals paginator db user today
      = Raise (AttributeError "reviews")).
Proof.
  intro page. unfold page, BookingViewSet.upcoming. simpl.
  split.
  - destruct paginator as [p|]; intros ->; reflexivity.
  - intros b rest l Hp Hl.
    destruct paginator as [p|]; rewrite Hp; simpl;
      rewrite (booking_data_raises _ _ l Hl); reflexivity.
Qed.

(** The guest asks for the upcoming bookings on 2024-06-02, with the
    import in place: the confirmed booking of the scenario is upcoming,
    and the request raises; on the empty table it is answered. *)
Lemma X24_witness :
  BookingViewSet.upcoming repaired_globals None (Scenario.db_with Booking.confirmed)
    Scenario.guest_user (PyDate.mk 2024 6 2)
  = Raise (AttributeError "reviews")
  /\ BookingViewSet.upcoming repaired_globals None Scenario.db_empty
       Scenario.guest_user (PyDate.mk 2024 6 2)
     = Ok {| data := BookingList []; status := 200 |}.
Proof.
  split.
  - exact (proj2 (X24_upcoming_with_timezone_answers_only_an_empty_page
                    None (Scenario.db_with Booking.confirmed) Scenario.guest_user
                    (PyDate.mk 2024 6 2))
             (Scenario.booked Booking.confirmed) [] Scenario.the_listing
             eq_refl eq_refl).
  - exact (proj1 (X24_upcoming_with_timezone_answers_only_an_empty_page
                    None Scenario.db_empty Scenario.guest_user (PyDate.mk 2024 6 2))
             eq_refl).
Defined.

End Further_answers.

Section Further_witnesses.

(** The request of the scenario without its [guest_id]. *)
Lemma X5_witness :
  exists errs,
    BookingViewSet.create (Scenario.db_with Booking.confirmed) Scenario.guest_user
      (request_as (PyDate.mk 2024 6 5) (PyDate.mk 2024 6 8) None None)
    = Raise (ValidationError (FieldErrors errs))
    /\ In ("guest_id", "This field is required.") errs.
Proof.
  exact (proj1 (X5_create_requires_a_guest_id_it_then_ignores
                  (Scenario.db_with Booking.confirmed) Scenario.guest_user
                  (request_as (PyDate.mk 2024 6 5) (PyDate.mk 2024 6 8) None None))
               eq_refl).
Defined.

End Further_witnesses.
